(** * Post / like consistency and authorization core of the blogging API

    A shallow embedding of the service layer (LikeService, PostService,
    UserService), of the model classes they call (User, Post, PostLike) and
    of the part of the controllers and route validation that decides which
    kind of failure a caller sees.

    Conventions of the embedding:
    - a table is the list of its rows in the order the store scans them;
    - a string is held as its UTF-8 bytes, and what JavaScript counts in it
      (UTF-16 units, white space) is read off its code points ([JsString]);
    - a [Date] is its number of milliseconds since the epoch ([Z]); every
      service call receives the clock reading [now] of that call, which is
      what both [new Date()] and the store's [NOW()] evaluate to;
    - an [async] function is a computation in the monad [M]: it threads the
      database and either resolves with a value or rejects with the thrown
      exception, keeping whatever was written before the [throw];
    - the [try { ... } catch (error) { logger.error(...); throw error; }]
      wrapper of every service method rethrows unchanged and is left out,
      as is logging. *)

From Stdlib Require Import ZArith List String Ascii Bool Lia.
From Stdlib Require Import Sorting.Permutation Sorting.Sorted.
Import ListNotations.

Local Open Scope string_scope.
Local Open Scope list_scope.
Local Open Scope Z_scope.

Set Implicit Arguments.

(** ** Exceptions *)

(** The [name] of a thrown object: services throw plain [Error]s, the ORM
    throws its own classes, the runtime throws [TypeError]. *)
Inductive ErrorName : Type :=
| Error
| TypeError
| SequelizeUniqueConstraintError
| SequelizeValidationError.

Record Exn : Type := { name : ErrorName; message : string }.

Definition new_Error (msg : string) : Exn := {| name := Error; message := msg |}.

Inductive Result (A : Type) : Type :=
| Resolved (a : A)
| Rejected (e : Exn).

Arguments Resolved {A} a.
Arguments Rejected {A} e.

(** A line feed, as in the separator of the ORM's error messages. *)
Definition line_feed : string := String (ascii_of_nat 10) EmptyString.

(** The ORM's [ValidationError] for the failed validators [msgs]: its
    message is [errors.map(err => `${err.type}: ${err.message}`)] joined by
    a comma and a line feed, every item being of type "Validation error". *)
Definition ValidationError (msgs : list string) : Exn :=
  {| name := SequelizeValidationError;
     message := String.concat ("," ++ line_feed)%string
                  (map (fun msg => "Validation error: " ++ msg)%string msgs) |}.

(** [String.prototype.includes] *)
Fixpoint includes_from (fuel : nat) (needle hay : string) : bool :=
  if prefix needle hay then true
  else match fuel, hay with
       | S fuel', String _ hay' => includes_from fuel' needle hay'
       | _, _ => false
       end.

Definition includes (hay needle : string) : bool :=
  includes_from (String.length hay) needle hay.

(** ** Strings *)

Module JsString.

Definition continues (b : Z) : bool := (128 <=? b) && (b <? 192).

(** The bits a byte adds to its code point: the low seven of an ASCII
    byte, six of a continuation byte, five, four or three of the byte that
    opens a sequence of two, three or four. *)
Definition payload (b : Z) : Z :=
  if b <? 128 then b
  else if b <? 192 then b - 128
  else if b <? 224 then b - 192
  else if b <? 240 then b - 224
  else b - 240.

(** The code points of a string from its UTF-8 bytes; [open] is the code
    point whose bytes are being read. *)
Fixpoint decode (open : option Z) (s : string) : list Z :=
  match s with
  | EmptyString =>
      match open with
      | Some cp => [cp]
      | None => []
      end
  | String c rest =>
      let b := Z.of_nat (nat_of_ascii c) in
      if continues b
      then decode (Some (match open with
                         | Some cp => cp * 64 + payload b
                         | None => payload b
                         end)) rest
      else match open with
           | Some cp => cp :: decode (Some (payload b)) rest
           | None => decode (Some (payload b)) rest
           end
  end.

Definition code_points (s : string) : list Z := decode None s.

(** [s.length]: the UTF-16 units of the string, two for a code point
    beyond the basic plane. *)
Definition length (s : string) : nat :=
  fold_right (fun cp n => if 65536 <=? cp then S (S n) else S n) 0%nat (code_points s).

(** The class [\s] of a regular expression: tab to carriage return, space,
    no-break space, U+1680, U+2000 to U+200A, the line and paragraph
    separators, U+202F, U+205F, U+3000 and the byte order mark. *)
Definition is_white_space (cp : Z) : bool :=
  ((9 <=? cp) && (cp <=? 13)) || (cp =? 32) || (cp =? 160) || (cp =? 5760)
  || ((8192 <=? cp) && (cp <=? 8202)) || (cp =? 8232) || (cp =? 8233)
  || (cp =? 8239) || (cp =? 8287) || (cp =? 12288) || (cp =? 65279).

End JsString.

(** ** The validators of the model attributes *)

Module Validator.

(** [notEmpty]: [!str.match(/^[\s\t\r\n]*$/)], a string that is not white
    space throughout. *)
Definition notEmpty (s : string) : bool :=
  negb (forallb JsString.is_white_space (JsString.code_points s)).

Section Len.

(** The number of characters that [isLength] of validator.js counts in a
    string; the ORM's [len] hands the string to it. The library is not part
    of this code base. *)
Variable characters : string -> Z.

(** [len: { args: [lo, hi] }] *)
Definition len (lo hi : Z) (s : string) : bool :=
  (lo <=? characters s) && (characters s <=? hi).

End Len.

(** The [msg] of a validator that fails. *)
Definition failure (passes : bool) (msg : string) : list string :=
  if passes then [] else [msg].

(** The validators of an attribute run when the attribute is being written. *)
Definition written {A : Type} (value : option A) (validators : A -> list string)
  : list string :=
  match value with
  | Some x => validators x
  | None => []
  end.

End Validator.

(** ** Models *)

(** JavaScript truthiness of an optional number / string, as used by
    [if (user_id)] and [if (search)]. *)
Definition truthy_number (x : option Z) : option Z :=
  match x with
  | Some n => if n =? 0 then None else Some n
  | None => None
  end.

Definition truthy_string (x : option string) : option string :=
  match x with
  | Some "" => None
  | other => other
  end.

(** A key of the finder's [where] wins over the same key of the scope
    ([Object.assign(scopeWhere, optionsWhere)] in the ORM's scope injection). *)
Definition assign_key {A : Type} (scope options : option A) : option A :=
  match options with
  | Some v => Some v
  | None => scope
  end.

Definition holds {A : Type} (test : A -> bool) (cond : option A) : bool :=
  match cond with
  | Some v => test v
  | None => true
  end.

Module User.

Record t : Type := {
  id : Z;
  name : string;
  email : string;
  password_hash : string
}.

Definition findByPk (pk : Z) (table : list t) : option t :=
  find (fun u => id u =? pk) table.

Definition findOne_by_email (mail : string) (table : list t) : option t :=
  find (fun u => String.eqb (email u) mail) table.

End User.

Module Post.

Record t : Type := {
  id : Z;
  user_id : Z;
  title : string;
  summary : string;
  content : string;
  available_at : Z
}.

(** The [where] objects the services build: equality on [id] and [user_id],
    [available_at: { [Op.lte]: bound }], and the [Op.or] block of three
    [iLike] patterns built from [search]. *)
Record WhereOptions : Type := {
  w_id : option Z;
  w_user_id : option Z;
  w_available_at_lte : option Z;
  w_search : option string
}.

Definition where_all : WhereOptions :=
  {| w_id := None; w_user_id := None; w_available_at_lte := None; w_search := None |}.

(** [defaultScope: { where: { available_at: { [Op.lte]: fn('NOW') } } }] *)
Definition defaultScope (now : Z) : WhereOptions :=
  {| w_id := None; w_user_id := None; w_available_at_lte := Some now; w_search := None |}.

(** Every finder, [count], [update] and [destroy] called on the model class
    itself (never through [unscoped()] or [scope(...)] in this code base)
    runs with the default scope merged under its own [where]: a call whose
    [where] has no [available_at] key inherits [available_at <= NOW()]. The
    scope [withScheduled] that would lift it is declared and never used. *)
Definition injectScope (now : Z) (w : WhereOptions) : WhereOptions :=
  let s := defaultScope now in
  {| w_id := assign_key (w_id s) (w_id w);
     w_user_id := assign_key (w_user_id s) (w_user_id w);
     w_available_at_lte := assign_key (w_available_at_lte s) (w_available_at_lte w);
     w_search := assign_key (w_search s) (w_search w) |}.

(** [isAvailable()] *)
Definition isAvailable (now : Z) (this : t) : bool := available_at this <=? now.

(** [canEdit(userId)] *)
Definition canEdit (this : t) (userId : Z) : bool := user_id this =? userId.

(** The part of a [where] that does not look at text. *)
Definition matches_keys (w : WhereOptions) (r : t) : bool :=
  holds (Z.eqb (id r)) (w_id w)
  && holds (Z.eqb (user_id r)) (w_user_id w)
  && holds (fun bound => available_at r <=? bound) (w_available_at_lte w).

(** [Post.findByPk(pk)] is [findOne({ where: { id: pk } })], default scope
    included. *)
Definition findByPk (now pk : Z) (table : list t) : option t :=
  find (matches_keys (injectScope now
          {| w_id := Some pk; w_user_id := None;
             w_available_at_lte := None; w_search := None |})) table.

(** The values of a bulk [Post.update(values, ...)]; the route's schema
    strips every other field. *)
Record Values : Type := {
  v_title : option string;
  v_summary : option string;
  v_content : option string;
  v_available_at : option Z
}.

Section Validators.

Variable characters : string -> Z.

(** The validators of [Post.init] in the order of the attributes, each with
    its [msg]; those of [available_at] pass on every [Date]. *)
Definition failures (v : Values) : list string :=
  Validator.written (v_title v) (fun s =>
    Validator.failure (Validator.notEmpty s) "Título é obrigatório"
    ++ Validator.failure (Validator.len characters 1 200 s)
         "Título deve ter entre 1 e 200 caracteres")
  ++ Validator.written (v_summary v) (fun s =>
       Validator.failure (Validator.notEmpty s) "Resumo é obrigatório"
       ++ Validator.failure (Validator.len characters 10 500 s)
            "Resumo deve ter entre 10 e 500 caracteres")
  ++ Validator.written (v_content v) (fun s =>
       Validator.failure (Validator.notEmpty s) "Conteúdo é obrigatório"
       ++ Validator.failure (Validator.len characters 50 10000 s)
            "Conteúdo deve ter entre 50 e 10000 caracteres").

Definition validate (v : Values) : bool :=
  match failures v with
  | [] => true
  | _ :: _ => false
  end.

End Validators.

Definition set_attr {A : Type} (value : option A) (old : A) : A :=
  match value with
  | Some x => x
  | None => old
  end.

Definition assign (v : Values) (r : t) : t :=
  {| id := id r; user_id := user_id r;
     title := set_attr (v_title v) (title r);
     summary := set_attr (v_summary v) (summary r);
     content := set_attr (v_content v) (content r);
     available_at := set_attr (v_available_at v) (available_at r) |}.

Section Writes.

Variable characters : string -> Z.

(** [Post.update(values, { where: { id: pk } })]: validation first, then the
    scoped [UPDATE]. *)
Definition update (now : Z) (v : Values) (pk : Z) (table : list t)
  : Result unit * list t :=
  if validate characters v
  then (Resolved tt,
        map (fun r =>
               if matches_keys (injectScope now
                    {| w_id := Some pk; w_user_id := None;
                       w_available_at_lte := None; w_search := None |}) r
               then assign v r else r) table)
  else (Rejected (ValidationError (failures characters v)), table).

(** [Post.create({ title, summary, content, available_at, user_id })]: the
    validators run on the instance, then the row is inserted under the id
    [nextval] that the sequence of [posts.id] hands out. *)
Definition create (nextval : Z) (title_ summary_ content_ : string)
  (available_at_ user_id_ : Z) (table : list t) : Result t * list t :=
  let row := {| id := nextval; user_id := user_id_; title := title_;
                summary := summary_; content := content_;
                available_at := available_at_ |} in
  let values := {| v_title := Some title_; v_summary := Some summary_;
                   v_content := Some content_; v_available_at := Some available_at_ |} in
  if validate characters values
  then (Resolved row, table ++ [row])
  else (Rejected (ValidationError (failures characters values)), table).

End Writes.

(** [Post.destroy({ where: { id: pk } })]: the scoped [DELETE]; the rows it
    removes. *)
Definition destroyed (now pk : Z) (r : t) : bool :=
  matches_keys (injectScope now
    {| w_id := Some pk; w_user_id := None;
       w_available_at_lte := None; w_search := None |}) r.

Section Order.

(** The query orders by [available_at] and names no second key: among rows
    of equal [available_at] the store yields whatever order its plan gives,
    which need not be the scan order nor the same from one query to the
    next. [tie] is the rank the store happens to give the rows in the query
    at hand; rows it ranks alike stay in scan order. *)
Variable tie : t -> Z.

Definition before (p q : t) : bool :=
  (available_at q <? available_at p)
  || ((available_at q =? available_at p) && (tie p <=? tie q)).

(** [order: [['available_at', 'DESC']]] *)
Fixpoint insert_desc (p : t) (sorted : list t) : list t :=
  match sorted with
  | [] => [p]
  | q :: rest =>
      if before p q then p :: sorted
      else q :: insert_desc p rest
  end.

Definition order_by_available_at_desc (l : list t) : list t :=
  fold_right insert_desc [] l.

End Order.

Section Search.

(** The store's [ILIKE] operator: [iLike text pattern]. *)
Variable iLike : string -> string -> bool.

(** [{ [Op.or]: [ { title: { [Op.iLike]: `%${search}%` } }, { summary: ... },
    { content: ... } ] }] *)
Definition search_hit (search : string) (r : t) : bool :=
  let pattern := ("%" ++ search ++ "%")%string in
  iLike (title r) pattern || iLike (summary r) pattern || iLike (content r) pattern.

Definition matches (w : WhereOptions) (r : t) : bool :=
  matches_keys w r && holds (fun s => search_hit s r) (w_search w).

(** The rows a scoped [SELECT ... WHERE ...] sees. *)
Definition findAll (now : Z) (w : WhereOptions) (table : list t) : list t :=
  filter (matches (injectScope now w)) table.

End Search.

End Post.

Module PostLike.

(** The attributes declared in [PostLike.init]. *)
Record t : Type := {
  id : Z;
  user_id : Z;
  post_id : Z;
  liked_at : Z;
  is_deleted : bool
}.

(** Rows in scan order and the auto-increment sequence of [id]. *)
Record table : Type := { rows : list t; id_seq : Z }.

Record WhereOptions : Type := {
  w_id : option Z;
  w_user_id : option Z;
  w_post_id : option Z;
  w_is_deleted : option bool
}.

Definition where_all : WhereOptions :=
  {| w_id := None; w_user_id := None; w_post_id := None; w_is_deleted := None |}.

(** [defaultScope: { where: { is_deleted: false } }] *)
Definition defaultScope : WhereOptions :=
  {| w_id := None; w_user_id := None; w_post_id := None; w_is_deleted := Some false |}.

(** [PostLike.findOne], [PostLike.count] and the other finders are called
    on the model class itself, so the ORM merges the default scope under the
    [where] of the call; only a call whose own [where] names [is_deleted]
    replaces the scope's condition. The scope [withDeleted] that would lift
    it is declared and never used. *)
Definition injectScope (w : WhereOptions) : WhereOptions :=
  {| w_id := assign_key (w_id defaultScope) (w_id w);
     w_user_id := assign_key (w_user_id defaultScope) (w_user_id w);
     w_post_id := assign_key (w_post_id defaultScope) (w_post_id w);
     w_is_deleted := assign_key (w_is_deleted defaultScope) (w_is_deleted w) |}.

Definition matches (w : WhereOptions) (r : t) : bool :=
  holds (Z.eqb (id r)) (w_id w)
  && holds (Z.eqb (user_id r)) (w_user_id w)
  && holds (Z.eqb (post_id r)) (w_post_id w)
  && holds (Bool.eqb (is_deleted r)) (w_is_deleted w).

(** [PostLike.findOne({ where })] *)
Definition findOne (w : WhereOptions) (tb : table) : option t :=
  find (matches (injectScope w)) (rows tb).

(** [PostLike.count({ where })] *)
Definition count (w : WhereOptions) (tb : table) : nat :=
  List.length (filter (matches (injectScope w)) (rows tb)).

(** The unique index [post_likes_user_post_unique] on [(user_id, post_id)]:
    the store looks at every row, whatever its [is_deleted]. *)
Definition same_pair (u p : Z) (r : t) : bool :=
  (user_id r =? u) && (post_id r =? p).

(** [PostLike.create({ post_id, user_id, liked_at, is_deleted })]: the
    sequence is advanced, then the insert is refused when the unique index
    already holds the pair. *)
Definition create (u p at_ : Z) (deleted : bool) (tb : table) : Result t * table :=
  let fresh := {| id := id_seq tb; user_id := u; post_id := p;
                  liked_at := at_; is_deleted := deleted |} in
  if existsb (same_pair u p) (rows tb)
  then (Rejected {| name := SequelizeUniqueConstraintError; message := "Validation error" |},
        {| rows := rows tb; id_seq := id_seq tb + 1 |})
  else (Resolved fresh, {| rows := rows tb ++ [fresh]; id_seq := id_seq tb + 1 |}).

(** [isActive()] *)
Definition isActive (this : t) : bool := negb (is_deleted this).

(** The assignments of [toggle()] on the instance:
    [this.is_deleted = !this.is_deleted;
     if (!this.is_deleted) { this.liked_at = new Date(); }] *)
Definition toggle (now : Z) (this : t) : t :=
  let flipped := negb (is_deleted this) in
  {| id := id this; user_id := user_id this; post_id := post_id this;
     liked_at := if negb flipped then now else liked_at this;
     is_deleted := flipped |}.

(** [this.save()]: the changed attributes ([liked_at], [is_deleted]) are
    written to the row whose primary key is [this.id]; an instance write
    goes by primary key and carries no scope. *)
Definition save_row (this r : t) : t :=
  if id r =? id this
  then {| id := id r; user_id := user_id r; post_id := post_id r;
          liked_at := liked_at this; is_deleted := is_deleted this |}
  else r.

Definition save (this : t) (tb : table) : table :=
  {| rows := map (save_row this) (rows tb); id_seq := id_seq tb |}.

(** [this.update({ is_deleted: true })] on an instance. *)
Definition update_is_deleted (deleted : bool) (this : t) : t :=
  {| id := id this; user_id := user_id this; post_id := post_id this;
     liked_at := liked_at this; is_deleted := deleted |}.

(** The rows a scoped [SELECT ... WHERE ...] on [post_likes] sees. *)
Definition findAll (w : WhereOptions) (tb : table) : list t :=
  filter (matches (injectScope w)) (rows tb).

Section Order.

(** The rank the store happens to give rows liked at the same instant in
    the query at hand: the query orders by [liked_at] alone. *)
Variable tie : t -> Z.

Definition before (l m : t) : bool :=
  (liked_at m <? liked_at l) || ((liked_at m =? liked_at l) && (tie l <=? tie m)).

(** [order: [['liked_at', 'DESC']]] *)
Fixpoint insert_desc (l : t) (sorted : list t) : list t :=
  match sorted with
  | [] => [l]
  | m :: rest =>
      if before l m then l :: sorted
      else m :: insert_desc l rest
  end.

Definition order_by_liked_at_desc (l : list t) : list t :=
  fold_right insert_desc [] l.

End Order.

End PostLike.

(** ** The database and the monad of service calls *)

Record DB : Type := {
  users : list User.t;
  posts : list Post.t;
  post_likes : PostLike.table
}.

Definition M (A : Type) : Type := DB -> Result A * DB.

Definition ret {A : Type} (a : A) : M A := fun db => (Resolved a, db).

Definition throw {A : Type} (e : Exn) : M A := fun db => (Rejected e, db).

Definition bind {A B : Type} (c : M A) (k : A -> M B) : M B :=
  fun db =>
    match c db with
    | (Resolved a, db') => k a db'
    | (Rejected e, db') => (Rejected e, db')
    end.

Notation "x <- c ;; k" := (bind c (fun x => k))
  (at level 61, c at next level, right associativity).
Notation "c ;;; k" := (bind c (fun _ => k))
  (at level 61, right associativity).

(** A read of the store. *)
Definition query {A : Type} (f : DB -> A) : M A := fun db => (Resolved (f db), db).

Definition set_post_likes (tb : PostLike.table) (db : DB) : DB :=
  {| users := users db; posts := posts db; post_likes := tb |}.

Definition set_posts (ps : list Post.t) (db : DB) : DB :=
  {| users := users db; posts := ps; post_likes := post_likes db |}.

Definition set_users (us : list User.t) (db : DB) : DB :=
  {| users := us; posts := posts db; post_likes := post_likes db |}.

(** A write to [post_likes] that may be refused by the store. *)
Definition on_post_likes {A : Type}
  (f : PostLike.table -> Result A * PostLike.table) : M A :=
  fun db => let (r, tb) := f (post_likes db) in (r, set_post_likes tb db).

Definition write_post_likes (f : PostLike.table -> PostLike.table) : M unit :=
  fun db => (Resolved tt, set_post_likes (f (post_likes db)) db).

(** ** What a controller answers *)

Inductive type_error : Type :=
| NOT_FOUND
| AUTHORIZATION_ERROR
| VALIDATION_ERROR
| INTERNAL_ERROR.

(** [res.status(code).json({ status, type_error, message, data })] *)
Inductive Response (A : Type) : Type :=
| success (status : Z) (data : A)
| error (status : Z) (kind : type_error) (msg : string).

Arguments success {A} status data.
Arguments error {A} status kind msg.

(** ** LikeService *)

Module LikeService.

Record ToggleResult : Type := { liked : bool; total_likes : nat }.

(** [LikeService.toggleLike(postId, userId)] *)
Definition toggleLike (now postId userId : Z) : M ToggleResult :=
  post <- query (fun db => Post.findByPk now postId (posts db)) ;;
  match post with
  | None => throw (new_Error "Post não encontrado")
  | Some _ =>
      user <- query (fun db => User.findByPk userId (users db)) ;;
      match user with
      | None => throw (new_Error "Usuário não encontrado")
      | Some _ =>
          like <- query (fun db =>
                    PostLike.findOne
                      {| PostLike.w_id := None;
                         PostLike.w_user_id := Some userId;
                         PostLike.w_post_id := Some postId;
                         PostLike.w_is_deleted := None |} (post_likes db)) ;;
          liked <- match like with
                   | Some like =>
                       let like := PostLike.toggle now like in
                       write_post_likes (PostLike.save like) ;;;
                       ret (negb (PostLike.is_deleted like))
                   | None =>
                       on_post_likes (PostLike.create userId postId now false) ;;;
                       ret true
                   end ;;
          totalLikes <- query (fun db =>
                          PostLike.count
                            {| PostLike.w_id := None;
                               PostLike.w_user_id := None;
                               PostLike.w_post_id := Some postId;
                               PostLike.w_is_deleted := Some false |} (post_likes db)) ;;
          ret {| liked := liked; total_likes := totalLikes |}
      end
  end.

(** [LikeService.removeLike(likeId, userId)] *)
Definition removeLike (likeId userId : Z) : M bool :=
  like <- query (fun db =>
            PostLike.findOne
              {| PostLike.w_id := Some likeId;
                 PostLike.w_user_id := Some userId;
                 PostLike.w_post_id := None;
                 PostLike.w_is_deleted := None |} (post_likes db)) ;;
  match like with
  | None =>
      throw (new_Error "Like não encontrado ou você não tem permissão para removê-lo")
  | Some like =>
      write_post_likes (PostLike.save (PostLike.update_is_deleted true like)) ;;;
      ret true
  end.

Record Filters : Type := { include_deleted : option bool }.

Record Pagination : Type := { limit : option nat; offset : option nat }.

Definition or_default {A : Type} (d : A) (x : option A) : A :=
  match x with
  | Some v => v
  | None => d
  end.

(** The [where] built by the listing and counting methods:
    [if (!include_deleted) { whereClause.is_deleted = false; }] *)
Definition whereClause (uid pid : option Z) (filters : Filters)
  : PostLike.WhereOptions :=
  {| PostLike.w_id := None;
     PostLike.w_user_id := uid;
     PostLike.w_post_id := pid;
     PostLike.w_is_deleted :=
       if negb (or_default false (include_deleted filters)) then Some false else None |}.

(** [attributes: ['id', 'name']] of the included [User]. *)
Record Liker : Type := { liker_id : Z; liker_name : string }.

(** One element of [likes] in the answer of [getPostLikes]. *)
Record LikeView : Type := {
  v_id : Z;
  v_user_id : Z;
  v_post_id : Z;
  v_liked_at : Z;
  is_active : bool;
  v_user : option Liker
}.

(** The answer of [getPostLikes] without [pages], which is
    [Math.ceil(count / limit)]. *)
Record LikeListing : Type := {
  likes : list LikeView;
  total : nat;
  l_limit : nat;
  l_offset : nat
}.

Definition read_like (db : DB) (like : PostLike.t) : LikeView :=
  {| v_id := PostLike.id like;
     v_user_id := PostLike.user_id like;
     v_post_id := PostLike.post_id like;
     v_liked_at := PostLike.liked_at like;
     is_active := negb (PostLike.is_deleted like);
     v_user := match User.findByPk (PostLike.user_id like) (users db) with
               | Some u => Some {| liker_id := User.id u; liker_name := User.name u |}
               | None => None
               end |}.

(** [LikeService.getPostLikes(postId, filters, pagination)]; [tie] is the
    store's order among likes of the same instant in this query. *)
Definition getPostLikes (tie : PostLike.t -> Z) (now postId : Z) (filters : Filters)
  (pagination : Pagination) : M LikeListing :=
  let lim := or_default 20%nat (limit pagination) in
  let off := or_default 0%nat (offset pagination) in
  post <- query (fun db => Post.findByPk now postId (posts db)) ;;
  match post with
  | None => throw (new_Error "Post não encontrado")
  | Some _ =>
      let w := whereClause None (Some postId) filters in
      found <- query (fun db =>
                 let matching := PostLike.findAll w (post_likes db) in
                 (List.length matching,
                  map (read_like db)
                      (firstn lim (skipn off
                         (PostLike.order_by_liked_at_desc tie matching))))) ;;
      ret {| likes := snd found; total := fst found; l_limit := lim; l_offset := off |}
  end.

(** [LikeService.hasUserLiked(postId, userId)] *)
Definition hasUserLiked (postId userId : Z) : M bool :=
  like <- query (fun db =>
            PostLike.findOne
              {| PostLike.w_id := None;
                 PostLike.w_user_id := Some userId;
                 PostLike.w_post_id := Some postId;
                 PostLike.w_is_deleted := Some false |} (post_likes db)) ;;
  ret (match like with Some _ => true | None => false end).

(** [LikeService.countPostLikes(postId, filters)] *)
Definition countPostLikes (postId : Z) (filters : Filters) : M nat :=
  query (fun db => PostLike.count (whereClause None (Some postId) filters) (post_likes db)).

(** [LikeService.countUserLikes(userId, filters)] *)
Definition countUserLikes (userId : Z) (filters : Filters) : M nat :=
  query (fun db => PostLike.count (whereClause (Some userId) None filters) (post_likes db)).

End LikeService.

Module LikeController.

(** The [catch] block of [LikeController.toggleLike]. *)
Definition toggleLike_catch (e : Exn) : Response LikeService.ToggleResult :=
  if String.eqb (message e) "Post não encontrado"
  then error 404 NOT_FOUND "Post não encontrado"
  else if String.eqb (message e) "Usuário não encontrado"
  then error 404 NOT_FOUND "Usuário não encontrado"
  else error 500 INTERNAL_ERROR "Erro interno do servidor".

Definition toggleLike (now id userId : Z) (db : DB)
  : Response LikeService.ToggleResult * DB :=
  match LikeService.toggleLike now id userId db with
  | (Resolved result, db') => (success 200 result, db')
  | (Rejected e, db') => (toggleLike_catch e, db')
  end.

(** The [catch] block of [LikeController.removeLike]. *)
Definition removeLike_catch (e : Exn) : Response unit :=
  if includes (message e) "não encontrado" || includes (message e) "permissão"
  then error 404 NOT_FOUND (message e)
  else error 500 INTERNAL_ERROR "Erro interno do servidor".

Definition removeLike (id userId : Z) (db : DB) : Response unit * DB :=
  match LikeService.removeLike id userId db with
  | (Resolved _, db') => (success 200 tt, db')
  | (Rejected e, db') => (removeLike_catch e, db')
  end.

End LikeController.

(** ** PostService *)

Module PostService.

Record Filters : Type := {
  include_scheduled : option bool;
  user_id : option Z;
  search : option string
}.

Record Pagination : Type := { limit : option nat; offset : option nat }.

(** A destructuring default: [const { limit = 5 } = pagination]. *)
Definition default {A : Type} (d : A) (x : option A) : A :=
  match x with
  | Some v => v
  | None => d
  end.

(** [attributes: ['id', 'name']] of the included [User]. *)
Record Owner : Type := { owner_id : Z; owner_name : string }.

(** [post.toJSON()] of a row read with its includes: the [User] it belongs
    to (absent when the query does not include it) and the [id]s of the
    joined [PostLikes]. *)
Record PostData : Type := {
  post : Post.t;
  d_User : option Owner;
  d_PostLikes : list Z
}.

(** [{ ...postData, total_likes, allowEdit, allowRemove }]; the two flags
    are absent from [getPostById] and [getUserPosts]. *)
Record PostView : Type := {
  data : PostData;
  total_likes : nat;
  allowEdit : option bool;
  allowRemove : option bool
}.

Record Listing : Type := {
  l_posts : list PostView;
  l_total : nat;
  l_limit : nat;
  l_offset : nat
}.

(** The include [{ model: PostLike, as: 'PostLikes',
    where: { is_deleted: false }, required: false }]: the rows joined to a
    post. *)
Definition joined_likes (p : Post.t) (likes : list PostLike.t) : list PostLike.t :=
  filter (fun l => (PostLike.post_id l =? Post.id p) && negb (PostLike.is_deleted l))
         likes.

(** The include [{ model: User, as: 'User', attributes: ['id', 'name'] }]. *)
Definition joined_user (p : Post.t) (us : list User.t) : option Owner :=
  match User.findByPk (Post.user_id p) us with
  | Some u => Some {| owner_id := User.id u; owner_name := User.name u |}
  | None => None
  end.

(** The rows of [posts LEFT OUTER JOIN post_likes]: one per joined like, one
    with no like for a post that has none. *)
Definition left_join (ps : list Post.t) (likes : list PostLike.t)
  : list (Post.t * option PostLike.t) :=
  flat_map (fun p =>
              match joined_likes p likes with
              | [] => [(p, None)]
              | ls => map (fun l => (p, Some l)) ls
              end) ps.

(** [COUNT(DISTINCT "Post"."id")] over the joined rows, which is what
    [distinct: true] asks of [findAndCountAll]. *)
Definition count_distinct (joined : list (Post.t * option PostLike.t)) : nat :=
  List.length (nodup Z.eq_dec (map (fun row => Post.id (fst row)) joined)).

Definition read (with_user : bool) (db : DB) (p : Post.t) : PostData :=
  {| post := p;
     d_User := if with_user then joined_user p (users db) else None;
     d_PostLikes := map PostLike.id (joined_likes p (PostLike.rows (post_likes db))) |}.

(** The [where] of the listing and counting methods:
    [if (!include_scheduled) { whereClause.available_at = { [Op.lte]: new Date() } }],
    the owner, and the [Op.or] block when [search] is not empty. *)
Definition whereClause (now : Z) (scheduled : bool) (uid : option Z)
  (text : option string) : Post.WhereOptions :=
  {| Post.w_id := None;
     Post.w_user_id := uid;
     Post.w_available_at_lte := if negb scheduled then Some now else None;
     Post.w_search := truthy_string text |}.

Section Search.

Variable iLike : string -> string -> bool.

(** The store's order among posts of equal [available_at] in the query at
    hand. *)
Variable tie : Post.t -> Z.

(** [Post.findAndCountAll({ where, include, limit, offset,
    order: [['available_at', 'DESC']], distinct: true })]: the count runs
    over the join, the rows are the ordered posts cut to the page, each
    read with its includes. *)
Definition findAndCountAll (now : Z) (w : Post.WhereOptions)
  (with_user : bool) (lim off : nat) (db : DB) : nat * list PostData :=
  let found := Post.findAll iLike now w (posts db) in
  (count_distinct (left_join found (PostLike.rows (post_likes db))),
   map (read with_user db)
       (firstn lim (skipn off (Post.order_by_available_at_desc tie found)))).

(** [PostService.listPosts(filters, pagination)] *)
Definition listPosts (now : Z) (filters : Filters) (pagination : Pagination)
  : M Listing :=
  let lim := default 5%nat (limit pagination) in
  let off := default 0%nat (offset pagination) in
  let w := whereClause now (default false (include_scheduled filters))
             (truthy_number (user_id filters)) (search filters) in
  found <- query (findAndCountAll now w true lim off) ;;
  let posts := map (fun postData =>
                      {| data := postData;
                         total_likes := List.length (d_PostLikes postData);
                         allowEdit := Some false;
                         allowRemove := Some false |}) (snd found) in
  ret {| l_posts := posts; l_total := fst found; l_limit := lim; l_offset := off |}.

(** [PostService.getUserPosts(userId, filters, pagination)] *)
Definition getUserPosts (now userId : Z) (filters : Filters)
  (pagination : Pagination) : M Listing :=
  let lim := default 10%nat (limit pagination) in
  let off := default 0%nat (offset pagination) in
  let w := whereClause now (default false (include_scheduled filters))
             (Some userId) (search filters) in
  found <- query (findAndCountAll now w false lim off) ;;
  let posts := map (fun postData =>
                      {| data := postData;
                         total_likes := List.length (d_PostLikes postData);
                         allowEdit := None;
                         allowRemove := None |}) (snd found) in
  ret {| l_posts := posts; l_total := fst found; l_limit := lim; l_offset := off |}.

End Search.

(** [PostService.getPostById(id)] *)
Definition getPostById (now id : Z) : M PostView :=
  post <- query (fun db => option_map (read true db) (Post.findByPk now id (posts db))) ;;
  match post with
  | None => throw (new_Error "Post não encontrado")
  | Some postData =>
      ret {| data := postData;
             total_likes := List.length (d_PostLikes postData);
             allowEdit := None;
             allowRemove := None |}
  end.

(** The instance [updatePost] reads back, with [include: [User]] only: the
    row, its [User], and the virtual [total_likes], whose getter finds no
    [PostLikes] on the instance and returns 0. *)
Record UpdatedPost : Type := {
  u_post : Post.t;
  u_User : option Owner;
  u_total_likes : nat
}.

Definition read_updated (db : DB) (p : Post.t) : UpdatedPost :=
  {| u_post := p; u_User := joined_user p (users db); u_total_likes := 0 |}.

Section Writes.

Variable characters : string -> Z.

(** A bulk [Post.update] issued by a service. *)
Definition Post_update (now : Z) (v : Post.Values) (pk : Z) : M unit :=
  fun db =>
    let (r, ps) := Post.update characters now v pk (posts db) in (r, set_posts ps db).

(** [PostService.updatePost(id, updateData, userId)] *)
Definition updatePost (now id : Z) (updateData : Post.Values) (userId : Z)
  : M (option UpdatedPost) :=
  post <- query (fun db => Post.findByPk now id (posts db)) ;;
  match post with
  | None => throw (new_Error "Post não encontrado")
  | Some post =>
      if negb (Post.user_id post =? userId)
      then throw (new_Error
             "Acesso negado. Você não tem permissão para editar este post")
      else
        Post_update now updateData id ;;;
        query (fun db => option_map (read_updated db) (Post.findByPk now id (posts db)))
  end.

(** [Post.destroy({ where: { id } })]; the foreign key of [post_likes] is
    [ON DELETE CASCADE]. *)
Definition Post_destroy (now pk : Z) : M unit :=
  fun db =>
    let gone := filter (Post.destroyed now pk) (posts db) in
    let orphan l := existsb (fun p => Post.id p =? PostLike.post_id l) gone in
    (Resolved tt,
     {| users := users db;
        posts := filter (fun p => negb (Post.destroyed now pk p)) (posts db);
        post_likes :=
          {| PostLike.rows := filter (fun l => negb (orphan l))
                                     (PostLike.rows (post_likes db));
             PostLike.id_seq := PostLike.id_seq (post_likes db) |} |}).

(** [PostService.deletePost(id, userId)] *)
Definition deletePost (now id userId : Z) : M bool :=
  post <- query (fun db => Post.findByPk now id (posts db)) ;;
  match post with
  | None => throw (new_Error "Post não encontrado")
  | Some post =>
      if negb (Post.user_id post =? userId)
      then throw (new_Error
             "Acesso negado. Você não tem permissão para remover este post")
      else Post_destroy now id ;;; ret true
  end.

(** [PostService.schedulePost(id, available_at, userId)] *)
Definition schedulePost (now id available_at userId : Z) : M (option Post.t) :=
  post <- query (fun db => Post.findByPk now id (posts db)) ;;
  match post with
  | None => throw (new_Error "Post não encontrado")
  | Some post =>
      if negb (Post.user_id post =? userId)
      then throw (new_Error
             "Acesso negado. Você não tem permissão para agendar este post")
      else if available_at <=? now
      then throw (new_Error "Data de disponibilidade deve ser no futuro")
      else
        Post_update now
          {| Post.v_title := None; Post.v_summary := None;
             Post.v_content := None; Post.v_available_at := Some available_at |} id ;;;
        query (fun db => Post.findByPk now id (posts db))
  end.

(** The [postData] of [createPost], as the route's schema delivers it. *)
Record PostInput : Type := {
  i_title : string;
  i_summary : string;
  i_content : string;
  i_available_at : Z
}.

(** [PostService.createPost(postData, userId)]; [nextval] is the id the
    store assigns to the new row. *)
Definition createPost (nextval : Z) (postData : PostInput) (userId : Z) : M Post.t :=
  user <- query (fun db => User.findByPk userId (users db)) ;;
  match user with
  | None => throw (new_Error "Usuário não encontrado")
  | Some _ =>
      fun db =>
        let (r, ps) := Post.create characters nextval (i_title postData)
                         (i_summary postData) (i_content postData)
                         (i_available_at postData) userId (posts db) in
        (r, set_posts ps db)
  end.

End Writes.

Section Counting.

Variable iLike : string -> string -> bool.

(** [PostService.countPosts(filters)]: [Post.count({ where })], a count of
    the rows of [posts] the scoped [where] matches. *)
Definition countPosts (now : Z) (filters : Filters) : M nat :=
  let w := whereClause now (default false (include_scheduled filters))
             (truthy_number (user_id filters)) (search filters) in
  query (fun db => List.length (Post.findAll iLike now w (posts db))).

End Counting.

End PostService.

Module PostController.

(** The [catch] block shared by [PostController.updatePost] and
    [PostController.deletePost]. *)
Definition mutation_catch {A : Type} (e : Exn) : Response A :=
  if String.eqb (message e) "Post não encontrado"
  then error 404 NOT_FOUND "Post não encontrado"
  else if includes (message e) "Acesso negado"
  then error 403 AUTHORIZATION_ERROR (message e)
  else error 500 INTERNAL_ERROR "Erro interno do servidor".

(** The [catch] block of [PostController.schedulePost]. *)
Definition schedulePost_catch {A : Type} (e : Exn) : Response A :=
  if String.eqb (message e) "Post não encontrado"
  then error 404 NOT_FOUND "Post não encontrado"
  else if includes (message e) "Acesso negado"
  then error 403 AUTHORIZATION_ERROR (message e)
  else if String.eqb (message e) "Data de disponibilidade deve ser no futuro"
  then error 400 VALIDATION_ERROR (message e)
  else error 500 INTERNAL_ERROR "Erro interno do servidor".

(** Reading [.toJSON()] off a [null] throws inside the [try], and the
    [catch] block answers for it. *)
Definition null_toJSON : Exn :=
  {| name := TypeError;
     message := "Cannot read properties of null (reading 'toJSON')" |}.

Section Writes.

Variable characters : string -> Z.

Definition updatePost (now id : Z) (updateData : Post.Values) (userId : Z) (db : DB)
  : Response PostService.UpdatedPost * DB :=
  match PostService.updatePost characters now id updateData userId db with
  | (Resolved (Some updatedPost), db') => (success 200 updatedPost, db')
  | (Resolved None, db') => (mutation_catch null_toJSON, db')
  | (Rejected e, db') => (mutation_catch e, db')
  end.

Definition schedulePost (now id available_at userId : Z) (db : DB)
  : Response Post.t * DB :=
  match PostService.schedulePost characters now id available_at userId db with
  | (Resolved (Some scheduledPost), db') => (success 200 scheduledPost, db')
  | (Resolved None, db') => (schedulePost_catch null_toJSON, db')
  | (Rejected e, db') => (schedulePost_catch e, db')
  end.

End Writes.

Definition deletePost (now id userId : Z) (db : DB) : Response unit * DB :=
  match PostService.deletePost now id userId db with
  | (Resolved _, db') => (success 200 tt, db')
  | (Rejected e, db') => (mutation_catch e, db')
  end.

End PostController.

(** ** The route [PUT /posts/:id/schedule] *)

Module PostRoutes.

Section Calendar.

Variable characters : string -> Z.

(** [d.setFullYear(d.getFullYear() + 1)] on the date [d]: the runtime's
    calendar arithmetic. *)
Variable plusOneYear : Z -> Z.

(** [schedulePostSchema.validate]: [.min(new Date())] is evaluated once,
    when the schema module is [loaded]; the [not-too-far] test reads the
    clock when it runs. *)
Definition schedulePostSchema (loaded now available_at : Z) : bool :=
  (loaded <=? available_at) && (available_at <=? plusOneYear now).

(** [postIdParamSchema.validate]: a positive integer. *)
Definition postIdParamSchema (id : Z) : bool := 0 <? id.

(** The answer of [SchemaValidator.validate] to a [ValidationError]. *)
Definition invalid {A : Type} : Response A :=
  error 400 VALIDATION_ERROR "Dados de entrada inválidos".

(** [router.put('/posts/:id/schedule', isAuthenticated,
    validate(postIdParamSchema, 'params'), validate(schedulePostSchema, 'body'),
    PostController.schedulePost)] for the authenticated [userId]. *)
Definition put_schedule (loaded now id available_at userId : Z) (db : DB)
  : Response Post.t * DB :=
  if negb (postIdParamSchema id) then (invalid, db)
  else if negb (schedulePostSchema loaded now available_at) then (invalid, db)
  else PostController.schedulePost characters now id available_at userId db.

End Calendar.

End PostRoutes.

(** ** AuthUtils and UserService *)

Module AuthUtils.

Record Strength : Type := { isValid : bool; score : nat; feedback : list string }.

(** The bytes of a string. The character classes tested below hold ASCII
    characters only, and a character outside ASCII has no byte below 128. *)
Definition chars (s : string) : list nat := map nat_of_ascii (list_ascii_of_string s).

Definition between (lo hi n : nat) : bool := ((lo <=? n) && (n <=? hi))%nat.

(** The character class of the special-character test, by character code:
    ! @ # $ % ^ & * ( ) , . ? double-quote : { } | < > *)
Definition special : list nat :=
  [33; 64; 35; 36; 37; 94; 38; 42; 40; 41; 44; 46; 63; 34; 58; 123; 125; 124; 60; 62]%nat.

(** [s.toLowerCase()] on the ASCII letters. The result is compared with
    ASCII strings made of digits and of the letters of "password" only, and
    no character outside ASCII has one of these for its lower case. *)
Definition toLowerCase (s : string) : string :=
  string_of_list_ascii
    (map (fun c => let n := nat_of_ascii c in
                   if between 65 90 n then ascii_of_nat (n + 32) else c)
         (list_ascii_of_string s)).

Definition commonPasswords : list string :=
  ["123456"; "password"; "123456789"; "12345678"; "12345"].

(** One [if (test) { score += 1 } else { feedback.push(msg) }] step. *)
Definition check (test : bool) (msg : string) (r : Strength) : Strength :=
  if test
  then {| isValid := isValid r; score := S (score r); feedback := feedback r |}
  else {| isValid := isValid r; score := score r; feedback := feedback r ++ [msg] |}.

Definition reject (msg : string) (r : Strength) : Strength :=
  {| isValid := false; score := score r; feedback := feedback r ++ [msg] |}.

(** [AuthUtils.validatePasswordStrength(password)] *)
Definition validatePasswordStrength (password : string) : Strength :=
  let cs := chars password in
  let n := JsString.length password in
  let r0 := {| isValid := true; score := 0; feedback := [] |} in
  let r1 := if (n <? 6)%nat
            then reject "Senha deve ter pelo menos 6 caracteres" r0
            else check true "" r0 in
  let r2 := if (8 <=? n)%nat then check true "" r1 else r1 in
  let r3 := check (existsb (between 97 122) cs) "Adicione letras minúsculas" r2 in
  let r4 := check (existsb (between 65 90) cs) "Adicione letras maiúsculas" r3 in
  let r5 := check (existsb (between 48 57) cs) "Adicione números" r4 in
  let r6 := check (existsb (fun c => existsb (Nat.eqb c) special) cs)
                  "Adicione caracteres especiais" r5 in
  if existsb (String.eqb (toLowerCase password)) commonPasswords
  then reject "Senha muito comum" r6
  else r6.

(** [generatePayload(user)] *)
Record Payload : Type := { p_id : Z; p_email : string; p_name : string; iat : Z }.

Definition generatePayload (now : Z) (user : User.t) : Payload :=
  {| p_id := User.id user; p_email := User.email user;
     p_name := User.name user; iat := now / 1000 |}.

(** [s.split(' ')]: the pieces between single spaces, empty pieces kept. *)
Fixpoint split_space (s : string) : list string :=
  match s with
  | EmptyString => [EmptyString]
  | String c rest =>
      if Ascii.eqb c " "%char then EmptyString :: split_space rest
      else match split_space rest with
           | piece :: pieces => String c piece :: pieces
           | [] => [String c EmptyString]
           end
  end.

(** [AuthUtils.extractTokenFromHeader(authHeader)]; [None] is both an absent
    header and the [null] answer. *)
Definition extractTokenFromHeader (authHeader : option string) : option string :=
  match authHeader with
  | None => None
  | Some EmptyString => None
  | Some header =>
      match split_space header with
      | [scheme; credentials] =>
          if String.eqb scheme "Bearer" then Some credentials else None
      | _ => None
      end
  end.

End AuthUtils.

Module UserService.

(** [user.toJSON()]: the row without [password_hash]. *)
Record UserJSON : Type := { j_id : Z; j_name : string; j_email : string }.

Definition toJSON (user : User.t) : UserJSON :=
  {| j_id := User.id user; j_name := User.name user; j_email := User.email user |}.

Record Session : Type := { user : UserJSON; token : string }.

Section Collaborators.

(** [bcrypt.compare(plain, hash)] *)
Variable bcrypt_compare : string -> string -> bool.

(** [jwt.sign(payload, secret, options)], [None] when it throws. *)
Variable jwt_sign : AuthUtils.Payload -> option string.

(** What the store holds in [password_hash] after the bulk
    [User.update({ password: plain }, { where: { id } })], given the hash
    it held before. *)
Variable written_hash : string -> string -> string.

(** [user.checkPassword(plainPassword)] *)
Definition checkPassword (user : User.t) (plainPassword : string) : bool :=
  bcrypt_compare plainPassword (User.password_hash user).

(** [AuthUtils.generateToken(payload)] *)
Definition generateToken (payload : AuthUtils.Payload) : M string :=
  match jwt_sign payload with
  | Some t => ret t
  | None => throw (new_Error "Erro interno ao gerar token")
  end.

(** [UserService.authenticateUser(email, password)] *)
Definition authenticateUser (now : Z) (email password : string) : M Session :=
  user <- query (fun db => User.findOne_by_email email (users db)) ;;
  match user with
  | None => throw (new_Error "Credenciais inválidas")
  | Some user =>
      if negb (checkPassword user password)
      then throw (new_Error "Credenciais inválidas")
      else
        token <- generateToken (AuthUtils.generatePayload now user) ;;
        ret {| user := toJSON user; token := token |}
  end.

(** The count of characters behind the validator [len]. *)
Variable characters : string -> Z.

(** The validator of the virtual attribute [password] in [User.init]. *)
Definition password_failures (password : string) : list string :=
  Validator.failure (Validator.len characters 6 50 password)
    "Senha deve ter entre 6 e 50 caracteres".

(** [UserRepository.update(id, { password: newPassword })]: the bulk
    [User.update] validates the attribute it is given, then writes. *)
Definition UserRepository_update_password (id : Z) (newPassword : string) : M unit :=
  match password_failures newPassword with
  | _ :: _ => throw (ValidationError (password_failures newPassword))
  | [] =>
      fun db =>
        (Resolved tt,
         set_users
           (map (fun u =>
                   if User.id u =? id
                   then {| User.id := User.id u; User.name := User.name u;
                           User.email := User.email u;
                           User.password_hash :=
                             written_hash newPassword (User.password_hash u) |}
                   else u) (users db)) db)
  end.

Definition join_comma (l : list string) : string := String.concat ", " l.

(** [UserService.changePassword(id, currentPassword, newPassword)] *)
Definition changePassword (id : Z) (currentPassword newPassword : string) : M bool :=
  byId <- query (fun db => User.findByPk id (users db)) ;;
  match byId with
  | None =>
      throw {| name := TypeError;
               message := "Cannot read properties of null (reading 'email')" |}
  | Some byId =>
      user <- query (fun db => User.findOne_by_email (User.email byId) (users db)) ;;
      match user with
      | None => throw (new_Error "Usuário não encontrado")
      | Some user =>
          if negb (checkPassword user currentPassword)
          then throw (new_Error "Senha atual incorreta")
          else
            let passwordValidation := AuthUtils.validatePasswordStrength newPassword in
            if negb (AuthUtils.isValid passwordValidation)
            then throw (new_Error
                   ("Nova senha inválida: "
                      ++ join_comma (AuthUtils.feedback passwordValidation))%string)
            else if String.eqb currentPassword newPassword
            then throw (new_Error "A nova senha deve ser diferente da senha atual")
            else UserRepository_update_password id newPassword ;;; ret true
      end
  end.

End Collaborators.

(** [UserService.getUserById(id)]: the row without [password_hash]. *)
Definition getUserById (id : Z) : M UserJSON :=
  user <- query (fun db => User.findByPk id (users db)) ;;
  match user with
  | None => throw (new_Error "Usuário não encontrado")
  | Some user => ret (toJSON user)
  end.

(** [User.destroy({ where: { id } })]: the number of rows removed. The
    foreign keys [posts.user_id], [post_likes.user_id] and
    [post_likes.post_id] are [ON DELETE CASCADE]. *)
Definition User_destroy (id : Z) : M nat :=
  fun db =>
    let gone_users := filter (fun u => User.id u =? id) (users db) in
    let of_gone_user uid := existsb (fun u => User.id u =? uid) gone_users in
    let gone_posts := filter (fun p => of_gone_user (Post.user_id p)) (posts db) in
    let on_gone_post pid := existsb (fun p => Post.id p =? pid) gone_posts in
    (Resolved (List.length gone_users),
     {| users := filter (fun u => negb (User.id u =? id)) (users db);
        posts := filter (fun p => negb (of_gone_user (Post.user_id p))) (posts db);
        post_likes :=
          {| PostLike.rows :=
               filter (fun l => negb (of_gone_user (PostLike.user_id l))
                                && negb (on_gone_post (PostLike.post_id l)))
                      (PostLike.rows (post_likes db));
             PostLike.id_seq := PostLike.id_seq (post_likes db) |} |}).

(** [UserService.deleteUser(id)] over [UserRepository.delete(id)]. *)
Definition deleteUser (id : Z) : M bool :=
  existingUser <- query (fun db => User.findByPk id (users db)) ;;
  match existingUser with
  | None => throw (new_Error "Usuário não encontrado")
  | Some _ =>
      deletedRows <- User_destroy id ;;
      if (deletedRows =? 0)%nat
      then throw (new_Error "Erro ao remover usuário")
      else ret true
  end.

End UserService.

(** ** AuthMiddleware *)

Module AuthMiddleware.

(** What [jwt.verify(token, secret)] does with a token. *)
Inductive Verification : Type :=
| decoded (payload : AuthUtils.Payload)
| TokenExpiredError
| JsonWebTokenError
| other_failure.

(** [req.auth] *)
Record Auth : Type := {
  user_id : Z;
  email : string;
  name : string;
  token : string
}.

(** Either [next()] with what the middleware left in [req.auth], or the
    answer it sent itself. *)
Inductive Outcome : Type :=
| next (auth : option Auth)
| unauthorized (msg : string).

Section Verify.

Variable jwt_verify : string -> Verification.

(** [AuthUtils.verifyToken(token)] *)
Definition verifyToken (token_ : string) : Result AuthUtils.Payload :=
  match jwt_verify token_ with
  | decoded payload => Resolved payload
  | TokenExpiredError => Rejected (new_Error "Token expirado")
  | JsonWebTokenError => Rejected (new_Error "Token inválido")
  | other_failure => Rejected (new_Error "Erro ao verificar token")
  end.

Definition auth_of (payload : AuthUtils.Payload) (token_ : string) : Auth :=
  {| user_id := AuthUtils.p_id payload; email := AuthUtils.p_email payload;
     name := AuthUtils.p_name payload; token := token_ |}.

(** A thrown message, or the fallback of [error.message || fallback]. *)
Definition message_or (fallback : string) (e : Exn) : string :=
  match message e with
  | EmptyString => fallback
  | msg => msg
  end.

(** [AuthMiddleware.isAuthenticated] on the [Authorization] header. *)
Definition isAuthenticated (authorization : option string) : Outcome :=
  match authorization with
  | None => unauthorized "Token de autorização não fornecido"
  | Some EmptyString => unauthorized "Token de autorização não fornecido"
  | Some _ =>
      match AuthUtils.extractTokenFromHeader authorization with
      | None => unauthorized "Formato de token inválido. Use: Bearer <token>"
      | Some EmptyString => unauthorized "Formato de token inválido. Use: Bearer <token>"
      | Some token_ =>
          match verifyToken token_ with
          | Resolved payload => next (Some (auth_of payload token_))
          | Rejected e => unauthorized (message_or "Token inválido ou expirado" e)
          end
      end
  end.

(** [AuthMiddleware.optionalAuth] *)
Definition optionalAuth (authorization : option string) : Outcome :=
  match authorization with
  | None => next None
  | Some EmptyString => next None
  | Some _ =>
      match AuthUtils.extractTokenFromHeader authorization with
      | None => next None
      | Some EmptyString => next None
      | Some token_ =>
          match verifyToken token_ with
          | Resolved payload => next (Some (auth_of payload token_))
          | Rejected _ => next None
          end
      end
  end.

End Verify.

End AuthMiddleware.

(** ** Pagination *)

Module Pagination.

Record Metadata : Type := {
  m_total : Z;
  m_limit : Z;
  m_offset : Z;
  pages : Z;
  currentPage : Z;
  hasNext : bool;
  hasPrev : bool;
  nextPage : option Z;
  prevPage : option Z
}.

(** [Math.ceil(a / b)] on integers, [b] not zero. *)
Definition ceil_div (a b : Z) : Z := - ((- a) / b).

(** [Pagination.getMetadata(total, limit, offset)] on integers; with
    [limit = 0] the divisions give no finite number and there is [None]. *)
Definition getMetadata (total limit_ offset_ : Z) : option Metadata :=
  if limit_ =? 0 then None
  else
    let pages_ := ceil_div total limit_ in
    let currentPage_ := offset_ / limit_ + 1 in
    let hasNext_ := currentPage_ <? pages_ in
    let hasPrev_ := currentPage_ >? 1 in
    Some {| m_total := total; m_limit := limit_; m_offset := offset_;
            pages := pages_; currentPage := currentPage_;
            hasNext := hasNext_; hasPrev := hasPrev_;
            nextPage := if hasNext_ then Some (currentPage_ + 1) else None;
            prevPage := if hasPrev_ then Some (currentPage_ - 1) else None |}.

Record Stats : Type := {
  startItem : Z;
  endItem : Z;
  isEmpty : bool;
  isFirstPage : bool;
  isLastPage : bool
}.

(** [Pagination.getStats(total, limit, offset)]; the three fields that
    echo the arguments ([totalItems], [itemsPerPage], [currentOffset]) are
    left out of the record. *)
Definition getStats (total limit_ offset_ : Z) : Stats :=
  {| startItem := offset_ + 1;
     endItem := Z.min (offset_ + limit_) total;
     isEmpty := total =? 0;
     isFirstPage := offset_ =? 0;
     isLastPage := offset_ + limit_ >=? total |}.

End Pagination.

(** * Vocabulary of the properties *)

Unset Implicit Arguments.

(** ** Sample stores *)

Module Samples.

Definition ana : User.t :=
  {| User.id := 1; User.name := "Ana"; User.email := "ana@example.org";
     User.password_hash := "$2a$12$ana" |}.

Definition bia : User.t :=
  {| User.id := 2; User.name := "Bia"; User.email := "bia@example.org";
     User.password_hash := "$2a$12$bia" |}.

Definition day : Z := 86400000.

(** The clock of the sample calls. *)
Definition noon : Z := 1000 * day.

Definition postX : Post.t :=
  {| Post.id := 1; Post.user_id := 1; Post.title := "Post X";
     Post.summary := "A summary"; Post.content := "Some content";
     Post.available_at := noon - day |}.

(** A post scheduled two days ahead of [noon]. *)
Definition postY : Post.t :=
  {| Post.id := 2; Post.user_id := 1; Post.title := "Post Y";
     Post.summary := "Coming soon"; Post.content := "Later content";
     Post.available_at := noon + 2 * day |}.

Definition no_likes : PostLike.table := {| PostLike.rows := []; PostLike.id_seq := 1 |}.

(** Ana owns post X, nobody has liked it. *)
Definition fresh : DB :=
  {| users := [ana; bia]; posts := [postX]; post_likes := no_likes |}.

(** Bia liked post X and took the like back. *)
Definition unliked : DB :=
  {| users := [ana; bia]; posts := [postX];
     post_likes :=
       {| PostLike.rows :=
            [{| PostLike.id := 1; PostLike.user_id := 2; PostLike.post_id := 1;
                PostLike.liked_at := noon - 1; PostLike.is_deleted := true |}];
          PostLike.id_seq := 2 |} |}.

(** Bia's like of post X is active. *)
Definition liked_once : DB :=
  {| users := [ana; bia]; posts := [postX];
     post_likes :=
       {| PostLike.rows :=
            [{| PostLike.id := 1; PostLike.user_id := 2; PostLike.post_id := 1;
                PostLike.liked_at := noon - 1; PostLike.is_deleted := false |}];
          PostLike.id_seq := 2 |} |}.

(** A second listable post of Bia, dated like post X. *)
Definition postZ : Post.t :=
  {| Post.id := 2; Post.user_id := 2; Post.title := "Post Z";
     Post.summary := "Same day"; Post.content := "Other content";
     Post.available_at := noon - day |}.

(** The store scans post Z (id 2) before post X (id 1): nothing ties the
    scan order of a table to its ids once rows have been rewritten. *)
Definition tied : DB :=
  {| users := [ana; bia]; posts := [postZ; postX]; post_likes := no_likes |}.

Definition no_filters : PostService.Filters :=
  {| PostService.include_scheduled := None; PostService.user_id := None;
     PostService.search := None |}.

Definition ask_scheduled : PostService.Filters :=
  {| PostService.include_scheduled := Some true; PostService.user_id := None;
     PostService.search := None |}.

Definition first_page : PostService.Pagination :=
  {| PostService.limit := None; PostService.offset := None |}.

(** Post X is listable, post Y is scheduled. *)
Definition with_scheduled : DB :=
  {| users := [ana; bia]; posts := [postX; postY]; post_likes := no_likes |}.

(** An older post of Bia and a scheduled post of Ana. *)
Definition postW : Post.t :=
  {| Post.id := 3; Post.user_id := 2; Post.title := "Post W";
     Post.summary := "Two days old"; Post.content := "Older content";
     Post.available_at := noon - 2 * day |}.

Definition postS : Post.t :=
  {| Post.id := 4; Post.user_id := 1; Post.title := "Post S";
     Post.summary := "Not yet out"; Post.content := "Future content";
     Post.available_at := noon + 2 * day |}.

Definition like (id_ user_ post_ at_ : Z) (deleted : bool) : PostLike.t :=
  {| PostLike.id := id_; PostLike.user_id := user_; PostLike.post_id := post_;
     PostLike.liked_at := at_; PostLike.is_deleted := deleted |}.

(** Four posts, X and Z dated alike and S scheduled; post X has two active
    likes, post Z a like that was taken back, post W one active like. *)
Definition busy : DB :=
  {| users := [ana; bia];
     posts := [postX; postZ; postW; postS];
     post_likes :=
       {| PostLike.rows :=
            [like 1 2 1 (noon - 3) false;
             like 2 1 1 (noon - 2) false;
             like 3 1 2 (noon - 4) true;
             like 4 1 3 (noon - 1) false];
          PostLike.id_seq := 5 |} |}.

(** Posts W and X, available and of different dates, and the scheduled
    post S; Bia likes post X. *)
Definition spread : DB :=
  {| users := [ana; bia];
     posts := [postW; postX; postS];
     post_likes :=
       {| PostLike.rows := [like 1 2 1 (noon - 3) false]; PostLike.id_seq := 2 |} |}.

(** A count of characters for the sample calls: the code points. *)
Definition characters (s : string) : Z :=
  Z.of_nat (List.length (JsString.code_points s)).

(** A store that yields rows of equal date in scan order, and one that
    yields the higher id first. *)
Definition scan_order : Post.t -> Z := fun _ => 0.

Definition higher_id_first : Post.t -> Z := fun p => - Post.id p.

End Samples.

Definition active_likes (postId : Z) (tb : PostLike.table) : list PostLike.t :=
  filter (fun l => (PostLike.post_id l =? postId) && negb (PostLike.is_deleted l))
         (PostLike.rows tb).

Definition rows_of_pair (u p : Z) (tb : PostLike.table) : list PostLike.t :=
  filter (PostLike.same_pair u p) (PostLike.rows tb).

(** The unique index, as a property of a table. *)
Definition unique_index (tb : PostLike.table) : Prop :=
  forall u p, (List.length (rows_of_pair u p tb) <= 1)%nat.

Definition unique_violation : Exn :=
  {| name := SequelizeUniqueConstraintError; message := "Validation error" |}.

(** The outcome of [toggleLike] when the scoped lookup finds [like]. *)
Definition toggled (now postId : Z) (like : PostLike.t) (db : DB)
  : Result LikeService.ToggleResult * DB :=
  let tb := PostLike.save (PostLike.toggle now like) (post_likes db) in
  (Resolved {| LikeService.liked := negb (PostLike.is_deleted (PostLike.toggle now like));
               LikeService.total_likes := List.length (active_likes postId tb) |},
   set_post_likes tb db).

(** The outcome of [toggleLike] when the scoped lookup finds nothing. *)
Definition inserted (now postId userId : Z) (db : DB)
  : Result LikeService.ToggleResult * DB :=
  let tb := post_likes db in
  let bumped := PostLike.id_seq tb + 1 in
  if existsb (PostLike.same_pair userId postId) (PostLike.rows tb)
  then (Rejected unique_violation,
        set_post_likes {| PostLike.rows := PostLike.rows tb; PostLike.id_seq := bumped |} db)
  else
    let row := {| PostLike.id := PostLike.id_seq tb; PostLike.user_id := userId;
                  PostLike.post_id := postId; PostLike.liked_at := now;
                  PostLike.is_deleted := false |} in
    let tb' := {| PostLike.rows := PostLike.rows tb ++ [row]; PostLike.id_seq := bumped |} in
    (Resolved {| LikeService.liked := true;
                 LikeService.total_likes := List.length (active_likes postId tb') |},
     set_post_likes tb' db).

Record Call : Type := { at_time : Z; on_post : Z; by_user : Z }.

(** The store after a run of [toggleLike] calls, resolved or rejected. *)
Fixpoint toggles (calls : list Call) (db : DB) : DB :=
  match calls with
  | [] => db
  | c :: rest =>
      toggles rest (snd (LikeService.toggleLike (at_time c) (on_post c) (by_user c) db))
  end.

(** What identifies a like row for good. *)
Definition identity (l : PostLike.t) : Z * Z * Z :=
  (PostLike.id l, PostLike.user_id l, PostLike.post_id l).

(** No row of [tb] is missing from [tb']. *)
Definition keeps_rows (tb tb' : PostLike.table) : Prop :=
  forall l, In l (PostLike.rows tb) ->
  exists l', In l' (PostLike.rows tb') /\ identity l' = identity l.

(** The value a call resolved with, if it did. *)
Definition resolved {A : Type} (r : Result A) : option A :=
  match r with
  | Resolved a => Some a
  | Rejected _ => None
  end.

(** The kind of failure a controller answered with, if it did. *)
Definition answered {A : Type} (r : Response A) : option type_error :=
  match r with
  | success _ _ => None
  | error _ kind _ => Some kind
  end.

(** What [Post.findByPk] and the ownership test make of a caller. *)
Inductive Standing : Type :=
| Missing
| Foreign
| Owned (post : Post.t).

Definition standing (now id userId : Z) (db : DB) : Standing :=
  match Post.findByPk now id (posts db) with
  | None => Missing
  | Some post => if Post.user_id post =? userId then Owned post else Foreign
  end.

Definition post_not_found : Exn := new_Error "Post não encontrado".

Definition like_not_found_or_denied : Exn :=
  new_Error "Like não encontrado ou você não tem permissão para removê-lo".

Definition denied (what : string) : Exn :=
  new_Error ("Acesso negado. Você não tem permissão para " ++ what ++ " este post")%string.

(** The rows of [posts] once the row of primary key [id] has been
    assigned the values [v]. *)
Definition rewritten (id : Z) (v : Post.Values) (ps : list Post.t) : list Post.t :=
  map (fun r => if Post.id r =? id then Post.assign v r else r) ps.

(** The store without the post [id] and, by the cascade, its likes. *)
Definition without_post (id : Z) (db : DB) : DB :=
  {| users := users db;
     posts := filter (fun p => negb (Post.id p =? id)) (posts db);
     post_likes :=
       {| PostLike.rows := filter (fun l => negb (PostLike.post_id l =? id))
                                  (PostLike.rows (post_likes db));
          PostLike.id_seq := PostLike.id_seq (post_likes db) |} |}.

(** Whether values leave the post they are assigned to among the posts
    that are available at [now]. *)
Definition stays_available (now : Z) (v : Post.Values) : bool :=
  match Post.v_available_at v with
  | Some t => t <=? now
  | None => true
  end.

Definition not_in_future : Exn :=
  new_Error "Data de disponibilidade deve ser no futuro".

Definition reschedule (available_at : Z) : Post.Values :=
  {| Post.v_title := None; Post.v_summary := None;
     Post.v_content := None; Post.v_available_at := Some available_at |}.

Definition later_first (a b : Post.t) : Prop :=
  Post.available_at b <= Post.available_at a.

Definition joined_rows (p : Post.t) (likes : list PostLike.t)
  : list (Post.t * option PostLike.t) :=
  match PostService.joined_likes p likes with
  | [] => [(p, None)]
  | ls => map (fun l => (p, Some l)) ls
  end.

Definition post_id_of (row : Post.t * option PostLike.t) : Z := Post.id (fst row).

(** The owner's [{ id, name }] and the number of active likes of the post. *)
Definition attached (db : DB) (v : PostService.PostView) : Prop :=
  let p := PostService.post (PostService.data v) in
  In p (posts db)
  /\ (exists u, In u (users db) /\ User.id u = Post.user_id p
        /\ PostService.d_User (PostService.data v)
           = Some {| PostService.owner_id := Post.user_id p;
                     PostService.owner_name := User.name u |})
  /\ PostService.total_likes v
     = List.length (active_likes (Post.id p) (post_likes db)).

(** The number of active likes of the post, and no owner. *)
Definition counted_without_owner (db : DB) (v : PostService.PostView) : Prop :=
  let p := PostService.post (PostService.data v) in
  In p (posts db)
  /\ PostService.d_User (PostService.data v) = None
  /\ PostService.total_likes v
     = List.length (active_likes (Post.id p) (post_likes db)).

(** Every post row refers to a user row (the foreign key of [posts]). *)
Definition owners_exist (db : DB) : Prop :=
  forall p, In p (posts db) -> User.findByPk (Post.user_id p) (users db) <> None.

Definition view (flags : option bool) (postData : PostService.PostData)
  : PostService.PostView :=
  {| PostService.data := postData;
     PostService.total_likes := List.length (PostService.d_PostLikes postData);
     PostService.allowEdit := flags;
     PostService.allowRemove := flags |}.

Definition newest_first (a b : PostService.PostView) : Prop :=
  later_first (PostService.post (PostService.data a))
              (PostService.post (PostService.data b)).

Definition invalid_credentials : Exn := new_Error "Credenciais inválidas".

Module Fakes.

(** A stand-in for bcrypt on the sample users: the digest of [plain] is
    ["$2a$12$"] followed by [plain]. *)
Definition compare (plain hash : string) : bool :=
  String.eqb hash ("$2a$12$" ++ plain)%string.

Definition rehash (plain old : string) : string := ("$2a$12$" ++ plain)%string.

Definition sign (payload : AuthUtils.Payload) : option string :=
  Some ("token-for-" ++ AuthUtils.p_email payload)%string.

End Fakes.

Definition same_password : Exn :=
  new_Error "A nova senha deve ser diferente da senha atual".

(** A store where Ana's password is "Ana#2024". *)
Definition ana_with_password : DB :=
  {| users := [{| User.id := 1; User.name := "Ana"; User.email := "ana@example.org";
                  User.password_hash := "$2a$12$Ana#2024" |}];
     posts := []; post_likes := Samples.no_likes |}.

(** ** Vocabulary of the further properties *)

(** Like ids are distinct and below the next value of the sequence. *)
Definition like_ids_fresh (tb : PostLike.table) : Prop :=
  NoDup (map PostLike.id (PostLike.rows tb))
  /\ Forall (fun l => PostLike.id l < PostLike.id_seq tb) (PostLike.rows tb).

(** The active rows of a user. *)
Definition active_likes_by (userId : Z) (tb : PostLike.table) : list PostLike.t :=
  filter (fun l => (PostLike.user_id l =? userId) && negb (PostLike.is_deleted l))
         (PostLike.rows tb).

(** What [removeLike] writes to a row. *)
Definition deactivate (likeId : Z) (r : PostLike.t) : PostLike.t :=
  if PostLike.id r =? likeId then PostLike.update_is_deleted true r else r.

Definition liked_later_first (a b : PostLike.t) : Prop :=
  PostLike.liked_at b <= PostLike.liked_at a.

Definition view_liked_later_first (a b : LikeService.LikeView) : Prop :=
  LikeService.v_liked_at b <= LikeService.v_liked_at a.

(** Every post refers to a user row, every like to a user row and a post
    row: the foreign keys of the schema. *)
Definition references_hold (db : DB) : Prop :=
  (forall p, In p (posts db) ->
     exists u, In u (users db) /\ User.id u = Post.user_id p)
  /\ (forall l, In l (PostLike.rows (post_likes db)) ->
        (exists u, In u (users db) /\ User.id u = PostLike.user_id l)
        /\ (exists p, In p (posts db) /\ Post.id p = PostLike.post_id l)).

Definition no_like_filters : LikeService.Filters :=
  {| LikeService.include_deleted := None |}.

(** The page of [limit] rows after [offset] rows. *)
Definition page (lim off : nat) : PostService.Pagination :=
  {| PostService.limit := Some lim; PostService.offset := Some off |}.

(** The filters of a listing, narrowed to the posts of one user. *)
Definition of_user (userId : Z) (filters : PostService.Filters) : PostService.Filters :=
  {| PostService.include_scheduled := PostService.include_scheduled filters;
     PostService.user_id := Some userId;
     PostService.search := PostService.search filters |}.

(** What a listing shows of a post besides owner and flags: the row and
    the number of its likes. *)
Definition shown (v : PostService.PostView) : Post.t * nat :=
  (PostService.post (PostService.data v), PostService.total_likes v).

(** No two posts of the table became available at the same instant. *)
Definition dates_differ (db : DB) : Prop :=
  NoDup (map Post.available_at (posts db)).

(** New values for the title alone. *)
Definition retitle : Post.Values :=
  {| Post.v_title := Some "Post X, revised"; Post.v_summary := None;
     Post.v_content := None; Post.v_available_at := None |}.

(** A post whose summary has nine characters in fourteen bytes. *)
Definition short_draft : PostService.PostInput :=
  {| PostService.i_title := "Ação";
     PostService.i_summary := "ção ção ç";
     PostService.i_content :=
       "A post is listed once its availability date is no longer in the future.";
     PostService.i_available_at := Samples.noon + 3600000 |}.

(** The values [createPost] hands to [Post.create]. *)
Definition values_of (postData : PostService.PostInput) : Post.Values :=
  {| Post.v_title := Some (PostService.i_title postData);
     Post.v_summary := Some (PostService.i_summary postData);
     Post.v_content := Some (PostService.i_content postData);
     Post.v_available_at := Some (PostService.i_available_at postData) |}.

(** A post that passes the validators, due one hour after [noon]. *)
Definition draft : PostService.PostInput :=
  {| PostService.i_title := "Notes on scheduling";
     PostService.i_summary := "How posts become visible";
     PostService.i_content :=
       "A post is listed once its availability date is no longer in the future.";
     PostService.i_available_at := Samples.noon + 3600000 |}.

Definition has_space (s : string) : bool :=
  existsb (fun c => Ascii.eqb c " "%char) (list_ascii_of_string s).

(** * Properties *)

(** ** The monad *)

Lemma bind_resolved {A B : Type} (c : M A) (k : A -> M B) (db db' : DB) (a : A) :
  c db = (Resolved a, db') -> bind c k db = k a db'.
Proof. intros H. unfold bind. rewrite H. reflexivity. Qed.

Lemma bind_rejected {A B : Type} (c : M A) (k : A -> M B) (db db' : DB) (e : Exn) :
  c db = (Rejected e, db') -> bind c k db = (Rejected e, db').
Proof. intros H. unfold bind. rewrite H. reflexivity. Qed.

(** ** PostLike rows *)

Lemma count_active (postId : Z) (tb : PostLike.table) :
  PostLike.count
    {| PostLike.w_id := None; PostLike.w_user_id := None;
       PostLike.w_post_id := Some postId; PostLike.w_is_deleted := Some false |} tb
  = List.length (active_likes postId tb).
Proof.
  unfold PostLike.count, active_likes.
  apply (f_equal (@List.length PostLike.t)).
  apply filter_ext. intros l.
  unfold PostLike.matches, PostLike.injectScope, holds, assign_key; simpl.
  rewrite (Z.eqb_sym (PostLike.post_id l) postId).
  destruct (PostLike.is_deleted l), (postId =? PostLike.post_id l); reflexivity.
Qed.

Lemma same_pair_save_row (this r : PostLike.t) (u p : Z) :
  PostLike.same_pair u p (PostLike.save_row this r) = PostLike.same_pair u p r.
Proof.
  unfold PostLike.save_row, PostLike.same_pair.
  destruct (PostLike.id r =? PostLike.id this); reflexivity.
Qed.

Lemma rows_of_pair_save (this : PostLike.t) (u p : Z) (tb : PostLike.table) :
  rows_of_pair u p (PostLike.save this tb)
  = map (PostLike.save_row this) (rows_of_pair u p tb).
Proof.
  unfold rows_of_pair, PostLike.save; simpl.
  induction (PostLike.rows tb) as [|r rs IH]; simpl; [reflexivity|].
  rewrite same_pair_save_row.
  destruct (PostLike.same_pair u p r); simpl; rewrite IH; reflexivity.
Qed.

Lemma existsb_filter_nil {A : Type} (f : A -> bool) (l : list A) :
  existsb f l = false -> filter f l = [].
Proof.
  induction l as [|a l IH]; simpl; [reflexivity|].
  destruct (f a); simpl; [discriminate|exact IH].
Qed.

Lemma find_filter {A : Type} (f g : A -> bool) (l : list A) :
  find (fun x => f x && g x) l = find g (filter f l).
Proof.
  induction l as [|a l IH]; simpl; [reflexivity|].
  destruct (f a); simpl; [|exact IH].
  destruct (g a); [reflexivity|exact IH].
Qed.

(** The lookup of [toggleLike] only sees the active row of the pair: the
    default scope adds [is_deleted: false] to its [where]. *)
Lemma findOne_pair (u p : Z) (tb : PostLike.table) :
  PostLike.findOne
    {| PostLike.w_id := None; PostLike.w_user_id := Some u;
       PostLike.w_post_id := Some p; PostLike.w_is_deleted := None |} tb
  = find PostLike.isActive (rows_of_pair u p tb).
Proof.
  unfold PostLike.findOne, rows_of_pair. rewrite <- find_filter.
  apply (f_equal (fun f => find f (PostLike.rows tb))).
  reflexivity.
Qed.

(** ** LikeService.toggleLike, case by case *)

Lemma toggleLike_cases (now postId userId : Z) (db : DB) :
  LikeService.toggleLike now postId userId db =
  match Post.findByPk now postId (posts db) with
  | None => (Rejected (new_Error "Post não encontrado"), db)
  | Some _ =>
      match User.findByPk userId (users db) with
      | None => (Rejected (new_Error "Usuário não encontrado"), db)
      | Some _ =>
          match find PostLike.isActive (rows_of_pair userId postId (post_likes db)) with
          | Some like => toggled now postId like db
          | None => inserted now postId userId db
          end
      end
  end.
Proof.
  unfold LikeService.toggleLike, bind, query, throw.
  destruct (Post.findByPk now postId (posts db)); [|reflexivity].
  destruct (User.findByPk userId (users db)); [|reflexivity].
  rewrite findOne_pair.
  destruct (find PostLike.isActive (rows_of_pair userId postId (post_likes db))) as [like|].
  - unfold toggled, write_post_likes, ret; simpl. rewrite count_active. reflexivity.
  - unfold inserted, on_post_likes, PostLike.create, ret.
    destruct (existsb (PostLike.same_pair userId postId) (PostLike.rows (post_likes db)));
      simpl; [reflexivity|].
    rewrite count_active. reflexivity.
Qed.

(** A missing post is reported before anything is written. *)
Lemma toggleLike_post_missing (now postId userId : Z) (db : DB) :
  Post.findByPk now postId (posts db) = None ->
  LikeService.toggleLike now postId userId db
  = (Rejected (new_Error "Post não encontrado"), db).
Proof. intros H. rewrite toggleLike_cases, H. reflexivity. Qed.

(** So is a missing user. *)
Lemma toggleLike_user_missing (now postId userId : Z) (db : DB) (post : Post.t) :
  Post.findByPk now postId (posts db) = Some post ->
  User.findByPk userId (users db) = None ->
  LikeService.toggleLike now postId userId db
  = (Rejected (new_Error "Usuário não encontrado"), db).
Proof. intros H1 H2. rewrite toggleLike_cases, H1, H2. reflexivity. Qed.

(** Whenever [toggleLike] resolves, [total_likes] is the number of active
    rows of the post in the store it leaves behind. *)
Lemma toggleLike_total_after (now postId userId : Z) (db db' : DB)
  (r : LikeService.ToggleResult) :
  LikeService.toggleLike now postId userId db = (Resolved r, db') ->
  LikeService.total_likes r = List.length (active_likes postId (post_likes db')).
Proof.
  rewrite toggleLike_cases.
  destruct (Post.findByPk now postId (posts db)); [|discriminate].
  destruct (User.findByPk userId (users db)); [|discriminate].
  destruct (find PostLike.isActive (rows_of_pair userId postId (post_likes db))).
  - unfold toggled. intros H. injection H as <- <-. reflexivity.
  - unfold inserted.
    destruct (existsb (PostLike.same_pair userId postId) (PostLike.rows (post_likes db)));
      [discriminate|].
    intros H. injection H as <- <-. reflexivity.
Qed.

Lemma existsb_filter_cons {A : Type} (f : A -> bool) (l : list A) (a : A) (rest : list A) :
  filter f l = a :: rest -> existsb f l = true.
Proof.
  induction l as [|x l IH]; simpl; [discriminate|].
  destruct (f x); simpl; [reflexivity|exact IH].
Qed.

(** A user who took a like back cannot like the post again: the scoped
    lookup does not see the inactive row, and the insert that follows is
    refused by the unique index. *)
Lemma toggleLike_inactive_rejected (now postId userId : Z) (db : DB)
  (post : Post.t) (user : User.t) (like : PostLike.t) :
  Post.findByPk now postId (posts db) = Some post ->
  User.findByPk userId (users db) = Some user ->
  rows_of_pair userId postId (post_likes db) = [like] ->
  PostLike.is_deleted like = true ->
  fst (LikeService.toggleLike now postId userId db) = Rejected unique_violation
  /\ fst (LikeController.toggleLike now postId userId db)
     = error 500 INTERNAL_ERROR "Erro interno do servidor".
Proof.
  intros Hp Hu Hrows Hdel.
  assert (Hcase : fst (LikeService.toggleLike now postId userId db)
                  = Rejected unique_violation).
  { rewrite toggleLike_cases, Hp, Hu, Hrows. simpl.
    unfold PostLike.isActive. rewrite Hdel. simpl.
    unfold inserted.
    rewrite (existsb_filter_cons _ _ _ _ Hrows). reflexivity. }
  split; [exact Hcase|].
  unfold LikeController.toggleLike.
  destruct (LikeService.toggleLike now postId userId db) as [r db'].
  simpl in Hcase. subst r. reflexivity.
Qed.

(** ** Any sequence of toggles *)

Lemma keeps_rows_refl (tb : PostLike.table) : keeps_rows tb tb.
Proof. intros l Hl. exists l. split; [exact Hl|reflexivity]. Qed.

Lemma keeps_rows_trans (a b c : PostLike.table) :
  keeps_rows a b -> keeps_rows b c -> keeps_rows a c.
Proof.
  intros Hab Hbc l Hl.
  destruct (Hab l Hl) as [l' [Hl' E']].
  destruct (Hbc l' Hl') as [l'' [Hl'' E'']].
  exists l''. split; [exact Hl''|congruence].
Qed.

Lemma identity_save_row (this r : PostLike.t) :
  identity (PostLike.save_row this r) = identity r.
Proof.
  unfold PostLike.save_row, identity.
  destruct (PostLike.id r =? PostLike.id this); reflexivity.
Qed.

Lemma keeps_rows_save (this : PostLike.t) (tb : PostLike.table) :
  keeps_rows tb (PostLike.save this tb).
Proof.
  intros l Hl. exists (PostLike.save_row this l). split.
  - unfold PostLike.save; simpl. apply in_map. exact Hl.
  - apply identity_save_row.
Qed.

Lemma unique_index_save (this : PostLike.t) (tb : PostLike.table) :
  unique_index tb -> unique_index (PostLike.save this tb).
Proof.
  intros H u p. rewrite rows_of_pair_save, length_map. apply H.
Qed.

Lemma same_pair_true (u p : Z) (r : PostLike.t) :
  PostLike.same_pair u p r = true -> PostLike.user_id r = u /\ PostLike.post_id r = p.
Proof.
  unfold PostLike.same_pair. intros H.
  apply andb_true_iff in H. destruct H as [H1 H2].
  apply Z.eqb_eq in H1. apply Z.eqb_eq in H2. split; assumption.
Qed.

(** One call keeps the index and every row it found. *)
Lemma toggleLike_step (now postId userId : Z) (db : DB) :
  let db' := snd (LikeService.toggleLike now postId userId db) in
  (unique_index (post_likes db) -> unique_index (post_likes db'))
  /\ keeps_rows (post_likes db) (post_likes db').
Proof.
  simpl. rewrite toggleLike_cases.
  destruct (Post.findByPk now postId (posts db));
    [|split; [tauto|apply keeps_rows_refl]].
  destruct (User.findByPk userId (users db));
    [|split; [tauto|apply keeps_rows_refl]].
  destruct (find PostLike.isActive (rows_of_pair userId postId (post_likes db))) as [like|].
  - unfold toggled; simpl. split.
    + apply unique_index_save.
    + apply keeps_rows_save.
  - unfold inserted.
    destruct (existsb (PostLike.same_pair userId postId) (PostLike.rows (post_likes db)))
      eqn:Hex; simpl.
    + split.
      * intros H u p. exact (H u p).
      * intros l Hl. exists l. split; [exact Hl|reflexivity].
    + split.
      * intros H u p. unfold rows_of_pair; simpl.
        rewrite filter_app, length_app. simpl.
        destruct (PostLike.same_pair u p _) eqn:Hsp; simpl.
        -- apply same_pair_true in Hsp. simpl in Hsp. destruct Hsp as [<- <-].
           rewrite (existsb_filter_nil _ _ Hex). simpl. lia.
        -- specialize (H u p). unfold rows_of_pair in H. lia.
      * intros l Hl. exists l. split; [|reflexivity].
        simpl. apply in_or_app. left. exact Hl.
Qed.

(** C3. For every (user, post) pair at most one like row exists however
    many times [toggleLike] is called, and no run of [toggleLike] calls
    removes a like row: every row present before the run is still there
    afterwards, with the same id, user and post. *)
Theorem toggles_keep_unique_rows (calls : list Call) (db : DB) :
  unique_index (post_likes db) ->
  unique_index (post_likes (toggles calls db))
  /\ keeps_rows (post_likes db) (post_likes (toggles calls db)).
Proof.
  revert db. induction calls as [|c rest IH]; intros db Huniq; simpl.
  - split; [exact Huniq|apply keeps_rows_refl].
  - destruct (toggleLike_step (at_time c) (on_post c) (by_user c) db) as [Hu Hk].
    destruct (IH _ (Hu Huniq)) as [Hu' Hk'].
    split; [exact Hu'|].
    exact (keeps_rows_trans _ _ _ Hk Hk').
Qed.

Lemma toggles_keep_unique_rows_witness :
  unique_index (post_likes Samples.fresh)
  /\ unique_index
       (post_likes
          (toggles [ {| at_time := Samples.noon; on_post := 1; by_user := 2 |};
                     {| at_time := Samples.noon + 1; on_post := 1; by_user := 2 |};
                     {| at_time := Samples.noon + 2; on_post := 1; by_user := 2 |};
                     {| at_time := Samples.noon + 3; on_post := 1; by_user := 1 |} ]
                   Samples.fresh)).
Proof.
  assert (H : unique_index (post_likes Samples.fresh)).
  { intros u p. simpl. lia. }
  split; [exact H|].
  exact (proj1 (toggles_keep_unique_rows _ Samples.fresh H)).
Defined.

(** ** The like toggle on the sample stores *)

(** C1. Post 1 and user 2 both exist and the pair already has a like row
    that was taken back ([is_deleted = true]); [toggleLike(1, 2)] does not
    resolve with [{ liked, total_likes }]: the insert is refused by the
    unique index, the service rejects with [SequelizeUniqueConstraintError]
    and the controller answers 500 [INTERNAL_ERROR]. *)
Theorem toggleLike_existing_post_and_user_rejected :
  Post.findByPk Samples.noon 1 (posts Samples.unliked) = Some Samples.postX
  /\ User.findByPk 2 (users Samples.unliked) = Some Samples.bia
  /\ fst (LikeService.toggleLike Samples.noon 1 2 Samples.unliked)
     = Rejected unique_violation
  /\ fst (LikeController.toggleLike Samples.noon 1 2 Samples.unliked)
     = error 500 INTERNAL_ERROR "Erro interno do servidor".
Proof. repeat split; vm_compute; reflexivity. Qed.

(** C2. From the NONE state of (user 2, post 1), the first [toggleLike]
    resolves with [liked = true] and one like, the second with
    [liked = false] and no like, and the third does not return
    [liked = true]: it is rejected with [SequelizeUniqueConstraintError],
    the row staying inactive. *)
Theorem toggleLike_third_call_rejected :
  let first := LikeService.toggleLike Samples.noon 1 2 Samples.fresh in
  let second := LikeService.toggleLike (Samples.noon + 1) 1 2 (snd first) in
  let third := LikeService.toggleLike (Samples.noon + 2) 1 2 (snd second) in
  fst first = Resolved {| LikeService.liked := true; LikeService.total_likes := 1 |}
  /\ fst second = Resolved {| LikeService.liked := false; LikeService.total_likes := 0 |}
  /\ fst third = Rejected unique_violation
  /\ PostLike.rows (post_likes (snd third))
     = [{| PostLike.id := 1; PostLike.user_id := 2; PostLike.post_id := 1;
           PostLike.liked_at := Samples.noon; PostLike.is_deleted := true |}].
Proof. repeat split; vm_compute; reflexivity. Qed.

(** ** PostLike.toggle *)


(** Saving the toggled instance writes that row only. *)
Lemma save_toggle_other_rows (now : Z) (like r : PostLike.t) :
  PostLike.id r <> PostLike.id like ->
  PostLike.save_row (PostLike.toggle now like) r = r.
Proof.
  intros Hne. unfold PostLike.save_row. simpl.
  destruct (PostLike.id r =? PostLike.id like) eqn:E; [|reflexivity].
  apply Z.eqb_eq in E. contradiction.
Qed.

Lemma save_toggle_same_row (now : Z) (like : PostLike.t) :
  PostLike.save_row (PostLike.toggle now like) like = PostLike.toggle now like.
Proof.
  unfold PostLike.save_row. simpl. rewrite Z.eqb_refl. reflexivity.
Qed.

(** ** The alternation, on any store *)

Lemma filter_nil_existsb {A : Type} (f : A -> bool) (l : list A) :
  filter f l = [] -> existsb f l = false.
Proof.
  induction l as [|a l IH]; simpl; [reflexivity|].
  destruct (f a); simpl; [discriminate|exact IH].
Qed.

(** From the NONE state of a pair, on any store: the first call likes, the
    second takes the like back, and the third is refused by the unique
    index instead of liking again. *)
Lemma toggleLike_twice_then_rejected (now1 now2 now3 postId userId : Z) (db : DB)
  (post1 post2 post3 : Post.t) (user : User.t) :
  Post.findByPk now1 postId (posts db) = Some post1 ->
  Post.findByPk now2 postId (posts db) = Some post2 ->
  Post.findByPk now3 postId (posts db) = Some post3 ->
  User.findByPk userId (users db) = Some user ->
  rows_of_pair userId postId (post_likes db) = [] ->
  let first := LikeService.toggleLike now1 postId userId db in
  let second := LikeService.toggleLike now2 postId userId (snd first) in
  let third := LikeService.toggleLike now3 postId userId (snd second) in
  option_map LikeService.liked (resolved (fst first)) = Some true
  /\ option_map LikeService.liked (resolved (fst second)) = Some false
  /\ fst third = Rejected unique_violation.
Proof.
  intros Hp1 Hp2 Hp3 Hu Hrows. simpl.
  set (row := {| PostLike.id := PostLike.id_seq (post_likes db);
                 PostLike.user_id := userId; PostLike.post_id := postId;
                 PostLike.liked_at := now1; PostLike.is_deleted := false |}).
  set (tb1 := {| PostLike.rows := PostLike.rows (post_likes db) ++ [row];
                 PostLike.id_seq := PostLike.id_seq (post_likes db) + 1 |}).
  assert (H1 : LikeService.toggleLike now1 postId userId db
               = (Resolved {| LikeService.liked := true;
                              LikeService.total_likes :=
                                List.length (active_likes postId tb1) |},
                  set_post_likes tb1 db)).
  { rewrite toggleLike_cases, Hp1, Hu, Hrows. simpl. unfold inserted.
    rewrite (filter_nil_existsb _ _ Hrows). reflexivity. }
  rewrite H1. simpl.
  assert (Hrows1 : rows_of_pair userId postId tb1 = [row]).
  { unfold rows_of_pair, tb1; simpl. rewrite filter_app.
    unfold rows_of_pair in Hrows. rewrite Hrows. simpl.
    unfold PostLike.same_pair; simpl. rewrite !Z.eqb_refl. reflexivity. }
  set (tb2 := PostLike.save (PostLike.toggle now2 row) tb1).
  assert (H2 : LikeService.toggleLike now2 postId userId (set_post_likes tb1 db)
               = (Resolved {| LikeService.liked := false;
                              LikeService.total_likes :=
                                List.length (active_likes postId tb2) |},
                  set_post_likes tb2 (set_post_likes tb1 db))).
  { rewrite toggleLike_cases. simpl. rewrite Hp2, Hu, Hrows1. reflexivity. }
  rewrite H2. simpl.
  split; [reflexivity|]. split; [reflexivity|].
  refine (proj1 (toggleLike_inactive_rejected now3 postId userId
                   (set_post_likes tb2 (set_post_likes tb1 db)) post3 user
                   (PostLike.toggle now2 row) Hp3 Hu _ _)).
  - simpl. unfold tb2. rewrite rows_of_pair_save, Hrows1. simpl.
    rewrite save_toggle_same_row. reflexivity.
  - reflexivity.
Qed.

(** ** Ownership checks of the mutations *)

Lemma find_filter_negb {A : Type} (f : A -> bool) (l : list A) :
  find f (filter (fun x => negb (f x)) l) = None.
Proof.
  induction l as [|a l IH]; simpl; [reflexivity|].
  destruct (f a) eqn:E; simpl; [exact IH|].
  rewrite E. exact IH.
Qed.

(** After a resolved [deletePost] the post cannot be read back. *)
Lemma Post_destroy_gone (now id : Z) (db : DB) :
  Post.findByPk now id (posts (snd (PostService.Post_destroy now id db))) = None.
Proof.
  unfold PostService.Post_destroy; simpl.
  unfold Post.findByPk, Post.destroyed. apply find_filter_negb.
Qed.

Lemma set_posts_same (db : DB) : set_posts (posts db) db = db.
Proof. destruct db; reflexivity. Qed.

Lemma updatePost_cases (characters : string -> Z) (now id userId : Z)
  (v : Post.Values) (db : DB) :
  PostService.updatePost characters now id v userId db =
  match standing now id userId db with
  | Missing => (Rejected post_not_found, db)
  | Foreign => (Rejected (denied "editar"), db)
  | Owned _ =>
      if Post.validate characters v
      then let db' := set_posts (snd (Post.update characters now v id (posts db))) db in
           (Resolved (option_map (PostService.read_updated db')
                        (Post.findByPk now id (posts db'))), db')
      else (Rejected (ValidationError (Post.failures characters v)), db)
  end.
Proof.
  unfold PostService.updatePost, standing, bind, query, throw.
  destruct (Post.findByPk now id (posts db)) as [post|]; [|reflexivity].
  destruct (Post.user_id post =? userId); simpl; [|reflexivity].
  unfold PostService.Post_update, Post.update.
  destruct (Post.validate characters v); simpl; [reflexivity|].
  rewrite set_posts_same. reflexivity.
Qed.

Lemma deletePost_cases (now id userId : Z) (db : DB) :
  PostService.deletePost now id userId db =
  match standing now id userId db with
  | Missing => (Rejected post_not_found, db)
  | Foreign => (Rejected (denied "remover"), db)
  | Owned _ => (Resolved true, snd (PostService.Post_destroy now id db))
  end.
Proof.
  unfold PostService.deletePost, standing, bind, query, throw.
  destruct (Post.findByPk now id (posts db)) as [post|]; [|reflexivity].
  destruct (Post.user_id post =? userId); simpl; reflexivity.
Qed.

Lemma schedulePost_cases (characters : string -> Z) (now id available_at userId : Z)
  (db : DB) :
  PostService.schedulePost characters now id available_at userId db =
  match standing now id userId db with
  | Missing => (Rejected post_not_found, db)
  | Foreign => (Rejected (denied "agendar"), db)
  | Owned _ =>
      if available_at <=? now then (Rejected not_in_future, db)
      else let db' := set_posts
                        (snd (Post.update characters now (reschedule available_at) id
                                (posts db))) db in
           (Resolved (Post.findByPk now id (posts db')), db')
  end.
Proof.
  unfold PostService.schedulePost, standing, bind, query, throw.
  destruct (Post.findByPk now id (posts db)) as [post|]; [|reflexivity].
  destruct (Post.user_id post =? userId); simpl; [|reflexivity].
  destruct (available_at <=? now); reflexivity.
Qed.

Lemma removeLike_cases (likeId userId : Z) (db : DB) :
  LikeService.removeLike likeId userId db =
  match PostLike.findOne
          {| PostLike.w_id := Some likeId; PostLike.w_user_id := Some userId;
             PostLike.w_post_id := None; PostLike.w_is_deleted := None |}
          (post_likes db) with
  | None => (Rejected like_not_found_or_denied, db)
  | Some like =>
      (Resolved true,
       set_post_likes
         (PostLike.save (PostLike.update_is_deleted true like) (post_likes db)) db)
  end.
Proof.
  unfold LikeService.removeLike, bind, query, throw.
  destruct (PostLike.findOne _ (post_likes db)); reflexivity.
Qed.

(** *** What the scoped writes do to a table with a primary key *)

Lemma same_key_same_row {A B : Type} (f : A -> B) (l : list A) (a b : A) :
  NoDup (map f l) -> In a l -> In b l -> f a = f b -> a = b.
Proof.
  induction l as [|x l IH]; intros Hnd Ha Hb Hf; [contradiction|].
  simpl in Hnd. inversion Hnd as [|k ks Hnotin Hrest]; subst.
  destruct Ha as [Ha|Ha], Hb as [Hb|Hb].
  - congruence.
  - subst x. exfalso. apply Hnotin. rewrite Hf. apply in_map. exact Hb.
  - subst x. exfalso. apply Hnotin. rewrite <- Hf. apply in_map. exact Ha.
  - exact (IH Hrest Ha Hb Hf).
Qed.

Lemma findByPk_found (now id : Z) (table : list Post.t) (p : Post.t) :
  Post.findByPk now id table = Some p ->
  In p table /\ Post.id p = id /\ Post.available_at p <= now.
Proof.
  unfold Post.findByPk. intros H. apply find_some in H. destruct H as [Hin Hm].
  unfold Post.matches_keys, Post.injectScope, holds, assign_key in Hm; simpl in Hm.
  apply andb_true_iff in Hm. destruct Hm as [Hm Hav].
  apply andb_true_iff in Hm. destruct Hm as [Hid _].
  apply Z.eqb_eq in Hid. apply Z.leb_le in Hav. repeat split; assumption.
Qed.

(** With [id] a primary key, the scoped [where] of a write that follows a
    successful [findByPk] selects the row of that id and no other. *)
Lemma scoped_row_is_row_of_id (now id : Z) (table : list Post.t) (post r : Post.t) :
  NoDup (map Post.id table) ->
  Post.findByPk now id table = Some post ->
  In r table ->
  Post.matches_keys
    (Post.injectScope now
       {| Post.w_id := Some id; Post.w_user_id := None;
          Post.w_available_at_lte := None; Post.w_search := None |}) r
  = (Post.id r =? id).
Proof.
  intros Hnd Hfind Hr.
  apply findByPk_found in Hfind. destruct Hfind as [Hin [Hid Hav]].
  unfold Post.matches_keys, Post.injectScope, holds, assign_key; simpl.
  destruct (Post.id r =? id) eqn:E; simpl; [|reflexivity].
  apply Z.eqb_eq in E.
  assert (r = post) by (apply (same_key_same_row Post.id table); congruence).
  subst r. apply Z.leb_le. exact Hav.
Qed.

Lemma scoped_assign_rewritten (now id : Z) (v : Post.Values) (table : list Post.t)
  (post : Post.t) :
  NoDup (map Post.id table) ->
  Post.findByPk now id table = Some post ->
  map (fun r =>
         if Post.matches_keys
              (Post.injectScope now
                 {| Post.w_id := Some id; Post.w_user_id := None;
                    Post.w_available_at_lte := None; Post.w_search := None |}) r
         then Post.assign v r else r) table
  = rewritten id v table.
Proof.
  intros Hnd Hfind. unfold rewritten. apply map_ext_in. intros r Hr.
  rewrite (scoped_row_is_row_of_id now id table post r Hnd Hfind Hr). reflexivity.
Qed.

Lemma standing_owned (now id userId : Z) (db : DB) (post : Post.t) :
  Post.findByPk now id (posts db) = Some post ->
  Post.user_id post = userId ->
  standing now id userId db = Owned post.
Proof.
  intros Hfind Hown. unfold standing. rewrite Hfind.
  rewrite (proj2 (Z.eqb_eq _ _) Hown). reflexivity.
Qed.

Lemma standing_owned_found (now id userId : Z) (db : DB) (post : Post.t) :
  standing now id userId db = Owned post ->
  Post.findByPk now id (posts db) = Some post.
Proof.
  unfold standing. destruct (Post.findByPk now id (posts db)) as [p|]; [|discriminate].
  destruct (Post.user_id p =? userId); [|discriminate].
  intros H. injection H as <-. reflexivity.
Qed.

Lemma destroyed_id (now id : Z) (p : Post.t) :
  Post.destroyed now id p = true -> Post.id p = id.
Proof.
  unfold Post.destroyed, Post.matches_keys, Post.injectScope, holds, assign_key; simpl.
  intros H. apply andb_true_iff in H. destruct H as [H _].
  apply andb_true_iff in H. destruct H as [H _]. apply Z.eqb_eq. exact H.
Qed.

Lemma existsb_gone (now id : Z) (table : list Post.t) (post : Post.t) (pid : Z) :
  Post.findByPk now id table = Some post ->
  existsb (fun p => Post.id p =? pid) (filter (Post.destroyed now id) table)
  = (pid =? id).
Proof.
  intros Hfind. unfold Post.findByPk in Hfind. apply find_some in Hfind.
  destruct Hfind as [Hin Hm].
  destruct (pid =? id) eqn:E.
  - apply Z.eqb_eq in E. apply existsb_exists. exists post. split.
    + apply filter_In. split; [exact Hin|exact Hm].
    + apply Z.eqb_eq. rewrite E. exact (destroyed_id now id post Hm).
  - apply Z.eqb_neq in E.
    destruct (existsb _ _) eqn:Hex; [|reflexivity].
    apply existsb_exists in Hex. destruct Hex as [p [Hp Hid]].
    apply filter_In in Hp. destruct Hp as [_ Hd].
    apply destroyed_id in Hd. apply Z.eqb_eq in Hid. congruence.
Qed.

Lemma Post_destroy_without_post (now id : Z) (db : DB) (post : Post.t) :
  NoDup (map Post.id (posts db)) ->
  Post.findByPk now id (posts db) = Some post ->
  snd (PostService.Post_destroy now id db) = without_post id db.
Proof.
  intros Hnd Hfind. unfold PostService.Post_destroy, without_post. simpl.
  f_equal.
  - apply filter_ext_in. intros p Hp. unfold Post.destroyed.
    rewrite (scoped_row_is_row_of_id now id (posts db) post p Hnd Hfind Hp). reflexivity.
  - f_equal. apply filter_ext. intros l.
    rewrite (existsb_gone now id (posts db) post (PostLike.post_id l) Hfind). reflexivity.
Qed.

(** Whether a row rewritten by a scoped update is still seen by the scope. *)
Lemma find_after_update (now id : Z) (v : Post.Values) (table : list Post.t) :
  let seen := Post.matches_keys
                (Post.injectScope now
                   {| Post.w_id := Some id; Post.w_user_id := None;
                      Post.w_available_at_lte := None; Post.w_search := None |}) in
  find seen (map (fun r => if seen r then Post.assign v r else r) table)
  = if stays_available now v then option_map (Post.assign v) (find seen table) else None.
Proof.
  simpl. unfold stays_available.
  set (seen := Post.matches_keys _).
  assert (Hkeep : forall r, seen r = true ->
            seen (Post.assign v r)
            = match Post.v_available_at v with Some t => t <=? now | None => true end).
  { intros r Hr. unfold seen, Post.matches_keys, Post.injectScope, holds, assign_key in *.
    simpl in *.
    apply andb_true_iff in Hr. destruct Hr as [Hr Hav]. rewrite Hr. simpl.
    destruct (Post.v_available_at v); simpl; [reflexivity|exact Hav]. }
  induction table as [|r table IH]; simpl.
  - destruct (match Post.v_available_at v with Some t => t <=? now | None => true end);
      reflexivity.
  - destruct (seen r) eqn:Hr.
    + rewrite (Hkeep r Hr).
      destruct (match Post.v_available_at v with Some t => t <=? now | None => true end)
        eqn:Hstill; [reflexivity|].
      exact IH.
    + rewrite Hr. exact IH.
Qed.

(** The owner's update, when the values pass the validators: the row is
    rewritten, and read back if the scope still shows it. *)
Lemma updatePost_owner (characters : string -> Z) (now id userId : Z)
  (v : Post.Values) (db : DB) (post : Post.t) :
  NoDup (map Post.id (posts db)) ->
  standing now id userId db = Owned post ->
  Post.validate characters v = true ->
  let db' := set_posts (rewritten id v (posts db)) db in
  PostService.updatePost characters now id v userId db
  = (Resolved (if stays_available now v
               then Some (PostService.read_updated db' (Post.assign v post))
               else None), db').
Proof.
  intros Hnd Hst Hvalid. simpl.
  assert (Hfind := standing_owned_found _ _ _ _ _ Hst).
  rewrite updatePost_cases, Hst, Hvalid.
  unfold Post.update. rewrite Hvalid. simpl.
  unfold Post.findByPk at 1. rewrite (find_after_update now id v (posts db)).
  unfold Post.findByPk in Hfind. rewrite Hfind.
  rewrite (scoped_assign_rewritten now id v (posts db) post Hnd Hfind).
  destruct (stays_available now v); reflexivity.
Qed.

(** The owner's schedule for a date after now: the date is written, and the
    post read back under the default scope is no longer there. *)
Lemma schedulePost_owner (characters : string -> Z) (now id t userId : Z)
  (db : DB) (post : Post.t) :
  NoDup (map Post.id (posts db)) ->
  standing now id userId db = Owned post ->
  now < t ->
  PostService.schedulePost characters now id t userId db
  = (Resolved None, set_posts (rewritten id (reschedule t) (posts db)) db).
Proof.
  intros Hnd Hst Hlt.
  assert (Hfind := standing_owned_found _ _ _ _ _ Hst).
  rewrite schedulePost_cases, Hst.
  destruct (t <=? now) eqn:E; [apply Z.leb_le in E; lia|].
  unfold Post.update. simpl.
  unfold Post.findByPk at 1. rewrite (find_after_update now id (reschedule t) (posts db)).
  unfold stays_available. simpl. rewrite E.
  rewrite (scoped_assign_rewritten now id (reschedule t) (posts db) post Hnd Hfind).
  reflexivity.
Qed.

Lemma save_keeps_saved (this : PostLike.t) (tb : PostLike.table) (l : PostLike.t) :
  In l (PostLike.rows tb) ->
  PostLike.id l = PostLike.id this ->
  PostLike.user_id l = PostLike.user_id this ->
  PostLike.post_id l = PostLike.post_id this ->
  In this (PostLike.rows (PostLike.save this tb)).
Proof.
  intros Hin Hid Hu Hp. unfold PostLike.save; simpl.
  apply in_map_iff. exists l. split; [|exact Hin].
  unfold PostLike.save_row. rewrite Hid, Z.eqb_refl, Hu, Hp.
  destruct this; reflexivity.
Qed.

(** C4, as the code has it. Post update, delete and schedule first look the
    post up with [Post.findByPk]: when no post comes back they fail with
    "Post não encontrado", which the controllers answer with [NOT_FOUND];
    when the post that comes back belongs to another user they fail with
    "Acesso negado...", answered with [AUTHORIZATION_ERROR]; in both cases
    the store is untouched. For the owner, with [id] the primary key of
    [posts]: delete removes the post and its likes and is answered 200;
    update with values that pass the model's validators rewrites the row,
    and returns it with its owner and is answered 200 when the values leave
    the post available, while values that fail a validator are rejected
    with the ORM's validation error and nothing is written; schedule
    rejects a date that is not after now with "Data de disponibilidade deve
    ser no futuro", answered with [VALIDATION_ERROR], and otherwise writes
    the date. Like
    removal looks the row up by [(id, user_id)] in one query: it fails with
    the single error "Like não encontrado ou você não tem permissão para
    removê-lo", which [LikeController.removeLike] answers with [NOT_FOUND],
    when that lookup finds nothing; when it finds the caller's like it
    marks the row deleted and is answered 200. *)
Theorem mutations_existence_then_ownership (characters : string -> Z)
  (now id userId available_at likeId : Z) (updateData : Post.Values) (db : DB) :
  NoDup (map Post.id (posts db)) ->
  match standing now id userId db with
  | Missing =>
      PostService.updatePost characters now id updateData userId db
      = (Rejected post_not_found, db)
      /\ PostService.deletePost now id userId db = (Rejected post_not_found, db)
      /\ PostService.schedulePost characters now id available_at userId db
         = (Rejected post_not_found, db)
      /\ answered (fst (PostController.updatePost characters now id updateData userId db))
         = Some NOT_FOUND
      /\ answered (fst (PostController.deletePost now id userId db)) = Some NOT_FOUND
      /\ answered (fst (PostController.schedulePost characters now id available_at
                          userId db))
         = Some NOT_FOUND
  | Foreign =>
      PostService.updatePost characters now id updateData userId db
      = (Rejected (denied "editar"), db)
      /\ PostService.deletePost now id userId db = (Rejected (denied "remover"), db)
      /\ PostService.schedulePost characters now id available_at userId db
         = (Rejected (denied "agendar"), db)
      /\ answered (fst (PostController.updatePost characters now id updateData userId db))
         = Some AUTHORIZATION_ERROR
      /\ answered (fst (PostController.deletePost now id userId db))
         = Some AUTHORIZATION_ERROR
      /\ answered (fst (PostController.schedulePost characters now id available_at
                          userId db))
         = Some AUTHORIZATION_ERROR
  | Owned post =>
      PostService.deletePost now id userId db = (Resolved true, without_post id db)
      /\ fst (PostController.deletePost now id userId db) = success 200 tt
      /\ (if Post.validate characters updateData
          then
            let db' := set_posts (rewritten id updateData (posts db)) db in
            snd (PostService.updatePost characters now id updateData userId db) = db'
            /\ (stays_available now updateData = true ->
                fst (PostService.updatePost characters now id updateData userId db)
                = Resolved (Some (PostService.read_updated db'
                                    (Post.assign updateData post)))
                /\ fst (PostController.updatePost characters now id updateData userId db)
                   = success 200 (PostService.read_updated db'
                                    (Post.assign updateData post)))
          else
            PostService.updatePost characters now id updateData userId db
            = (Rejected (ValidationError (Post.failures characters updateData)), db))
      /\ (if available_at <=? now
          then
            PostService.schedulePost characters now id available_at userId db
            = (Rejected not_in_future, db)
            /\ answered (fst (PostController.schedulePost characters now id available_at
                                userId db))
               = Some VALIDATION_ERROR
          else
            snd (PostService.schedulePost characters now id available_at userId db)
            = set_posts (rewritten id (reschedule available_at) (posts db)) db)
  end
  /\ match PostLike.findOne
             {| PostLike.w_id := Some likeId; PostLike.w_user_id := Some userId;
                PostLike.w_post_id := None; PostLike.w_is_deleted := None |}
             (post_likes db) with
     | None =>
         LikeService.removeLike likeId userId db = (Rejected like_not_found_or_denied, db)
         /\ answered (fst (LikeController.removeLike likeId userId db)) = Some NOT_FOUND
     | Some like =>
         fst (LikeService.removeLike likeId userId db) = Resolved true
         /\ In (PostLike.update_is_deleted true like)
               (PostLike.rows (post_likes (snd (LikeService.removeLike likeId userId db))))
         /\ users (snd (LikeService.removeLike likeId userId db)) = users db
         /\ posts (snd (LikeService.removeLike likeId userId db)) = posts db
         /\ fst (LikeController.removeLike likeId userId db) = success 200 tt
     end.
Proof.
  intros Hnd. split.
  - destruct (standing now id userId db) as [| |post] eqn:Hst.
    + unfold PostController.updatePost, PostController.deletePost,
        PostController.schedulePost.
      rewrite updatePost_cases, deletePost_cases, schedulePost_cases, Hst.
      repeat split; reflexivity.
    + unfold PostController.updatePost, PostController.deletePost,
        PostController.schedulePost.
      rewrite updatePost_cases, deletePost_cases, schedulePost_cases, Hst.
      repeat split; reflexivity.
    + assert (Hfind := standing_owned_found _ _ _ _ _ Hst).
      assert (Hdel : PostService.deletePost now id userId db
                     = (Resolved true, without_post id db)).
      { rewrite deletePost_cases, Hst.
        rewrite (Post_destroy_without_post now id db post Hnd Hfind). reflexivity. }
      split; [exact Hdel|].
      split; [unfold PostController.deletePost; rewrite Hdel; reflexivity|].
      split.
      * destruct (Post.validate characters updateData) eqn:Hvalid.
        -- simpl.
           pose proof (updatePost_owner characters now id userId updateData db post
                         Hnd Hst Hvalid) as Hup. simpl in Hup.
           split; [rewrite Hup; reflexivity|].
           intros Hstays. unfold PostController.updatePost.
           rewrite Hup, Hstays. split; reflexivity.
        -- rewrite updatePost_cases, Hst, Hvalid. reflexivity.
      * destruct (available_at <=? now) eqn:E.
        -- assert (Hsch : PostService.schedulePost characters now id available_at userId db
                          = (Rejected not_in_future, db)).
           { rewrite schedulePost_cases, Hst, E. reflexivity. }
           split; [exact Hsch|].
           unfold PostController.schedulePost. rewrite Hsch. reflexivity.
        -- apply Z.leb_gt in E.
           rewrite (schedulePost_owner characters now id available_at userId db post
                      Hnd Hst E). reflexivity.
  - unfold LikeController.removeLike. rewrite removeLike_cases.
    destruct (PostLike.findOne _ (post_likes db)) as [like|] eqn:Hfind;
      [|split; reflexivity].
    split; [reflexivity|]. simpl.
    split; [|repeat split; reflexivity].
    unfold PostLike.findOne in Hfind. apply find_some in Hfind.
    destruct Hfind as [Hin _].
    apply (save_keeps_saved _ _ like Hin); reflexivity.
Qed.

(** C4 on the store [Samples.busy], for Ana and her post X: she removes
    it, and its two likes go with it; she retitles it, and the row is
    rewritten and returned; she asks for it to be scheduled a day ahead,
    and the date is written; she removes her like 2, which is marked
    deleted. *)
Lemma mutations_existence_then_ownership_witness :
  NoDup (map Post.id (posts Samples.busy))
  /\ standing Samples.noon 1 1 Samples.busy = Owned Samples.postX
  /\ PostService.deletePost Samples.noon 1 1 Samples.busy
     = (Resolved true, without_post 1 Samples.busy)
  /\ PostLike.rows (post_likes (without_post 1 Samples.busy))
     = [Samples.like 3 1 2 (Samples.noon - 4) true;
        Samples.like 4 1 3 (Samples.noon - 1) false]
  /\ map Post.title
       (posts (snd (PostService.updatePost Samples.characters Samples.noon 1 retitle 1
                      Samples.busy)))
     = ["Post X, revised"; "Post Z"; "Post W"; "Post S"]
  /\ map Post.available_at
       (posts (snd (PostService.schedulePost Samples.characters Samples.noon 1
                      (Samples.noon + Samples.day) 1 Samples.busy)))
     = map Post.available_at
         [Post.assign (reschedule (Samples.noon + Samples.day)) Samples.postX;
          Samples.postZ; Samples.postW; Samples.postS]
  /\ In (Samples.like 2 1 1 (Samples.noon - 2) true)
        (PostLike.rows (post_likes (snd (LikeService.removeLike 2 1 Samples.busy)))).
Proof.
  assert (Hnd : NoDup (map Post.id (posts Samples.busy))).
  { simpl. repeat constructor; simpl; intuition discriminate. }
  pose proof (mutations_existence_then_ownership Samples.characters Samples.noon 1 1
                (Samples.noon + Samples.day) 2 retitle Samples.busy Hnd)
    as [Hpost Hlike].
  change (standing Samples.noon 1 1 Samples.busy) with (Owned Samples.postX) in Hpost.
  change (Post.validate Samples.characters retitle) with true in Hpost.
  change (Samples.noon + Samples.day <=? Samples.noon) with false in Hpost.
  cbv beta iota zeta in Hpost.
  destruct Hpost as [Hdel [_ [[Hup _] Hsch]]].
  split; [exact Hnd|].
  split; [reflexivity|].
  split; [exact Hdel|].
  split; [reflexivity|].
  split; [rewrite Hup; reflexivity|].
  split; [rewrite Hsch; reflexivity|].
  exact (proj1 (proj2 Hlike)).
Defined.

(** Against C4 as stated: Bia's like 1 exists, and Ana's attempt to remove
    it is rejected exactly as her attempt to remove a like that does not
    exist, and is answered [NOT_FOUND], not [AUTHORIZATION_ERROR]. *)
Lemma removeLike_by_another_user_is_not_found :
  In {| PostLike.id := 1; PostLike.user_id := 2; PostLike.post_id := 1;
        PostLike.liked_at := Samples.noon - 1; PostLike.is_deleted := false |}
     (PostLike.rows (post_likes Samples.liked_once))
  /\ LikeService.removeLike 1 1 Samples.liked_once
     = LikeService.removeLike 99 1 Samples.liked_once
  /\ fst (LikeController.removeLike 1 1 Samples.liked_once)
     = error 404 NOT_FOUND "Like não encontrado ou você não tem permissão para removê-lo"
  /\ answered (fst (LikeController.removeLike 1 1 Samples.liked_once))
     <> Some AUTHORIZATION_ERROR.
Proof.
  split; [left; reflexivity|].
  split; [reflexivity|].
  split; [vm_compute; reflexivity|].
  vm_compute. discriminate.
Qed.

(** ** Scheduling bounds *)

(** Both bounds are enforced. For a post that [Post.findByPk] returns and
    the caller owns, the service rejects [t <= now] with "Data de
    disponibilidade deve ser no futuro" and leaves the store alone; the
    route [PUT /posts/:id/schedule] answers [VALIDATION_ERROR] without
    writing both for [t <= now] and for [t] later than one year after now,
    the upper bound being the route schema's. *)
Lemma schedulePost_bounds (characters : string -> Z) (plusOneYear : Z -> Z)
  (loaded now id t userId : Z) (db : DB) (post : Post.t) :
  loaded <= now ->
  0 < id ->
  standing now id userId db = Owned post ->
  (t <= now ->
     PostService.schedulePost characters now id t userId db
     = (Rejected not_in_future, db))
  /\ (t <= now \/ plusOneYear now < t ->
        answered (fst (PostRoutes.put_schedule characters plusOneYear loaded now id t
                         userId db))
        = Some VALIDATION_ERROR
        /\ snd (PostRoutes.put_schedule characters plusOneYear loaded now id t userId db)
           = db).
Proof.
  intros Hloaded Hid Hst.
  assert (Hpast : t <= now ->
            PostService.schedulePost characters now id t userId db
            = (Rejected not_in_future, db)).
  { intros Hle. rewrite schedulePost_cases, Hst.
    rewrite (proj2 (Z.leb_le _ _) Hle). reflexivity. }
  split; [exact Hpast|].
  intros Hbad.
  unfold PostRoutes.put_schedule, PostRoutes.postIdParamSchema.
  rewrite (proj2 (Z.ltb_lt _ _) Hid). simpl.
  destruct (PostRoutes.schedulePostSchema plusOneYear loaded now t) eqn:Hschema; simpl;
    [|split; reflexivity].
  unfold PostRoutes.schedulePostSchema in Hschema.
  apply andb_true_iff in Hschema. destruct Hschema as [_ Hyear].
  apply Z.leb_le in Hyear.
  destruct Hbad as [Hle|Hfar]; [|lia].
  unfold PostController.schedulePost. rewrite (Hpast Hle).
  split; reflexivity.
Qed.

(** Within the bounds the call does not succeed. For a post that
    [Post.findByPk] returns and the caller owns, and a date after now and
    no later than a year ahead, the service writes the date and resolves
    with [null], the post it reads back being hidden by the default scope;
    the controller then reads [toJSON] off [null], and the route answers
    500 [INTERNAL_ERROR] with the date written. *)
Lemma schedulePost_within_bounds (characters : string -> Z) (plusOneYear : Z -> Z)
  (loaded now id t userId : Z) (db : DB) (post : Post.t) :
  NoDup (map Post.id (posts db)) ->
  loaded <= now ->
  0 < id ->
  standing now id userId db = Owned post ->
  now < t <= plusOneYear now ->
  let db' := set_posts (rewritten id (reschedule t) (posts db)) db in
  PostService.schedulePost characters now id t userId db = (Resolved None, db')
  /\ In (Post.assign (reschedule t) post) (posts db')
  /\ PostRoutes.put_schedule characters plusOneYear loaded now id t userId db
     = (error 500 INTERNAL_ERROR "Erro interno do servidor", db').
Proof.
  intros Hnd Hloaded Hid Hst [Hlt Hyear]. simpl.
  assert (Hrun := schedulePost_owner characters now id t userId db post Hnd Hst Hlt).
  split; [exact Hrun|]. split.
  - apply standing_owned_found in Hst. apply findByPk_found in Hst.
    destruct Hst as [Hin [Hpk _]]. simpl. unfold rewritten.
    apply in_map_iff. exists post. split; [|exact Hin].
    rewrite Hpk, Z.eqb_refl. reflexivity.
  - unfold PostRoutes.put_schedule, PostRoutes.postIdParamSchema,
      PostRoutes.schedulePostSchema.
    rewrite (proj2 (Z.ltb_lt _ _) Hid). simpl.
    rewrite (proj2 (Z.leb_le loaded t)) by lia.
    rewrite (proj2 (Z.leb_le t (plusOneYear now))) by lia. simpl.
    unfold PostController.schedulePost. rewrite Hrun. reflexivity.
Qed.

(** C6. Ana owns post X, listed since yesterday, and asks at [noon] for
    it to be scheduled one day ahead, a date within both bounds. The
    service writes the date and resolves with [null] instead of the updated
    post, and the route [PUT /posts/:id/schedule] answers 500
    [INTERNAL_ERROR]: the call that the claim says succeeds does not. *)
Theorem schedulePost_within_bounds_answers_500 :
  standing Samples.noon 1 1 Samples.fresh = Owned Samples.postX
  /\ Samples.noon < Samples.noon + Samples.day <= Samples.noon + 365 * Samples.day
  /\ PostService.schedulePost Samples.characters Samples.noon 1
       (Samples.noon + Samples.day) 1 Samples.fresh
     = (Resolved None,
        set_posts [Post.assign (reschedule (Samples.noon + Samples.day)) Samples.postX]
          Samples.fresh)
  /\ PostRoutes.put_schedule Samples.characters (fun d => d + 365 * Samples.day)
       (Samples.noon - 10) Samples.noon 1 (Samples.noon + Samples.day) 1 Samples.fresh
     = (error 500 INTERNAL_ERROR "Erro interno do servidor",
        set_posts [Post.assign (reschedule (Samples.noon + Samples.day)) Samples.postX]
          Samples.fresh).
Proof.
  split; [reflexivity|].
  split; [vm_compute; split; [reflexivity|discriminate]|].
  split; vm_compute; reflexivity.
Qed.

(** ** Listings *)

(** The sort of a listing keeps the rows and puts later dates first,
    whatever the store does with ties. *)
Lemma insert_desc_perm (tie : Post.t -> Z) (p : Post.t) (l : list Post.t) :
  Permutation (Post.insert_desc tie p l) (p :: l).
Proof.
  induction l as [|q l IH]; simpl; [apply Permutation_refl|].
  destruct (Post.before tie p q); [apply Permutation_refl|].
  apply Permutation_trans with (q :: p :: l).
  - apply perm_skip. exact IH.
  - apply perm_swap.
Qed.

Lemma order_by_perm (tie : Post.t -> Z) (l : list Post.t) :
  Permutation (Post.order_by_available_at_desc tie l) l.
Proof.
  induction l as [|p l IH]; simpl; [apply Permutation_refl|].
  apply Permutation_trans with (p :: Post.order_by_available_at_desc tie l).
  - apply insert_desc_perm.
  - apply perm_skip. exact IH.
Qed.

Lemma before_later_first (tie : Post.t -> Z) (p q : Post.t) :
  (Post.before tie p q = true -> later_first p q)
  /\ (Post.before tie p q = false -> later_first q p).
Proof.
  unfold Post.before, later_first. split; intros H.
  - apply orb_true_iff in H. destruct H as [H|H].
    + apply Z.ltb_lt in H. lia.
    + apply andb_true_iff in H. destruct H as [H _]. apply Z.eqb_eq in H. lia.
  - apply orb_false_iff in H. destruct H as [H _]. apply Z.ltb_ge in H. exact H.
Qed.

Lemma insert_desc_sorted (tie : Post.t -> Z) (p : Post.t) (l : list Post.t) :
  StronglySorted later_first l -> StronglySorted later_first (Post.insert_desc tie p l).
Proof.
  induction l as [|q l IH]; intros Hs; simpl.
  - constructor; constructor.
  - inversion Hs as [|x xs Hrest Hall]; subst.
    destruct (Post.before tie p q) eqn:E.
    + apply before_later_first in E. constructor; [exact Hs|].
      constructor; [exact E|].
      eapply Forall_impl; [|exact Hall].
      intros r Hr. unfold later_first in *. lia.
    + apply before_later_first in E. constructor; [apply IH; exact Hrest|].
      apply (Permutation_Forall (Permutation_sym (insert_desc_perm tie p l))).
      constructor; [exact E|exact Hall].
Qed.

Lemma order_by_sorted (tie : Post.t -> Z) (l : list Post.t) :
  StronglySorted later_first (Post.order_by_available_at_desc tie l).
Proof.
  induction l as [|p l IH]; simpl; [constructor|].
  apply insert_desc_sorted. exact IH.
Qed.

(** When no two rows share a date, the order of a listing is fixed: there
    is one way to put the rows latest first. *)
Lemma sorted_perm_unique (l1 l2 : list Post.t) :
  NoDup (map Post.available_at l1) ->
  StronglySorted later_first l1 ->
  StronglySorted later_first l2 ->
  Permutation l1 l2 ->
  l1 = l2.
Proof.
  revert l2. induction l1 as [|a l1 IH]; intros l2 Hnd Hs1 Hs2 Hp.
  - apply Permutation_nil in Hp. symmetry. exact Hp.
  - destruct l2 as [|b l2].
    + apply Permutation_sym, Permutation_nil in Hp. discriminate.
    + simpl in Hnd. inversion Hnd as [|k ks Hnotin Hrest]; subst.
      inversion Hs1 as [|x xs Hs1' Hall1]; subst.
      inversion Hs2 as [|y ys Hs2' Hall2]; subst.
      assert (Hab : a = b).
      { assert (Ha : In a (b :: l2)) by (apply (Permutation_in _ Hp); left; reflexivity).
        assert (Hb : In b (a :: l1))
          by (apply (Permutation_in _ (Permutation_sym Hp)); left; reflexivity).
        destruct Ha as [Ha|Ha]; [symmetry; exact Ha|].
        destruct Hb as [Hb|Hb]; [exact Hb|].
        exfalso. apply Hnotin.
        assert (H1 : later_first b a) by exact (proj1 (Forall_forall _ _) Hall2 a Ha).
        assert (H2 : later_first a b) by exact (proj1 (Forall_forall _ _) Hall1 b Hb).
        unfold later_first in *.
        replace (Post.available_at a) with (Post.available_at b) by lia.
        apply in_map. exact Hb. }
      subst b. f_equal.
      apply IH; try assumption.
      exact (Permutation_cons_inv Hp).
Qed.

Lemma order_by_any_tie (tie tie' : Post.t -> Z) (l : list Post.t) :
  NoDup (map Post.available_at l) ->
  Post.order_by_available_at_desc tie l = Post.order_by_available_at_desc tie' l.
Proof.
  intros Hnd. apply sorted_perm_unique.
  - apply (Permutation_NoDup (l := map Post.available_at l)); [|exact Hnd].
    apply Permutation_map, Permutation_sym, order_by_perm.
  - apply order_by_sorted.
  - apply order_by_sorted.
  - apply Permutation_trans with l; [apply order_by_perm|].
    apply Permutation_sym, order_by_perm.
Qed.

Lemma sorted_skipn {A : Type} (R : A -> A -> Prop) (n : nat) (l : list A) :
  StronglySorted R l -> StronglySorted R (skipn n l).
Proof.
  revert l. induction n as [|n IH]; intros l Hs; simpl; [exact Hs|].
  destruct l as [|a l]; [constructor|].
  inversion Hs; subst. apply IH. assumption.
Qed.

Lemma in_firstn {A : Type} (n : nat) (l : list A) (x : A) :
  In x (firstn n l) -> In x l.
Proof.
  revert l. induction n as [|n IH]; intros l H; simpl in H; [contradiction|].
  destruct l as [|a l]; [exact H|].
  destruct H as [H|H]; [left; exact H|right; apply IH; exact H].
Qed.

Lemma in_skipn {A : Type} (n : nat) (l : list A) (x : A) :
  In x (skipn n l) -> In x l.
Proof.
  revert l. induction n as [|n IH]; intros l H; simpl in H; [exact H|].
  destruct l as [|a l]; [exact H|]. right. apply IH. exact H.
Qed.

Lemma sorted_firstn {A : Type} (R : A -> A -> Prop) (n : nat) (l : list A) :
  StronglySorted R l -> StronglySorted R (firstn n l).
Proof.
  revert l. induction n as [|n IH]; intros l Hs; simpl; [constructor|].
  destruct l as [|a l]; [constructor|].
  inversion Hs as [|x xs Hrest Hall]; subst.
  constructor; [apply IH; exact Hrest|].
  apply Forall_forall. intros b Hb.
  apply (proj1 (Forall_forall _ _) Hall).
  exact (in_firstn n l b Hb).
Qed.

Lemma sorted_map {A B : Type} (R : A -> A -> Prop) (S : B -> B -> Prop)
  (f : A -> B) (l : list A) :
  (forall x y, R x y -> S (f x) (f y)) ->
  StronglySorted R l -> StronglySorted S (map f l).
Proof.
  intros HRS Hs. induction Hs as [|a l Hrest IH Hall]; simpl; constructor.
  - exact IH.
  - apply Forall_forall. intros b Hb.
    apply in_map_iff in Hb. destruct Hb as [x [<- Hx]].
    apply HRS. exact (proj1 (Forall_forall _ _) Hall x Hx).
Qed.

(** A page holds rows of the table that satisfy the scoped [where]. *)
Lemma page_in_found {A : Type} (lim off : nat) (l : list A) (x : A) :
  In x (firstn lim (skipn off l)) -> In x l.
Proof.
  intros H. apply (in_skipn off). apply (in_firstn lim). exact H.
Qed.

(** *** Counting posts over the join with their likes *)

Lemma map_const_repeat {A B : Type} (c : B) (l : list A) :
  map (fun _ => c) l = repeat c (List.length l).
Proof. induction l as [|a l IH]; simpl; [reflexivity|]. rewrite IH. reflexivity. Qed.

Lemma joined_rows_ids (p : Post.t) (likes : list PostLike.t) :
  exists k, map post_id_of (joined_rows p likes) = repeat (Post.id p) (S k).
Proof.
  unfold joined_rows.
  destruct (PostService.joined_likes p likes) as [|l ls].
  - exists 0%nat. reflexivity.
  - exists (List.length ls). rewrite map_map. unfold post_id_of. simpl.
    rewrite map_const_repeat. reflexivity.
Qed.

Lemma nodup_cons_in (a : Z) (l : list Z) :
  In a l -> nodup Z.eq_dec (a :: l) = nodup Z.eq_dec l.
Proof.
  intros Hin. simpl. destruct (in_dec Z.eq_dec a l); [reflexivity|contradiction].
Qed.

Lemma nodup_repeat_app (a : Z) (k : nat) (l : list Z) :
  ~ In a l ->
  nodup Z.eq_dec (repeat a (S k) ++ l) = a :: nodup Z.eq_dec l.
Proof.
  intros Hnot. induction k as [|k IH].
  - simpl. destruct (in_dec Z.eq_dec a l); [contradiction|reflexivity].
  - change (repeat a (S (S k)) ++ l) with (a :: (repeat a (S k) ++ l)).
    rewrite nodup_cons_in; [exact IH|].
    simpl. left. reflexivity.
Qed.

Lemma left_join_cons (p : Post.t) (ps : list Post.t) (likes : list PostLike.t) :
  PostService.left_join (p :: ps) likes
  = joined_rows p likes ++ PostService.left_join ps likes.
Proof. reflexivity. Qed.

Lemma left_join_ids (ps : list Post.t) (likes : list PostLike.t) (x : Z) :
  In x (map post_id_of (PostService.left_join ps likes)) -> In x (map Post.id ps).
Proof.
  induction ps as [|p ps IH]; [simpl; tauto|].
  rewrite left_join_cons, map_app. intros H. simpl. apply in_app_or in H. destruct H as [H|H].
  - left. destruct (joined_rows_ids p likes) as [k Hk]. rewrite Hk in H.
    symmetry. exact (repeat_spec _ _ _ H).
  - right. apply IH. exact H.
Qed.

(** With [distinct: true] a post is counted once, however many likes are
    joined to it. *)
Lemma count_distinct_left_join (ps : list Post.t) (likes : list PostLike.t) :
  NoDup (map Post.id ps) ->
  PostService.count_distinct (PostService.left_join ps likes) = List.length ps.
Proof.
  unfold PostService.count_distinct.
  change (fun row : Post.t * option PostLike.t => Post.id (fst row)) with post_id_of.
  induction ps as [|p ps IH]; intros Hnd; [reflexivity|].
  rewrite left_join_cons.
  simpl in Hnd. inversion Hnd as [|x xs Hnotin Hrest]; subst.
  rewrite map_app.
  destruct (joined_rows_ids p likes) as [k Hk]. rewrite Hk.
  rewrite nodup_repeat_app.
  - simpl. rewrite (IH Hrest). reflexivity.
  - intros Hin. apply Hnotin. exact (left_join_ids ps likes _ Hin).
Qed.

Lemma NoDup_map_filter {A B : Type} (f : A -> B) (g : A -> bool) (l : list A) :
  NoDup (map f l) -> NoDup (map f (filter g l)).
Proof.
  induction l as [|a l IH]; intros Hnd; simpl; [constructor|].
  inversion Hnd as [|x xs Hnotin Hrest]; subst.
  destruct (g a); simpl; [|apply IH; exact Hrest].
  constructor; [|apply IH; exact Hrest].
  intros Hin. apply Hnotin.
  apply in_map_iff in Hin. destruct Hin as [y [Hy Hyin]].
  apply filter_In in Hyin. apply in_map_iff. exists y. tauto.
Qed.

(** *** What a returned post carries *)

Lemma read_attached (db : DB) (p : Post.t) (flags : option bool) :
  owners_exist db -> In p (posts db) ->
  attached db (view flags (PostService.read true db p)).
Proof.
  intros Hfk Hin. unfold attached; simpl. split; [exact Hin|]. split.
  - unfold PostService.joined_user.
    destruct (User.findByPk (Post.user_id p) (users db)) as [u|] eqn:Hu.
    + unfold User.findByPk in Hu. apply find_some in Hu. destruct Hu as [Huin Hid].
      apply Z.eqb_eq in Hid. exists u. rewrite Hid. repeat split; assumption.
    + exfalso. exact (Hfk p Hin Hu).
  - rewrite length_map. reflexivity.
Qed.

Lemma read_counted (db : DB) (p : Post.t) (flags : option bool) :
  In p (posts db) ->
  counted_without_owner db (view flags (PostService.read false db p)).
Proof.
  intros Hin. unfold counted_without_owner; simpl.
  split; [exact Hin|]. split; [reflexivity|].
  rewrite length_map. reflexivity.
Qed.

(** C7, as the code has it. [listPosts] and [getPostById] attach to every
    post they return the owner's [{ id, name }] and [total_likes], the
    number of that post's like rows with [is_deleted = false];
    [getUserPosts] attaches the same [total_likes] and no owner, and
    returns posts of that user only; the [total] of either listing counts
    each matching post once, whatever the number of likes joined to it; a
    listing is ordered by [available_at] descending, whatever order the
    store gives to posts of equal date (the query names no second key). *)
Theorem listing_attaches_owner_and_active_likes
  (iLike : string -> string -> bool) (tie : Post.t -> Z) (now userId : Z)
  (filters : PostService.Filters) (pagination : PostService.Pagination) (db : DB) :
  NoDup (map Post.id (posts db)) ->
  owners_exist db ->
  (exists listing,
     PostService.listPosts iLike tie now filters pagination db = (Resolved listing, db)
     /\ PostService.l_total listing
        = List.length
            (Post.findAll iLike now
               (PostService.whereClause now
                  (PostService.default false (PostService.include_scheduled filters))
                  (truthy_number (PostService.user_id filters))
                  (PostService.search filters))
               (posts db))
     /\ Forall (attached db) (PostService.l_posts listing)
     /\ StronglySorted newest_first (PostService.l_posts listing))
  /\ (exists listing,
        PostService.getUserPosts iLike tie now userId filters pagination db
        = (Resolved listing, db)
        /\ PostService.l_total listing
           = List.length
               (Post.findAll iLike now
                  (PostService.whereClause now
                     (PostService.default false (PostService.include_scheduled filters))
                     (Some userId) (PostService.search filters))
                  (posts db))
        /\ Forall (fun v => counted_without_owner db v
                            /\ Post.user_id (PostService.post (PostService.data v)) = userId)
                  (PostService.l_posts listing)
        /\ StronglySorted newest_first (PostService.l_posts listing))
  /\ (forall id,
        match fst (PostService.getPostById now id db) with
        | Resolved v =>
            attached db v /\ Post.id (PostService.post (PostService.data v)) = id
        | Rejected e => e = post_not_found
        end).
Proof.
  intros Hnd Hfk. split; [|split].
  - unfold PostService.listPosts, bind, query, ret, PostService.findAndCountAll.
    eexists. split; [reflexivity|]. simpl.
    set (w := PostService.whereClause now _ _ _).
    split; [|split].
    + apply count_distinct_left_join. unfold Post.findAll.
      apply NoDup_map_filter. exact Hnd.
    + apply Forall_forall. intros v Hv.
      apply in_map_iff in Hv. destruct Hv as [d [<- Hd]].
      apply in_map_iff in Hd. destruct Hd as [p [<- Hp]].
      apply (read_attached db p (Some false) Hfk).
      apply page_in_found in Hp.
      apply (Permutation_in _ (order_by_perm tie _)) in Hp.
      unfold Post.findAll in Hp. apply filter_In in Hp. tauto.
    + rewrite map_map.
      apply (sorted_map later_first newest_first); [intros x y H; exact H|].
      apply sorted_firstn, sorted_skipn, order_by_sorted.
  - unfold PostService.getUserPosts, bind, query, ret, PostService.findAndCountAll.
    eexists. split; [reflexivity|]. simpl.
    set (w := PostService.whereClause now _ _ _).
    split; [|split].
    + apply count_distinct_left_join. unfold Post.findAll.
      apply NoDup_map_filter. exact Hnd.
    + apply Forall_forall. intros v Hv.
      apply in_map_iff in Hv. destruct Hv as [d [<- Hd]].
      apply in_map_iff in Hd. destruct Hd as [p [<- Hp]].
      apply page_in_found in Hp.
      apply (Permutation_in _ (order_by_perm tie _)) in Hp.
      unfold Post.findAll in Hp. apply filter_In in Hp. destruct Hp as [Hin Hm].
      split; [exact (read_counted db p None Hin)|]. simpl.
      unfold Post.matches, Post.matches_keys, Post.injectScope, holds, assign_key in Hm.
      simpl in Hm.
      apply andb_true_iff in Hm. destruct Hm as [Hm _].
      apply andb_true_iff in Hm. destruct Hm as [Hu _].
      apply Z.eqb_eq. exact Hu.
    + rewrite map_map.
      apply (sorted_map later_first newest_first); [intros x y H; exact H|].
      apply sorted_firstn, sorted_skipn, order_by_sorted.
  - intros id. unfold PostService.getPostById, bind, query, throw, ret.
    destruct (Post.findByPk now id (posts db)) as [p|] eqn:Hp; simpl; [|reflexivity].
    apply findByPk_found in Hp. destruct Hp as [Hin [Hid _]].
    split; [|exact Hid].
    exact (read_attached db p None Hfk Hin).
Qed.

(** C7 on the store [Samples.busy], where the store yields the higher id
    first among posts of equal date: the listing holds the three available
    posts, Z before X before W, with 0, 2 and 1 likes and a [total] of 3,
    although the join of the posts with their likes has four rows; Ana's
    own listing holds post X with its 2 likes and no owner. *)
Lemma listing_attaches_owner_and_active_likes_witness :
  NoDup (map Post.id (posts Samples.busy))
  /\ owners_exist Samples.busy
  /\ (exists listing,
        PostService.listPosts (fun _ _ => false) Samples.higher_id_first Samples.noon
          Samples.no_filters Samples.first_page Samples.busy
        = (Resolved listing, Samples.busy)
        /\ Forall (attached Samples.busy) (PostService.l_posts listing)
        /\ map (fun v => (Post.id (PostService.post (PostService.data v)),
                          PostService.total_likes v)) (PostService.l_posts listing)
           = [(2, 0%nat); (1, 2%nat); (3, 1%nat)]
        /\ PostService.l_total listing = 3%nat)
  /\ (exists listing,
        PostService.getUserPosts (fun _ _ => false) Samples.higher_id_first Samples.noon 1
          Samples.no_filters Samples.first_page Samples.busy
        = (Resolved listing, Samples.busy)
        /\ map (fun v => (Post.id (PostService.post (PostService.data v)),
                          PostService.d_User (PostService.data v),
                          PostService.total_likes v)) (PostService.l_posts listing)
           = [(1, None, 2%nat)])
  /\ List.length (PostService.left_join [Samples.postX; Samples.postZ; Samples.postW]
                    (PostLike.rows (post_likes Samples.busy))) = 4%nat.
Proof.
  assert (Hnd : NoDup (map Post.id (posts Samples.busy))).
  { simpl. repeat constructor; simpl; intuition discriminate. }
  assert (Hfk : owners_exist Samples.busy).
  { intros p [<-|[<-|[<-|[<-|[]]]]]; vm_compute; discriminate. }
  split; [exact Hnd|]. split; [exact Hfk|].
  destruct (listing_attaches_owner_and_active_likes (fun _ _ => false)
              Samples.higher_id_first Samples.noon 1 Samples.no_filters
              Samples.first_page Samples.busy Hnd Hfk)
    as [[listing [Hrun [_ [Hatt _]]]] [[mine [Hmine _]] _]].
  split; [|split].
  - exists listing. split; [exact Hrun|]. split; [exact Hatt|].
    vm_compute in Hrun. injection Hrun as <-. split; reflexivity.
  - exists mine. split; [exact Hmine|].
    vm_compute in Hmine. injection Hmine as <-. reflexivity.
  - reflexivity.
Defined.

(** Against C7 as stated: [getUserPosts], a listing, returns post X with
    its two likes counted and no owner attached; and with posts X (id 1)
    and Z (id 2) dated alike, [listPosts] returns Z before X when the store
    yields them so, not by ascending id. *)
Lemma listing_without_owner_or_id_tiebreak :
  fst (PostService.getUserPosts (fun _ _ => false) Samples.scan_order Samples.noon 1
         Samples.no_filters Samples.first_page Samples.busy)
  = Resolved
      {| PostService.l_posts :=
           [{| PostService.data :=
                 {| PostService.post := Samples.postX;
                    PostService.d_User := None;
                    PostService.d_PostLikes := [1; 2] |};
               PostService.total_likes := 2;
               PostService.allowEdit := None;
               PostService.allowRemove := None |}];
         PostService.l_total := 1;
         PostService.l_limit := 10;
         PostService.l_offset := 0 |}
  /\ Post.available_at Samples.postZ = Post.available_at Samples.postX
  /\ match fst (PostService.listPosts (fun _ _ => false) Samples.higher_id_first
                  Samples.noon Samples.no_filters Samples.first_page Samples.busy) with
     | Resolved listing =>
         map (fun v => Post.id (PostService.post (PostService.data v)))
             (PostService.l_posts listing) = [2; 1; 3]
     | Rejected _ => False
     end
  /\ match fst (PostService.listPosts (fun _ _ => false) Samples.scan_order
                  Samples.noon Samples.no_filters Samples.first_page Samples.tied) with
     | Resolved listing =>
         map (fun v => Post.id (PostService.post (PostService.data v)))
             (PostService.l_posts listing) = [2; 1]
     | Rejected _ => False
     end.
Proof. repeat split; vm_compute; reflexivity. Qed.

(** *** Scheduled posts *)

(** Whatever the filters say, a listed post is available now: without an
    [available_at] key of its own, the [where] inherits the one of the
    default scope. *)
Lemma findAll_available (iLike : string -> string -> bool) (now : Z)
  (scheduled : bool) (uid : option Z) (text : option string)
  (table : list Post.t) (p : Post.t) :
  In p (Post.findAll iLike now (PostService.whereClause now scheduled uid text) table) ->
  Post.isAvailable now p = true.
Proof.
  unfold Post.findAll. intros H. apply filter_In in H. destruct H as [_ Hm].
  unfold Post.matches, Post.matches_keys in Hm.
  apply andb_true_iff in Hm. destruct Hm as [Hm _].
  apply andb_true_iff in Hm. destruct Hm as [_ Hav].
  unfold Post.isAvailable.
  destruct scheduled; exact Hav.
Qed.

Lemma listPosts_only_available (iLike : string -> string -> bool) (tie : Post.t -> Z)
  (now : Z) (filters : PostService.Filters) (pagination : PostService.Pagination)
  (db : DB) (listing : PostService.Listing) (v : PostService.PostView) :
  fst (PostService.listPosts iLike tie now filters pagination db) = Resolved listing ->
  In v (PostService.l_posts listing) ->
  Post.isAvailable now (PostService.post (PostService.data v)) = true.
Proof.
  unfold PostService.listPosts, bind, query, ret, PostService.findAndCountAll. simpl.
  intros H. injection H as <-. simpl. intros Hv.
  apply in_map_iff in Hv. destruct Hv as [d [<- Hd]].
  apply in_map_iff in Hd. destruct Hd as [p [<- Hp]]. simpl.
  apply page_in_found in Hp.
  apply (Permutation_in _ (order_by_perm tie _)) in Hp.
  exact (findAll_available _ _ _ _ _ _ _ Hp).
Qed.

(** The default listing filters on [available_at <= now] in its [where]. *)
Lemma default_listing_where (now : Z) (uid : option Z) (text : option string)
  (p : Post.t) :
  Post.matches_keys
    (Post.injectScope now (PostService.whereClause now false uid text)) p = true ->
  Post.isAvailable now p = true.
Proof.
  unfold Post.matches_keys. intros Hm.
  apply andb_true_iff in Hm. destruct Hm as [_ Hav]. exact Hav.
Qed.

(** C5. With post Y scheduled two days ahead, a listing that asks for
    [include_scheduled = true] still returns post X alone and a [total] of
    1: the scheduled post is left out of the items and of the count, as it
    is when [include_scheduled] is unset. *)
Theorem listPosts_include_scheduled_leaves_it_out (iLike : string -> string -> bool)
  (tie : Post.t -> Z) :
  fst (PostService.listPosts iLike tie Samples.noon Samples.ask_scheduled
         Samples.first_page Samples.with_scheduled)
  = Resolved
      {| PostService.l_posts :=
           [{| PostService.data :=
                 {| PostService.post := Samples.postX;
                    PostService.d_User :=
                      Some {| PostService.owner_id := 1; PostService.owner_name := "Ana" |};
                    PostService.d_PostLikes := [] |};
               PostService.total_likes := 0;
               PostService.allowEdit := Some false;
               PostService.allowRemove := Some false |}];
         PostService.l_total := 1;
         PostService.l_limit := 5;
         PostService.l_offset := 0 |}
  /\ fst (PostService.listPosts iLike tie Samples.noon Samples.ask_scheduled
            Samples.first_page Samples.with_scheduled)
     = fst (PostService.listPosts iLike tie Samples.noon Samples.no_filters
              Samples.first_page Samples.with_scheduled)
  /\ Post.available_at Samples.postY = Samples.noon + 2 * Samples.day.
Proof. repeat split; vm_compute; reflexivity. Qed.

(** ** UserService *)

(** C9. A failed [authenticateUser] rejects with the same [Error] and the
    same message "Credenciais inválidas" when no user has the email and
    when the user exists but the password does not match: the two failures
    cannot be told apart, and neither touches the store. *)
Theorem authenticateUser_failures_alike
  (bcrypt_compare : string -> string -> bool)
  (jwt_sign : AuthUtils.Payload -> option string)
  (now now' : Z) (db db' : DB) (email email' password password' : string)
  (known : User.t) :
  User.findOne_by_email email (users db) = None ->
  User.findOne_by_email email' (users db') = Some known ->
  bcrypt_compare password' (User.password_hash known) = false ->
  UserService.authenticateUser bcrypt_compare jwt_sign now email password db
  = (Rejected invalid_credentials, db)
  /\ UserService.authenticateUser bcrypt_compare jwt_sign now' email' password' db'
     = (Rejected invalid_credentials, db')
  /\ fst (UserService.authenticateUser bcrypt_compare jwt_sign now email password db)
     = fst (UserService.authenticateUser bcrypt_compare jwt_sign now' email' password' db').
Proof.
  intros Hnone Hsome Hwrong.
  assert (H1 : UserService.authenticateUser bcrypt_compare jwt_sign now email password db
               = (Rejected invalid_credentials, db)).
  { unfold UserService.authenticateUser, bind, query, throw. rewrite Hnone. reflexivity. }
  assert (H2 : UserService.authenticateUser bcrypt_compare jwt_sign now' email' password' db'
               = (Rejected invalid_credentials, db')).
  { unfold UserService.authenticateUser, bind, query, throw, UserService.checkPassword.
    rewrite Hsome, Hwrong. reflexivity. }
  split; [exact H1|]. split; [exact H2|].
  rewrite H1, H2. reflexivity.
Qed.

Lemma authenticateUser_failures_alike_witness :
  UserService.authenticateUser Fakes.compare Fakes.sign Samples.noon
    "zoe@example.org" "ana" Samples.fresh
  = (Rejected invalid_credentials, Samples.fresh)
  /\ UserService.authenticateUser Fakes.compare Fakes.sign Samples.noon
       "ana@example.org" "not-ana" Samples.fresh
     = (Rejected invalid_credentials, Samples.fresh).
Proof.
  destruct (authenticateUser_failures_alike Fakes.compare Fakes.sign
              Samples.noon Samples.noon Samples.fresh Samples.fresh
              "zoe@example.org" "ana@example.org" "ana" "not-ana" Samples.ana)
    as [H1 [H2 _]].
  - reflexivity.
  - reflexivity.
  - reflexivity.
  - split; [exact H1|exact H2].
Defined.

(** A correct current password that is also a strong new one is refused
    for being the same, by the last check before the write. *)
Lemma changePassword_same_strong_password
  (bcrypt_compare : string -> string -> bool) (written_hash : string -> string -> string)
  (characters : string -> Z)
  (id : Z) (password : string) (db : DB) (byId user : User.t) :
  User.findByPk id (users db) = Some byId ->
  User.findOne_by_email (User.email byId) (users db) = Some user ->
  bcrypt_compare password (User.password_hash user) = true ->
  AuthUtils.isValid (AuthUtils.validatePasswordStrength password) = true ->
  UserService.changePassword bcrypt_compare written_hash characters id password password db
  = (Rejected same_password, db).
Proof.
  intros Hid Hmail Hok Hstrong.
  unfold UserService.changePassword, bind, query, throw, UserService.checkPassword.
  rewrite Hid, Hmail, Hok, Hstrong. simpl.
  rewrite String.eqb_refl. reflexivity.
Qed.

(** C10. [changePassword] never resolves when the new password equals the
    current one, correct and strong or not; and whenever it rejects, the
    store, stored password hashes included, is as it was. *)
Theorem changePassword_rejections_keep_hash
  (bcrypt_compare : string -> string -> bool) (written_hash : string -> string -> string)
  (characters : string -> Z)
  (id : Z) (currentPassword newPassword : string) (db : DB) :
  match UserService.changePassword bcrypt_compare written_hash characters
          id currentPassword newPassword db with
  | (Rejected _, db') => db' = db
  | (Resolved _, _) => currentPassword <> newPassword
  end.
Proof.
  unfold UserService.changePassword, bind, query, throw, ret.
  destruct (User.findByPk id (users db)) as [byId|]; [|reflexivity].
  destruct (User.findOne_by_email (User.email byId) (users db)) as [user|]; [|reflexivity].
  destruct (negb (UserService.checkPassword bcrypt_compare user currentPassword));
    [reflexivity|].
  destruct (negb (AuthUtils.isValid (AuthUtils.validatePasswordStrength newPassword)));
    [reflexivity|].
  destruct (String.eqb currentPassword newPassword) eqn:E; [reflexivity|].
  unfold UserService.UserRepository_update_password.
  destruct (UserService.password_failures characters newPassword); simpl;
    [apply String.eqb_neq; exact E|reflexivity].
Qed.

Lemma changePassword_on_sample :
  UserService.changePassword Fakes.compare Fakes.rehash Samples.characters
    1 "Ana#2024" "Ana#2024" ana_with_password
  = (Rejected same_password, ana_with_password)
  /\ UserService.changePassword Fakes.compare Fakes.rehash Samples.characters
       1 "wrong" "Bia#2025" ana_with_password
     = (Rejected (new_Error "Senha atual incorreta"), ana_with_password)
  /\ fst (UserService.changePassword Fakes.compare Fakes.rehash Samples.characters
            1 "Ana#2024" "Bia#2025" ana_with_password) = Resolved true
  /\ fst (UserService.changePassword Fakes.compare Fakes.rehash Samples.characters
            1 "Ana#2024" "123456" ana_with_password)
     = Rejected (new_Error
         "Nova senha inválida: Adicione letras minúsculas, Adicione letras maiúsculas, Adicione caracteres especiais, Senha muito comum").
Proof. repeat split; vm_compute; reflexivity. Qed.


(** ** Scenarios *)

(** Ana (id 1) owns post X; Bia (id 2) may not delete it, Ana may, and the
    post cannot be fetched afterwards. *)
Lemma scenario_delete_post :
  PostService.deletePost Samples.noon 1 2 Samples.fresh
  = (Rejected (denied "remover"), Samples.fresh)
  /\ answered (fst (PostController.deletePost Samples.noon 1 2 Samples.fresh))
     = Some AUTHORIZATION_ERROR
  /\ fst (PostService.deletePost Samples.noon 1 1 Samples.fresh) = Resolved true
  /\ fst (PostService.getPostById Samples.noon 1
            (snd (PostService.deletePost Samples.noon 1 1 Samples.fresh)))
     = Rejected post_not_found
  /\ fst (PostService.deletePost Samples.noon 7 1 Samples.fresh)
     = Rejected post_not_found.
Proof. repeat split; vm_compute; reflexivity. Qed.

(** The owner of a scheduled post gets "Post não encontrado" for it: the
    default scope hides the post from [findByPk]. *)
Lemma scheduled_post_is_missing_for_its_owner :
  In Samples.postY (posts Samples.with_scheduled)
  /\ Post.user_id Samples.postY = 1
  /\ standing Samples.noon 2 1 Samples.with_scheduled = Missing
  /\ fst (PostService.schedulePost Samples.characters Samples.noon 2
            (Samples.noon + Samples.day) 1 Samples.with_scheduled)
     = Rejected post_not_found.
Proof.
  split; [right; left; reflexivity|].
  repeat split; vm_compute; reflexivity.
Qed.

(** * Further properties *)

(** ** Reading likes *)

Lemma find_none_all {A : Type} (f : A -> bool) (l : list A) :
  (forall x, In x l -> f x = false) -> find f l = None.
Proof.
  induction l as [|a l IH]; intros H; simpl; [reflexivity|].
  rewrite (H a (or_introl eq_refl)). apply IH.
  intros x Hx. apply H. right. exact Hx.
Qed.

(** Naming [is_deleted: false] in the [where] or leaving it to the default
    scope is the same lookup. *)
Lemma findOne_pair_active (u p : Z) (tb : PostLike.table) :
  PostLike.findOne
    {| PostLike.w_id := None; PostLike.w_user_id := Some u;
       PostLike.w_post_id := Some p; PostLike.w_is_deleted := Some false |} tb
  = find PostLike.isActive (rows_of_pair u p tb).
Proof.
  unfold PostLike.findOne, rows_of_pair. rewrite <- find_filter.
  apply (f_equal (fun f => find f (PostLike.rows tb))).
  reflexivity.
Qed.

Lemma hasUserLiked_cases (postId userId : Z) (db : DB) :
  LikeService.hasUserLiked postId userId db
  = (Resolved (match find PostLike.isActive (rows_of_pair userId postId (post_likes db)) with
               | Some _ => true
               | None => false
               end), db).
Proof.
  unfold LikeService.hasUserLiked, bind, query, ret.
  rewrite findOne_pair_active. reflexivity.
Qed.

Lemma single_row_of_pair (u p : Z) (tb : PostLike.table) (like : PostLike.t) :
  unique_index tb ->
  find PostLike.isActive (rows_of_pair u p tb) = Some like ->
  rows_of_pair u p tb = [like] /\ PostLike.is_deleted like = false.
Proof.
  intros Huniq Hfind. specialize (Huniq u p).
  destruct (rows_of_pair u p tb) as [|a [|b rest]]; simpl in *.
  - discriminate.
  - unfold PostLike.isActive in Hfind.
    destruct (PostLike.is_deleted a) eqn:E; simpl in Hfind; [discriminate|].
    injection Hfind as <-. split; [reflexivity|exact E].
  - lia.
Qed.

(** X1. Under the unique index, a resolved [toggleLike] and the
    [hasUserLiked] that follows agree: [hasUserLiked] answers the [liked]
    that [toggleLike] returned. *)
Theorem toggleLike_then_hasUserLiked (now postId userId : Z) (db db' : DB)
  (r : LikeService.ToggleResult) :
  unique_index (post_likes db) ->
  LikeService.toggleLike now postId userId db = (Resolved r, db') ->
  LikeService.hasUserLiked postId userId db' = (Resolved (LikeService.liked r), db').
Proof.
  intros Huniq. rewrite toggleLike_cases, hasUserLiked_cases.
  destruct (Post.findByPk now postId (posts db)); [|discriminate].
  destruct (User.findByPk userId (users db)); [|discriminate].
  destruct (find PostLike.isActive (rows_of_pair userId postId (post_likes db)))
    as [like|] eqn:Hfind.
  - destruct (single_row_of_pair _ _ _ _ Huniq Hfind) as [Hrows Hact].
    unfold toggled. intros H. injection H as <- <-. simpl.
    rewrite rows_of_pair_save, Hrows. simpl.
    rewrite save_toggle_same_row. unfold PostLike.isActive. simpl.
    rewrite Hact. reflexivity.
  - unfold inserted.
    destruct (existsb (PostLike.same_pair userId postId) (PostLike.rows (post_likes db)))
      eqn:Hex; [discriminate|].
    intros H. injection H as <- <-. simpl.
    unfold rows_of_pair; simpl. rewrite filter_app, (existsb_filter_nil _ _ Hex). simpl.
    unfold PostLike.same_pair; simpl. rewrite !Z.eqb_refl. reflexivity.
Qed.

Lemma toggleLike_then_hasUserLiked_witness :
  LikeService.hasUserLiked 1 2
    (snd (LikeService.toggleLike Samples.noon 1 2 Samples.liked_once))
  = (Resolved false, snd (LikeService.toggleLike Samples.noon 1 2 Samples.liked_once)).
Proof.
  apply (toggleLike_then_hasUserLiked Samples.noon 1 2 Samples.liked_once _
           {| LikeService.liked := false; LikeService.total_likes := 0 |}).
  - intros u p. unfold rows_of_pair. simpl.
    destruct (PostLike.same_pair u p _); simpl; lia.
  - vm_compute. reflexivity.
Defined.

(** The counting [where] sees active rows only, whatever [include_deleted]
    says: without an [is_deleted] key of its own it inherits the one of the
    default scope. *)
Lemma count_post_where (postId : Z) (filters : LikeService.Filters) (tb : PostLike.table) :
  PostLike.count (LikeService.whereClause None (Some postId) filters) tb
  = List.length (active_likes postId tb).
Proof.
  unfold PostLike.count, active_likes.
  apply (f_equal (@List.length PostLike.t)).
  apply filter_ext. intros l.
  unfold PostLike.matches, PostLike.injectScope, LikeService.whereClause, holds, assign_key.
  simpl. rewrite (Z.eqb_sym (PostLike.post_id l) postId).
  destruct (negb (LikeService.or_default false (LikeService.include_deleted filters)));
    simpl; destruct (PostLike.is_deleted l), (postId =? PostLike.post_id l); reflexivity.
Qed.

Lemma count_user_where (userId : Z) (filters : LikeService.Filters) (tb : PostLike.table) :
  PostLike.count (LikeService.whereClause (Some userId) None filters) tb
  = List.length (active_likes_by userId tb).
Proof.
  unfold PostLike.count, active_likes_by.
  apply (f_equal (@List.length PostLike.t)).
  apply filter_ext. intros l.
  unfold PostLike.matches, PostLike.injectScope, LikeService.whereClause, holds, assign_key.
  simpl. rewrite (Z.eqb_sym (PostLike.user_id l) userId).
  destruct (negb (LikeService.or_default false (LikeService.include_deleted filters)));
    simpl; destruct (PostLike.is_deleted l), (userId =? PostLike.user_id l); reflexivity.
Qed.

(** X2. When [toggleLike] resolves, the [total_likes] it returns is what
    [countPostLikes] answers for that post on the store it leaves behind,
    whatever the filters. *)
Theorem toggleLike_total_is_countPostLikes (now postId userId : Z) (db db' : DB)
  (r : LikeService.ToggleResult) (filters : LikeService.Filters) :
  LikeService.toggleLike now postId userId db = (Resolved r, db') ->
  LikeService.countPostLikes postId filters db'
  = (Resolved (LikeService.total_likes r), db').
Proof.
  intros H. unfold LikeService.countPostLikes, query.
  rewrite count_post_where, (toggleLike_total_after _ _ _ _ _ _ H). reflexivity.
Qed.

Lemma toggleLike_total_is_countPostLikes_witness :
  LikeService.countPostLikes 1 {| LikeService.include_deleted := Some true |}
    (snd (LikeService.toggleLike Samples.noon 1 1 Samples.liked_once))
  = (Resolved 2%nat, snd (LikeService.toggleLike Samples.noon 1 1 Samples.liked_once)).
Proof.
  apply (toggleLike_total_is_countPostLikes Samples.noon 1 1 Samples.liked_once _
           {| LikeService.liked := true; LikeService.total_likes := 2 |}).
  vm_compute. reflexivity.
Defined.

(** X3. [countPostLikes] and [countUserLikes] count rows with
    [is_deleted = false] only, also when [include_deleted: true] is asked
    for, and never write. *)
Theorem like_counts_ignore_include_deleted (postId userId : Z)
  (filters : LikeService.Filters) (db : DB) :
  LikeService.countPostLikes postId filters db
  = (Resolved (List.length (active_likes postId (post_likes db))), db)
  /\ LikeService.countUserLikes userId filters db
     = (Resolved (List.length (active_likes_by userId (post_likes db))), db).
Proof.
  unfold LikeService.countPostLikes, LikeService.countUserLikes, query.
  rewrite count_post_where, count_user_where. split; reflexivity.
Qed.

(** ** removeLike *)

Lemma removeLike_found (likeId userId : Z) (tb : PostLike.table) (like : PostLike.t) :
  PostLike.findOne
    {| PostLike.w_id := Some likeId; PostLike.w_user_id := Some userId;
       PostLike.w_post_id := None; PostLike.w_is_deleted := None |} tb = Some like ->
  In like (PostLike.rows tb) /\ PostLike.id like = likeId
  /\ PostLike.user_id like = userId /\ PostLike.is_deleted like = false.
Proof.
  unfold PostLike.findOne. intros H. apply find_some in H. destruct H as [Hin Hm].
  unfold PostLike.matches, PostLike.injectScope, holds, assign_key in Hm; simpl in Hm.
  apply andb_true_iff in Hm. destruct Hm as [Hm Hdel].
  apply andb_true_iff in Hm. destruct Hm as [Hm _].
  apply andb_true_iff in Hm. destruct Hm as [Hid Hu].
  apply Z.eqb_eq in Hid. apply Z.eqb_eq in Hu.
  destruct (PostLike.is_deleted like); [discriminate|]. tauto.
Qed.

(** X4. A like can be removed once: after a resolved [removeLike], the same
    call is rejected with "Like não encontrado ou você não tem permissão
    para removê-lo" and writes nothing. *)
Theorem removeLike_twice_rejected (likeId userId : Z) (db db' : DB) (done : bool) :
  LikeService.removeLike likeId userId db = (Resolved done, db') ->
  LikeService.removeLike likeId userId db' = (Rejected like_not_found_or_denied, db').
Proof.
  rewrite !removeLike_cases.
  destruct (PostLike.findOne _ (post_likes db)) as [like|] eqn:Hfind; [|discriminate].
  apply removeLike_found in Hfind. destruct Hfind as [_ [Hid _]].
  intros H. injection H as _ <-. simpl.
  replace (PostLike.findOne _ _) with (@None PostLike.t); [reflexivity|].
  symmetry. unfold PostLike.findOne. apply find_none_all.
  intros x Hx. simpl in Hx. apply in_map_iff in Hx. destruct Hx as [r [<- _]].
  unfold PostLike.matches, PostLike.injectScope, holds, assign_key; simpl.
  unfold PostLike.save_row; simpl.
  destruct (PostLike.id r =? PostLike.id like) eqn:E; simpl.
  - rewrite !andb_false_r. reflexivity.
  - rewrite Hid in E. rewrite E. reflexivity.
Qed.

Lemma removeLike_twice_rejected_witness :
  LikeService.removeLike 1 2 (snd (LikeService.removeLike 1 2 Samples.liked_once))
  = (Rejected like_not_found_or_denied, snd (LikeService.removeLike 1 2 Samples.liked_once)).
Proof.
  apply (removeLike_twice_rejected 1 2 Samples.liked_once _ true).
  vm_compute. reflexivity.
Defined.

Lemma unique_id_row (rows : list PostLike.t) (like r : PostLike.t) :
  NoDup (map PostLike.id rows) ->
  In like rows -> In r rows -> PostLike.id r = PostLike.id like -> r = like.
Proof.
  induction rows as [|a rows IH]; intros Hnd Hl Hr Hid; [contradiction|].
  simpl in Hnd. inversion Hnd as [|x xs Hnotin Hrest]; subst.
  destruct Hl as [Hl|Hl], Hr as [Hr|Hr]; subst.
  - reflexivity.
  - exfalso. apply Hnotin. rewrite <- Hid. apply in_map. exact Hr.
  - exfalso. apply Hnotin. rewrite Hid. apply in_map. exact Hl.
  - apply IH; assumption.
Qed.

(** X5. [removeLike] is a soft delete: with distinct like ids, a resolved
    call leaves users and posts as they were and every like row in place,
    setting [is_deleted] on the row with that id and changing nothing
    else. *)
Theorem removeLike_soft_deletes (likeId userId : Z) (db db' : DB) (done : bool) :
  NoDup (map PostLike.id (PostLike.rows (post_likes db))) ->
  LikeService.removeLike likeId userId db = (Resolved done, db') ->
  done = true
  /\ users db' = users db /\ posts db' = posts db
  /\ PostLike.rows (post_likes db') = map (deactivate likeId) (PostLike.rows (post_likes db)).
Proof.
  intros Hnd. rewrite removeLike_cases.
  destruct (PostLike.findOne _ (post_likes db)) as [like|] eqn:Hfind; [|discriminate].
  apply removeLike_found in Hfind. destruct Hfind as [Hin [Hid _]].
  intros H. injection H as <- <-. simpl.
  repeat split. apply map_ext_in. intros r Hr.
  unfold PostLike.save_row, deactivate. simpl. rewrite Hid.
  destruct (PostLike.id r =? likeId) eqn:E; [|reflexivity].
  apply Z.eqb_eq in E. rewrite <- Hid in E.
  rewrite (unique_id_row _ _ _ Hnd Hin Hr E). reflexivity.
Qed.

Lemma removeLike_soft_deletes_witness :
  PostLike.rows (post_likes (snd (LikeService.removeLike 1 2 Samples.liked_once)))
  = map (deactivate 1) (PostLike.rows (post_likes Samples.liked_once)).
Proof.
  refine (proj2 (proj2 (proj2 (removeLike_soft_deletes 1 2 Samples.liked_once _ true _ _)))).
  - simpl. constructor; [simpl; tauto|constructor].
  - vm_compute. reflexivity.
Defined.

(** ** Like ids *)

Lemma Forall_lt_not_in (rows : list PostLike.t) (bound : Z) :
  Forall (fun l => PostLike.id l < bound) rows -> ~ In bound (map PostLike.id rows).
Proof.
  intros Hall Hin. apply in_map_iff in Hin. destruct Hin as [l [Hid Hl]].
  apply (proj1 (Forall_forall _ _) Hall) in Hl. lia.
Qed.

Lemma map_id_save (this : PostLike.t) (rows : list PostLike.t) :
  map PostLike.id (map (PostLike.save_row this) rows) = map PostLike.id rows.
Proof.
  rewrite map_map. apply map_ext. intros r.
  unfold PostLike.save_row. destruct (PostLike.id r =? PostLike.id this); reflexivity.
Qed.

(** X6. [toggleLike] keeps like ids distinct and below the sequence: a new
    row takes the sequence value, and the sequence only moves forward, also
    when the call is rejected. *)
Theorem toggleLike_keeps_ids_fresh (now postId userId : Z) (db : DB) :
  like_ids_fresh (post_likes db) ->
  like_ids_fresh (post_likes (snd (LikeService.toggleLike now postId userId db)))
  /\ PostLike.id_seq (post_likes db)
     <= PostLike.id_seq (post_likes (snd (LikeService.toggleLike now postId userId db))).
Proof.
  intros [Hnd Hlt]. rewrite toggleLike_cases.
  destruct (Post.findByPk now postId (posts db));
    [|split; [split; assumption|simpl; lia]].
  destruct (User.findByPk userId (users db));
    [|split; [split; assumption|simpl; lia]].
  destruct (find PostLike.isActive (rows_of_pair userId postId (post_likes db))).
  - unfold toggled, like_ids_fresh; simpl. rewrite map_id_save.
    split; [|lia]. split; [exact Hnd|].
    apply Forall_forall. intros x Hx. apply in_map_iff in Hx.
    destruct Hx as [r [<- Hr]].
    apply (proj1 (Forall_forall _ _) Hlt) in Hr.
    unfold PostLike.save_row. destruct (PostLike.id r =? _); simpl; exact Hr.
  - unfold inserted.
    destruct (existsb (PostLike.same_pair userId postId) (PostLike.rows (post_likes db)));
      unfold like_ids_fresh; simpl.
    + split; [|lia]. split; [exact Hnd|].
      eapply Forall_impl; [|exact Hlt]. simpl. intros; lia.
    + split; [|lia]. split.
      * rewrite map_app. simpl. apply NoDup_app.
        -- exact Hnd.
        -- constructor; [simpl; tauto|constructor].
        -- intros a Ha [<-|[]]. exact (Forall_lt_not_in _ _ Hlt Ha).
      * apply Forall_app. split.
        -- eapply Forall_impl; [|exact Hlt]. simpl. intros; lia.
        -- constructor; [simpl; lia|constructor].
Qed.

Lemma toggleLike_keeps_ids_fresh_witness :
  like_ids_fresh (post_likes Samples.liked_once)
  /\ like_ids_fresh
       (post_likes (snd (LikeService.toggleLike Samples.noon 1 1 Samples.liked_once))).
Proof.
  assert (H : like_ids_fresh (post_likes Samples.liked_once)).
  { split; simpl.
    - constructor; [simpl; tauto|constructor].
    - constructor; [simpl; lia|constructor]. }
  split; [exact H|].
  exact (proj1 (toggleLike_keeps_ids_fresh Samples.noon 1 1 Samples.liked_once H)).
Defined.

Lemma filter_map_save_other (q : Z) (like this : PostLike.t) (rows : list PostLike.t) :
  PostLike.id this = PostLike.id like ->
  PostLike.post_id like <> q ->
  (forall r, In r rows -> PostLike.id r = PostLike.id like -> r = like) ->
  filter (fun l => (PostLike.post_id l =? q) && negb (PostLike.is_deleted l))
         (map (PostLike.save_row this) rows)
  = filter (fun l => (PostLike.post_id l =? q) && negb (PostLike.is_deleted l)) rows.
Proof.
  intros Hid Hpost Hsame.
  induction rows as [|r rows IH]; simpl; [reflexivity|].
  rewrite IH; [|intros x Hx; apply Hsame; right; exact Hx].
  destruct (PostLike.id r =? PostLike.id like) eqn:E.
  - apply Z.eqb_eq in E.
    rewrite (Hsame r (or_introl eq_refl) E).
    assert (Hq : (PostLike.post_id like =? q) = false)
      by (apply Z.eqb_neq; exact Hpost).
    assert (Hq' : (PostLike.post_id (PostLike.save_row this like) =? q) = false).
    { unfold PostLike.save_row. destruct (PostLike.id like =? PostLike.id this);
        simpl; exact Hq. }
    rewrite Hq, Hq'. reflexivity.
  - assert (Hsame_row : PostLike.save_row this r = r).
    { unfold PostLike.save_row. rewrite Hid, E. reflexivity. }
    rewrite Hsame_row. reflexivity.
Qed.

(** X7. With distinct like ids, [toggleLike] on one post leaves the active
    likes of every other post as they were, and never touches users or
    posts. *)
Theorem toggleLike_other_posts_untouched (now postId userId other : Z) (db : DB) :
  NoDup (map PostLike.id (PostLike.rows (post_likes db))) ->
  other <> postId ->
  active_likes other (post_likes (snd (LikeService.toggleLike now postId userId db)))
  = active_likes other (post_likes db)
  /\ users (snd (LikeService.toggleLike now postId userId db)) = users db
  /\ posts (snd (LikeService.toggleLike now postId userId db)) = posts db.
Proof.
  intros Hnd Hother. rewrite toggleLike_cases.
  destruct (Post.findByPk now postId (posts db)); [|repeat split].
  destruct (User.findByPk userId (users db)); [|repeat split].
  destruct (find PostLike.isActive (rows_of_pair userId postId (post_likes db)))
    as [like|] eqn:Hfind.
  - unfold toggled; simpl. split; [|split; reflexivity].
    apply find_some in Hfind. destruct Hfind as [Hin _].
    unfold rows_of_pair in Hin. apply filter_In in Hin. destruct Hin as [Hin Hpair].
    apply same_pair_true in Hpair. destruct Hpair as [_ Hpost].
    unfold active_likes; simpl.
    apply (filter_map_save_other other like (PostLike.toggle now like)).
    + reflexivity.
    + rewrite Hpost. intros E. apply Hother. symmetry. exact E.
    + intros r Hr Hid. exact (unique_id_row _ _ _ Hnd Hin Hr Hid).
  - unfold inserted.
    destruct (existsb (PostLike.same_pair userId postId) (PostLike.rows (post_likes db)));
      simpl; [repeat split|].
    split; [|split; reflexivity].
    unfold active_likes; simpl. rewrite filter_app. simpl.
    destruct (postId =? other) eqn:E; simpl; [|apply app_nil_r].
    apply Z.eqb_eq in E. exfalso. apply Hother. symmetry. exact E.
Qed.

(** On the store [Samples.busy] Bia takes her like of post X back: post X
    goes from two active likes to one, and the like of post W stays. *)
Lemma toggleLike_other_posts_untouched_witness :
  active_likes 3
    (post_likes (snd (LikeService.toggleLike Samples.noon 1 2 Samples.busy)))
  = [Samples.like 4 1 3 (Samples.noon - 1) false]
  /\ List.length (active_likes 1 (post_likes Samples.busy)) = 2%nat
  /\ List.length
       (active_likes 1
          (post_likes (snd (LikeService.toggleLike Samples.noon 1 2 Samples.busy))))
     = 1%nat.
Proof.
  assert (Hnd : NoDup (map PostLike.id (PostLike.rows (post_likes Samples.busy)))).
  { simpl. repeat constructor; simpl; intuition discriminate. }
  assert (Hne : 3 <> 1) by discriminate.
  split; [|split; reflexivity].
  rewrite (proj1 (toggleLike_other_posts_untouched Samples.noon 1 2 3 Samples.busy
                    Hnd Hne)).
  reflexivity.
Defined.

(** ** getPostLikes *)

Lemma like_insert_desc_perm (tie : PostLike.t -> Z) (l : PostLike.t)
  (sorted : list PostLike.t) :
  Permutation (PostLike.insert_desc tie l sorted) (l :: sorted).
Proof.
  induction sorted as [|m rest IH]; simpl; [apply Permutation_refl|].
  destruct (PostLike.before tie l m); [apply Permutation_refl|].
  apply Permutation_trans with (m :: l :: rest).
  - apply perm_skip. exact IH.
  - apply perm_swap.
Qed.

Lemma like_order_perm (tie : PostLike.t -> Z) (l : list PostLike.t) :
  Permutation (PostLike.order_by_liked_at_desc tie l) l.
Proof.
  induction l as [|a l IH]; simpl; [apply Permutation_refl|].
  apply Permutation_trans with (a :: PostLike.order_by_liked_at_desc tie l).
  - apply like_insert_desc_perm.
  - apply perm_skip. exact IH.
Qed.

Lemma like_before_later_first (tie : PostLike.t -> Z) (l m : PostLike.t) :
  (PostLike.before tie l m = true -> liked_later_first l m)
  /\ (PostLike.before tie l m = false -> liked_later_first m l).
Proof.
  unfold PostLike.before, liked_later_first. split; intros H.
  - apply orb_true_iff in H. destruct H as [H|H].
    + apply Z.ltb_lt in H. lia.
    + apply andb_true_iff in H. destruct H as [H _]. apply Z.eqb_eq in H. lia.
  - apply orb_false_iff in H. destruct H as [H _]. apply Z.ltb_ge in H. exact H.
Qed.

Lemma like_insert_desc_sorted (tie : PostLike.t -> Z) (l : PostLike.t)
  (sorted : list PostLike.t) :
  StronglySorted liked_later_first sorted ->
  StronglySorted liked_later_first (PostLike.insert_desc tie l sorted).
Proof.
  induction sorted as [|m rest IH]; intros Hs; simpl.
  - constructor; constructor.
  - inversion Hs as [|x xs Hrest Hall]; subst.
    destruct (PostLike.before tie l m) eqn:E.
    + apply like_before_later_first in E. constructor; [exact Hs|].
      constructor; [exact E|].
      eapply Forall_impl; [|exact Hall].
      intros r Hr. unfold liked_later_first in *. lia.
    + apply like_before_later_first in E. constructor; [apply IH; exact Hrest|].
      apply (Permutation_Forall (Permutation_sym (like_insert_desc_perm tie l rest))).
      constructor; [exact E|exact Hall].
Qed.

Lemma like_order_sorted (tie : PostLike.t -> Z) (l : list PostLike.t) :
  StronglySorted liked_later_first (PostLike.order_by_liked_at_desc tie l).
Proof.
  induction l as [|a l IH]; simpl; [constructor|].
  apply like_insert_desc_sorted. exact IH.
Qed.

Lemma findAll_post_where (postId : Z) (filters : LikeService.Filters)
  (tb : PostLike.table) :
  PostLike.findAll (LikeService.whereClause None (Some postId) filters) tb
  = active_likes postId tb.
Proof.
  unfold PostLike.findAll, active_likes.
  apply filter_ext. intros l.
  unfold PostLike.matches, PostLike.injectScope, LikeService.whereClause, holds, assign_key.
  simpl. rewrite (Z.eqb_sym (PostLike.post_id l) postId).
  destruct (negb (LikeService.or_default false (LikeService.include_deleted filters)));
    simpl; destruct (PostLike.is_deleted l), (postId =? PostLike.post_id l); reflexivity.
Qed.

(** X8. [getPostLikes] rejects with "Post não encontrado" when [findByPk]
    returns no post; otherwise it resolves without writing, [total] is the
    number of active likes of the post, every like it returns is an active
    like of that post (also under [include_deleted: true]), at most [limit]
    of them, most recent [liked_at] first, whatever order the store gives
    to likes of the same instant. *)
Theorem getPostLikes_lists_active_likes (tie : PostLike.t -> Z) (now postId : Z)
  (filters : LikeService.Filters) (pagination : LikeService.Pagination) (db : DB) :
  match Post.findByPk now postId (posts db) with
  | None =>
      LikeService.getPostLikes tie now postId filters pagination db
      = (Rejected post_not_found, db)
  | Some _ =>
      exists listing,
        LikeService.getPostLikes tie now postId filters pagination db
        = (Resolved listing, db)
        /\ LikeService.total listing = List.length (active_likes postId (post_likes db))
        /\ Forall (fun v => LikeService.v_post_id v = postId
                            /\ LikeService.is_active v = true)
                  (LikeService.likes listing)
        /\ (List.length (LikeService.likes listing)
            <= LikeService.or_default 20 (LikeService.limit pagination))%nat
        /\ StronglySorted view_liked_later_first (LikeService.likes listing)
  end.
Proof.
  unfold LikeService.getPostLikes, bind, query, throw, ret.
  destruct (Post.findByPk now postId (posts db)); [|reflexivity].
  eexists. split; [reflexivity|]. simpl.
  rewrite findAll_post_where.
  split; [reflexivity|]. split; [|split].
  - apply Forall_forall. intros v Hv.
    apply in_map_iff in Hv. destruct Hv as [l [<- Hl]]. simpl.
    apply page_in_found in Hl.
    apply (Permutation_in _ (like_order_perm tie _)) in Hl.
    unfold active_likes in Hl. apply filter_In in Hl. destruct Hl as [_ Hm].
    apply andb_true_iff in Hm. destruct Hm as [Hp Hd].
    apply Z.eqb_eq in Hp. split; assumption.
  - rewrite length_map. apply firstn_le_length.
  - apply (sorted_map liked_later_first view_liked_later_first);
      [intros x y H; exact H|].
    apply sorted_firstn, sorted_skipn, like_order_sorted.
Qed.

(** ** Pages of a listing *)

Lemma firstn_add {A : Type} (n m : nat) (l : list A) :
  firstn (n + m) l = firstn n l ++ firstn m (skipn n l).
Proof.
  revert l. induction n as [|n IH]; intros l; simpl; [reflexivity|].
  destruct l as [|a l]; simpl.
  - destruct m; reflexivity.
  - rewrite IH. reflexivity.
Qed.

Lemma pages_tile {A : Type} (n m off : nat) (l : list A) :
  firstn n (skipn off l) ++ firstn m (skipn (off + n) l)
  = firstn (n + m) (skipn off l).
Proof.
  rewrite firstn_add, skipn_skipn, (Nat.add_comm n off). reflexivity.
Qed.

Lemma found_dates_differ (iLike : string -> string -> bool) (now : Z)
  (w : Post.WhereOptions) (db : DB) :
  dates_differ db ->
  NoDup (map Post.available_at (Post.findAll iLike now w (posts db))).
Proof.
  intros H. unfold Post.findAll. apply NoDup_map_filter. exact H.
Qed.

(** X9. When no two posts share a date, consecutive pages of [listPosts]
    tile the listing, whatever the store does in each of the queries: the
    page of [n] posts at [offset] followed by the page of [m] posts at
    [offset + n] is the page of [n + m] posts at [offset], and the three
    calls report the same [total]. *)
Theorem listPosts_pages_tile (iLike : string -> string -> bool)
  (tie_a tie_b tie_c : Post.t -> Z) (now : Z)
  (filters : PostService.Filters) (n m off : nat) (db : DB) :
  dates_differ db ->
  exists a b c,
    PostService.listPosts iLike tie_a now filters (page n off) db = (Resolved a, db)
    /\ PostService.listPosts iLike tie_b now filters (page m (off + n)) db
       = (Resolved b, db)
    /\ PostService.listPosts iLike tie_c now filters (page (n + m) off) db
       = (Resolved c, db)
    /\ PostService.l_posts a ++ PostService.l_posts b = PostService.l_posts c
    /\ PostService.l_total a = PostService.l_total c
    /\ PostService.l_total b = PostService.l_total c.
Proof.
  intros Hdates.
  unfold PostService.listPosts, bind, query, ret, PostService.findAndCountAll.
  do 3 eexists. split; [reflexivity|]. split; [reflexivity|]. split; [reflexivity|].
  simpl. split; [|split; reflexivity].
  set (found := Post.findAll iLike now _ (posts db)).
  assert (Hnd : NoDup (map Post.available_at found))
    by (apply found_dates_differ; exact Hdates).
  rewrite (order_by_any_tie tie_a tie_c found Hnd).
  rewrite (order_by_any_tie tie_b tie_c found Hnd).
  rewrite <- !map_app, pages_tile. reflexivity.
Qed.

Lemma listPosts_pages_tile_witness :
  dates_differ Samples.spread
  /\ exists a b c,
       PostService.listPosts (fun _ _ => false) Samples.scan_order Samples.noon
         Samples.no_filters (page 1 0) Samples.spread = (Resolved a, Samples.spread)
       /\ PostService.listPosts (fun _ _ => false) Samples.higher_id_first Samples.noon
            Samples.no_filters (page 1 1) Samples.spread = (Resolved b, Samples.spread)
       /\ PostService.listPosts (fun _ _ => false) Samples.scan_order Samples.noon
            Samples.no_filters (page 2 0) Samples.spread = (Resolved c, Samples.spread)
       /\ map shown (PostService.l_posts a) = [(Samples.postX, 1%nat)]
       /\ map shown (PostService.l_posts b) = [(Samples.postW, 0%nat)]
       /\ PostService.l_posts a ++ PostService.l_posts b = PostService.l_posts c.
Proof.
  assert (Hdates : dates_differ Samples.spread).
  { unfold dates_differ. simpl. repeat constructor; simpl; intuition discriminate. }
  split; [exact Hdates|].
  destruct (listPosts_pages_tile (fun _ _ => false) Samples.scan_order
              Samples.higher_id_first Samples.scan_order Samples.noon
              Samples.no_filters 1 1 0 Samples.spread Hdates)
    as [a [b [c [Ha [Hb [Hc [Htile _]]]]]]].
  exists a, b, c.
  split; [exact Ha|]. split; [exact Hb|]. split; [exact Hc|].
  split; [|split; [|exact Htile]].
  - vm_compute in Ha. injection Ha as <-. reflexivity.
  - vm_compute in Hb. injection Hb as <-. reflexivity.
Defined.

(** X10. With distinct post ids, a page of [listPosts] holds exactly
    [min limit (total - offset)] posts. *)
Theorem listPosts_page_size (iLike : string -> string -> bool) (tie : Post.t -> Z)
  (now : Z) (filters : PostService.Filters) (pagination : PostService.Pagination)
  (db db' : DB) (listing : PostService.Listing) :
  NoDup (map Post.id (posts db)) ->
  PostService.listPosts iLike tie now filters pagination db = (Resolved listing, db') ->
  List.length (PostService.l_posts listing)
  = Nat.min (PostService.l_limit listing)
            (PostService.l_total listing - PostService.l_offset listing).
Proof.
  intros Hnd.
  unfold PostService.listPosts, bind, query, ret, PostService.findAndCountAll.
  intros H. injection H as <- _. simpl.
  rewrite !length_map, length_firstn, length_skipn.
  rewrite count_distinct_left_join;
    [|unfold Post.findAll; apply NoDup_map_filter; exact Hnd].
  rewrite (Permutation_length (order_by_perm tie _)). reflexivity.
Qed.

Lemma listPosts_page_size_witness :
  NoDup (map Post.id (posts Samples.tied))
  /\ exists listing,
       PostService.listPosts (fun _ _ => false) Samples.scan_order Samples.noon
         Samples.no_filters (page 5 1) Samples.tied = (Resolved listing, Samples.tied)
       /\ List.length (PostService.l_posts listing) = 1%nat.
Proof.
  assert (Hnd : NoDup (map Post.id (posts Samples.tied))).
  { simpl. constructor; [simpl; intros [H|[]]; discriminate|].
    constructor; [simpl; tauto|constructor]. }
  split; [exact Hnd|].
  eexists. split; [reflexivity|].
  rewrite (listPosts_page_size (fun _ _ => false) Samples.scan_order Samples.noon
             Samples.no_filters (page 5 1) Samples.tied Samples.tied _ Hnd eq_refl).
  reflexivity.
Defined.

(** X11. With distinct post ids, [countPosts] answers the [total] that
    [listPosts] reports for the same filters, whatever the page. *)
Theorem countPosts_is_listPosts_total (iLike : string -> string -> bool)
  (tie : Post.t -> Z) (now : Z)
  (filters : PostService.Filters) (pagination : PostService.Pagination)
  (db db' : DB) (listing : PostService.Listing) :
  NoDup (map Post.id (posts db)) ->
  PostService.listPosts iLike tie now filters pagination db = (Resolved listing, db') ->
  PostService.countPosts iLike now filters db = (Resolved (PostService.l_total listing), db).
Proof.
  intros Hnd.
  unfold PostService.listPosts, PostService.countPosts, bind, query, ret,
    PostService.findAndCountAll.
  intros H. injection H as <- _. simpl.
  rewrite count_distinct_left_join;
    [reflexivity|unfold Post.findAll; apply NoDup_map_filter; exact Hnd].
Qed.

Lemma countPosts_is_listPosts_total_witness :
  PostService.countPosts (fun _ _ => false) Samples.noon Samples.ask_scheduled
    Samples.with_scheduled = (Resolved 1%nat, Samples.with_scheduled).
Proof.
  assert (Hnd : NoDup (map Post.id (posts Samples.with_scheduled))).
  { simpl. constructor; [simpl; intros [H|[]]; discriminate|].
    constructor; [simpl; tauto|constructor]. }
  rewrite (countPosts_is_listPosts_total (fun _ _ => false) Samples.scan_order
             Samples.noon Samples.ask_scheduled Samples.first_page
             Samples.with_scheduled Samples.with_scheduled _ Hnd eq_refl).
  reflexivity.
Defined.

(** X12. For a user id other than 0 and posts of different dates,
    [getUserPosts] shows the posts that [listPosts] shows under the filter
    [user_id], page for page and whatever the store does in either query,
    with the same number of likes and the same [total]; and every post it
    shows belongs to that user. *)
Theorem getUserPosts_is_listPosts_of_user (iLike : string -> string -> bool)
  (tie tie' : Post.t -> Z)
  (now userId : Z) (filters : PostService.Filters) (lim off : nat) (db : DB) :
  userId <> 0 ->
  dates_differ db ->
  exists mine listed,
    PostService.getUserPosts iLike tie now userId filters (page lim off) db
    = (Resolved mine, db)
    /\ PostService.listPosts iLike tie' now (of_user userId filters) (page lim off) db
       = (Resolved listed, db)
    /\ map shown (PostService.l_posts mine) = map shown (PostService.l_posts listed)
    /\ PostService.l_total mine = PostService.l_total listed
    /\ Forall (fun v => Post.user_id (PostService.post (PostService.data v)) = userId)
              (PostService.l_posts mine).
Proof.
  intros Hne Hdates.
  assert (E : (userId =? 0) = false) by (apply Z.eqb_neq; exact Hne).
  unfold PostService.getUserPosts, PostService.listPosts, bind, query, ret,
    PostService.findAndCountAll, of_user, truthy_number.
  simpl. rewrite E.
  do 2 eexists. split; [reflexivity|]. split; [reflexivity|]. simpl.
  set (found := Post.findAll iLike now _ (posts db)).
  assert (Hnd : NoDup (map Post.available_at found))
    by (apply found_dates_differ; exact Hdates).
  split; [|split; [reflexivity|]].
  - rewrite (order_by_any_tie tie tie' found Hnd).
    rewrite !map_map. apply map_ext. intros p. reflexivity.
  - apply Forall_forall. intros v Hv.
    apply in_map_iff in Hv. destruct Hv as [d [<- Hd]].
    apply in_map_iff in Hd. destruct Hd as [p [<- Hp]]. simpl.
    apply page_in_found in Hp.
    apply (Permutation_in _ (order_by_perm tie _)) in Hp.
    unfold found, Post.findAll in Hp. apply filter_In in Hp. destruct Hp as [_ Hm].
    unfold Post.matches, Post.matches_keys in Hm.
    apply andb_true_iff in Hm. destruct Hm as [Hm _].
    apply andb_true_iff in Hm. destruct Hm as [Hm _].
    apply andb_true_iff in Hm. destruct Hm as [_ Hu].
    simpl in Hu. apply Z.eqb_eq in Hu. exact Hu.
Qed.

Lemma getUserPosts_is_listPosts_of_user_witness :
  dates_differ Samples.spread
  /\ exists mine,
       PostService.getUserPosts (fun _ _ => false) Samples.scan_order Samples.noon 1
         Samples.no_filters (page 10 0) Samples.spread = (Resolved mine, Samples.spread)
       /\ map shown (PostService.l_posts mine) = [(Samples.postX, 1%nat)]
       /\ Forall (fun v => Post.user_id (PostService.post (PostService.data v)) = 1)
                 (PostService.l_posts mine).
Proof.
  assert (Hdates : dates_differ Samples.spread).
  { unfold dates_differ. simpl. repeat constructor; simpl; intuition discriminate. }
  split; [exact Hdates|].
  destruct (getUserPosts_is_listPosts_of_user (fun _ _ => false) Samples.scan_order
              Samples.higher_id_first Samples.noon 1 Samples.no_filters 10 0
              Samples.spread)
    as [mine [listed [Hmine [_ [_ [_ Hall]]]]]].
  - discriminate.
  - exact Hdates.
  - exists mine. split; [exact Hmine|]. split; [|exact Hall].
    vm_compute in Hmine. injection Hmine as <-. reflexivity.
Defined.

(** ** deletePost, updatePost, createPost *)

(** X13. A resolved [deletePost] takes the likes of the post with it and
    nothing else: the like rows left are exactly those of other posts, the
    users are untouched, and every post with another id is still there. *)
Theorem deletePost_cascades_to_likes (now id userId : Z) (db db' : DB) (done : bool) :
  PostService.deletePost now id userId db = (Resolved done, db') ->
  PostLike.rows (post_likes db')
  = filter (fun l => negb (PostLike.post_id l =? id)) (PostLike.rows (post_likes db))
  /\ users db' = users db
  /\ (forall p, In p (posts db) -> Post.id p <> id -> In p (posts db')).
Proof.
  rewrite deletePost_cases.
  destruct (standing now id userId db) as [| |post] eqn:Hst; [discriminate|discriminate|].
  apply standing_owned_found in Hst.
  intros H. injection H as _ <-. simpl.
  split; [|split; [reflexivity|]].
  - apply filter_ext. intros l. rewrite (existsb_gone _ _ _ _ _ Hst). reflexivity.
  - intros p Hp Hne. apply filter_In. split; [exact Hp|].
    destruct (Post.destroyed now id p) eqn:Hd; [|reflexivity].
    apply destroyed_id in Hd. contradiction.
Qed.

Lemma deletePost_cascades_to_likes_witness :
  PostLike.rows (post_likes (snd (PostService.deletePost Samples.noon 1 1 Samples.liked_once)))
  = [].
Proof.
  destruct (deletePost_cascades_to_likes Samples.noon 1 1 Samples.liked_once
              (snd (PostService.deletePost Samples.noon 1 1 Samples.liked_once))
              true eq_refl) as [H _].
  rewrite H. reflexivity.
Defined.

(** X14. An owner's [updatePost] with values that pass the validators
    writes them to the row. As long as the post stays available it
    resolves with the row as rewritten and its owner, read back without
    its likes, so that [total_likes] is 0 whatever likes the post has;
    when the update moves [available_at] past now, it resolves with
    [null]. *)
Theorem updatePost_reads_back (characters : string -> Z) (now id userId : Z)
  (v : Post.Values) (db : DB) (post : Post.t) :
  Post.findByPk now id (posts db) = Some post ->
  Post.user_id post = userId ->
  Post.validate characters v = true ->
  let db' := snd (PostService.updatePost characters now id v userId db) in
  In (Post.assign v post) (posts db')
  /\ fst (PostService.updatePost characters now id v userId db)
     = Resolved
         (if stays_available now v
          then Some {| PostService.u_post := Post.assign v post;
                       PostService.u_User := PostService.joined_user post (users db);
                       PostService.u_total_likes := 0 |}
          else None).
Proof.
  intros Hfind Hown Hvalid. simpl.
  rewrite updatePost_cases, (standing_owned _ _ _ _ _ Hfind Hown), Hvalid.
  unfold Post.update. rewrite Hvalid. simpl.
  split.
  - unfold Post.findByPk in Hfind. apply find_some in Hfind. destruct Hfind as [Hin Hm].
    apply in_map_iff. exists post. split; [|exact Hin]. rewrite Hm. reflexivity.
  - unfold Post.findByPk at 1. rewrite (find_after_update now id v (posts db)).
    unfold Post.findByPk in Hfind. rewrite Hfind.
    destruct (stays_available now v); reflexivity.
Qed.

(** On the store [Samples.busy] Ana retitles post X, which has two active
    likes: the post comes back with her name and [total_likes] 0. Moved one
    millisecond ahead of now, it comes back as [null]. *)
Lemma updatePost_reads_back_witness :
  List.length (active_likes 1 (post_likes Samples.busy)) = 2%nat
  /\ fst (PostService.updatePost Samples.characters Samples.noon 1
            {| Post.v_title := Some "Post X, revised"; Post.v_summary := None;
               Post.v_content := None; Post.v_available_at := None |}
            1 Samples.busy)
     = Resolved
         (Some {| PostService.u_post :=
                    {| Post.id := 1; Post.user_id := 1; Post.title := "Post X, revised";
                       Post.summary := "A summary"; Post.content := "Some content";
                       Post.available_at := Samples.noon - Samples.day |};
                  PostService.u_User :=
                    Some {| PostService.owner_id := 1; PostService.owner_name := "Ana" |};
                  PostService.u_total_likes := 0 |})
  /\ fst (PostService.updatePost Samples.characters Samples.noon 1
            {| Post.v_title := Some "Post X, revised"; Post.v_summary := None;
               Post.v_content := None; Post.v_available_at := Some (Samples.noon + 1) |}
            1 Samples.busy) = Resolved None.
Proof.
  split; [reflexivity|]. split.
  - exact (proj2 (updatePost_reads_back Samples.characters Samples.noon 1 1
                    {| Post.v_title := Some "Post X, revised"; Post.v_summary := None;
                       Post.v_content := None; Post.v_available_at := None |}
                    Samples.busy Samples.postX eq_refl eq_refl eq_refl)).
  - exact (proj2 (updatePost_reads_back Samples.characters Samples.noon 1 1
                    {| Post.v_title := Some "Post X, revised"; Post.v_summary := None;
                       Post.v_content := None;
                       Post.v_available_at := Some (Samples.noon + 1) |}
                    Samples.busy Samples.postX eq_refl eq_refl eq_refl)).
Defined.

Lemma find_app_none {A : Type} (f : A -> bool) (l : list A) (x : A) :
  (forall y, In y l -> f y = false) ->
  find f (l ++ [x]) = if f x then Some x else None.
Proof.
  induction l as [|a l IH]; intros H; simpl; [reflexivity|].
  rewrite (H a (or_introl eq_refl)). apply IH.
  intros y Hy. apply H. right. exact Hy.
Qed.

(** X15. [createPost] for a user that does not exist is rejected with
    "Usuário não encontrado" and writes nothing. For an existing user,
    fields that pass the validators and an id no post has yet, it appends a
    post owned by the caller and resolves with it; [getPostById] then
    returns that post if its [available_at] is not after now, and "Post não
    encontrado" if it is. Fields that fail a validator are rejected with
    the ORM's validation error, which lists the messages of the validators
    that failed, and nothing is written. *)
Theorem createPost_then_getPostById (characters : string -> Z) (now nextval userId : Z)
  (postData : PostService.PostInput) (db : DB) :
  match User.findByPk userId (users db) with
  | None =>
      PostService.createPost characters nextval postData userId db
      = (Rejected (new_Error "Usuário não encontrado"), db)
  | Some _ =>
      if Post.validate characters (values_of postData)
      then
        (forall p, In p (posts db) -> Post.id p <> nextval) ->
        let row := {| Post.id := nextval; Post.user_id := userId;
                      Post.title := PostService.i_title postData;
                      Post.summary := PostService.i_summary postData;
                      Post.content := PostService.i_content postData;
                      Post.available_at := PostService.i_available_at postData |} in
        let db' := set_posts (posts db ++ [row]) db in
        PostService.createPost characters nextval postData userId db = (Resolved row, db')
        /\ fst (PostService.getPostById now nextval db')
           = if PostService.i_available_at postData <=? now
             then Resolved (view None (PostService.read true db' row))
             else Rejected post_not_found
      else
        PostService.createPost characters nextval postData userId db
        = (Rejected (ValidationError (Post.failures characters (values_of postData))), db)
  end.
Proof.
  unfold PostService.createPost, bind, query, throw.
  destruct (User.findByPk userId (users db)); [|reflexivity].
  unfold Post.create. fold (values_of postData).
  destruct (Post.validate characters (values_of postData)) eqn:Hvalid.
  - intros Hfresh. simpl.
    split; [reflexivity|].
    unfold PostService.getPostById, bind, query, throw, ret. simpl.
    unfold Post.findByPk. rewrite find_app_none.
    + unfold Post.matches_keys, Post.injectScope, holds, assign_key. simpl.
      rewrite Z.eqb_refl. simpl.
      destruct (PostService.i_available_at postData <=? now); reflexivity.
    + intros y Hy. unfold Post.matches_keys, Post.injectScope, holds, assign_key. simpl.
      destruct (Post.id y =? nextval) eqn:E; [|reflexivity].
      apply Z.eqb_eq in E. exfalso. exact (Hfresh y Hy E).
  - simpl. rewrite set_posts_same. reflexivity.
Qed.

(** On the store [Samples.fresh]: the draft due in an hour is created and
    is not found until it is due; the draft whose summary has nine
    characters is refused by [len] with the message of that validator,
    although the summary has more than ten bytes. *)
Lemma createPost_then_getPostById_witness :
  fst (PostService.getPostById Samples.noon 2
         (snd (PostService.createPost Samples.characters 2 draft 1 Samples.fresh)))
  = Rejected post_not_found
  /\ (exists v,
        fst (PostService.getPostById (Samples.noon + Samples.day) 2
               (snd (PostService.createPost Samples.characters 2 draft 1 Samples.fresh)))
        = Resolved v
        /\ Post.user_id (PostService.post (PostService.data v)) = 1)
  /\ String.length (PostService.i_summary short_draft) = 14%nat
  /\ PostService.createPost Samples.characters 2 short_draft 1 Samples.fresh
     = (Rejected {| name := SequelizeValidationError;
                    message := "Validation error: Resumo deve ter entre 10 e 500 caracteres" |},
        Samples.fresh).
Proof.
  assert (Hvalid : Post.validate Samples.characters (values_of draft) = true)
    by (vm_compute; reflexivity).
  assert (Hshort : Post.validate Samples.characters (values_of short_draft) = false)
    by (vm_compute; reflexivity).
  assert (Hfresh : forall p, In p (posts Samples.fresh) -> Post.id p <> 2).
  { intros p [<-|[]]. discriminate. }
  split; [|split; [|split; [reflexivity|]]].
  - pose proof (createPost_then_getPostById Samples.characters Samples.noon 2 1 draft
                  Samples.fresh) as H.
    change (User.findByPk 1 (users Samples.fresh)) with (Some Samples.ana) in H.
    cbv beta iota in H. rewrite Hvalid in H.
    destruct (H Hfresh) as [Hc Hg].
    rewrite Hc. cbv [snd]. rewrite Hg. reflexivity.
  - pose proof (createPost_then_getPostById Samples.characters
                  (Samples.noon + Samples.day) 2 1 draft Samples.fresh) as H.
    change (User.findByPk 1 (users Samples.fresh)) with (Some Samples.ana) in H.
    cbv beta iota in H. rewrite Hvalid in H.
    destruct (H Hfresh) as [Hc Hg].
    rewrite Hc. cbv [snd]. rewrite Hg. eexists. split; reflexivity.
  - pose proof (createPost_then_getPostById Samples.characters Samples.noon 2 1
                  short_draft Samples.fresh) as H.
    change (User.findByPk 1 (users Samples.fresh)) with (Some Samples.ana) in H.
    cbv beta iota in H. rewrite Hshort in H.
    rewrite H. vm_compute. reflexivity.
Defined.

(** ** Foreign keys *)

Lemma user_found (userId : Z) (table : list User.t) (u : User.t) :
  User.findByPk userId table = Some u -> In u table /\ User.id u = userId.
Proof.
  unfold User.findByPk. intros H. apply find_some in H. destruct H as [Hin Hid].
  apply Z.eqb_eq in Hid. split; assumption.
Qed.

Lemma references_after_like_rewrite (db : DB) (f : PostLike.t -> PostLike.t) (seq : Z) :
  (forall r, PostLike.user_id (f r) = PostLike.user_id r
             /\ PostLike.post_id (f r) = PostLike.post_id r) ->
  references_hold db ->
  references_hold
    (set_post_likes {| PostLike.rows := map f (PostLike.rows (post_likes db));
                       PostLike.id_seq := seq |} db).
Proof.
  intros Hf [Hposts Hlikes]. split; [exact Hposts|].
  intros l Hl. simpl in Hl. apply in_map_iff in Hl. destruct Hl as [r [<- Hr]].
  destruct (Hf r) as [Hu Hp]. rewrite Hu, Hp. exact (Hlikes r Hr).
Qed.

Lemma save_row_refs (this r : PostLike.t) :
  PostLike.user_id (PostLike.save_row this r) = PostLike.user_id r
  /\ PostLike.post_id (PostLike.save_row this r) = PostLike.post_id r.
Proof.
  unfold PostLike.save_row. destruct (PostLike.id r =? PostLike.id this); split; reflexivity.
Qed.

Lemma references_after_post_rewrite (db : DB) (f : Post.t -> Post.t) :
  (forall p, Post.id (f p) = Post.id p /\ Post.user_id (f p) = Post.user_id p) ->
  references_hold db ->
  references_hold (set_posts (map f (posts db)) db).
Proof.
  intros Hf [Hposts Hlikes]. split.
  - intros p Hp. simpl in Hp. apply in_map_iff in Hp. destruct Hp as [q [<- Hq]].
    destruct (Hf q) as [_ Hu]. rewrite Hu. exact (Hposts q Hq).
  - intros l Hl. simpl in Hl. destruct (Hlikes l Hl) as [Hu [p [Hp Hid]]].
    split; [exact Hu|].
    exists (f p). split; [simpl; apply in_map; exact Hp|].
    destruct (Hf p) as [Hi _]. rewrite Hi. exact Hid.
Qed.

Lemma scoped_assign_refs (now id : Z) (v : Post.Values) (p : Post.t) :
  let f := fun r =>
             if Post.matches_keys
                  (Post.injectScope now
                     {| Post.w_id := Some id; Post.w_user_id := None;
                        Post.w_available_at_lte := None; Post.w_search := None |}) r
             then Post.assign v r else r in
  Post.id (f p) = Post.id p /\ Post.user_id (f p) = Post.user_id p.
Proof.
  simpl. destruct (Post.matches_keys _ p); split; reflexivity.
Qed.

Lemma toggleLike_keeps_references (now postId userId : Z) (db : DB) :
  references_hold db ->
  references_hold (snd (LikeService.toggleLike now postId userId db)).
Proof.
  intros Href. rewrite toggleLike_cases.
  destruct (Post.findByPk now postId (posts db)) as [post|] eqn:Hp; [|exact Href].
  destruct (User.findByPk userId (users db)) as [user|] eqn:Hu; [|exact Href].
  destruct (find PostLike.isActive (rows_of_pair userId postId (post_likes db))).
  - unfold toggled; simpl.
    apply (references_after_like_rewrite db _ _ (save_row_refs _) Href).
  - unfold inserted.
    destruct (existsb (PostLike.same_pair userId postId) (PostLike.rows (post_likes db)));
      simpl.
    + destruct Href as [Hposts Hlikes]. split; [exact Hposts|exact Hlikes].
    + destruct Href as [Hposts Hlikes]. split; [exact Hposts|].
      intros l Hl. simpl in Hl. apply in_app_or in Hl. destruct Hl as [Hl|[<-|[]]].
      * exact (Hlikes l Hl).
      * simpl. apply user_found in Hu. apply findByPk_found in Hp.
        split; [exists user|exists post]; tauto.
Qed.

Lemma deletePost_keeps_references (now id userId : Z) (db : DB) :
  references_hold db ->
  references_hold (snd (PostService.deletePost now id userId db)).
Proof.
  intros Href. rewrite deletePost_cases.
  destruct (standing now id userId db) as [| |post] eqn:Hst; [exact Href|exact Href|].
  apply standing_owned_found in Hst. simpl.
  destruct Href as [Hposts Hlikes]. split.
  - intros p Hp. simpl in Hp. apply filter_In in Hp. exact (Hposts p (proj1 Hp)).
  - intros l Hl. simpl in Hl. apply filter_In in Hl. destruct Hl as [Hl Hkeep].
    rewrite (existsb_gone _ _ _ _ _ Hst) in Hkeep.
    destruct (Hlikes l Hl) as [Hu [p [Hp Hid]]]. split; [exact Hu|].
    exists p. split; [|exact Hid]. simpl. apply filter_In. split; [exact Hp|].
    destruct (Post.destroyed now id p) eqn:Hd; [|reflexivity].
    apply destroyed_id in Hd. rewrite <- Hid, Hd, Z.eqb_refl in Hkeep. discriminate.
Qed.

Lemma deleteUser_keeps_references (id : Z) (db : DB) :
  references_hold db ->
  references_hold (snd (UserService.deleteUser id db)).
Proof.
  intros Href. unfold UserService.deleteUser, bind, query, throw, ret.
  destruct (User.findByPk id (users db)); [|exact Href].
  unfold UserService.User_destroy.
  set (gone_users := filter (fun u => User.id u =? id) (users db)).
  set (of_gone uid := existsb (fun u => User.id u =? uid) gone_users).
  set (gone_posts := filter (fun p => of_gone (Post.user_id p)) (posts db)).
  assert (Hrefs : references_hold
    {| users := filter (fun u => negb (User.id u =? id)) (users db);
       posts := filter (fun p => negb (of_gone (Post.user_id p))) (posts db);
       post_likes :=
         {| PostLike.rows :=
              filter (fun l => negb (of_gone (PostLike.user_id l))
                       && negb (existsb (fun p => Post.id p =? PostLike.post_id l) gone_posts))
                     (PostLike.rows (post_likes db));
            PostLike.id_seq := PostLike.id_seq (post_likes db) |} |}).
  { destruct Href as [Hposts Hlikes].
    assert (Hstays : forall u uid, In u (users db) -> User.id u = uid ->
              of_gone uid = false ->
              In u (filter (fun u => negb (User.id u =? id)) (users db))).
    { intros u uid Hu Hid Hng. apply filter_In. split; [exact Hu|].
      destruct (User.id u =? id) eqn:E; [|reflexivity].
      exfalso. assert (of_gone uid = true); [|congruence].
      apply existsb_exists. exists u. split.
      - apply filter_In. split; [exact Hu|exact E].
      - apply Z.eqb_eq. exact Hid. }
    split.
    - intros p Hp. simpl in Hp. apply filter_In in Hp. destruct Hp as [Hp Hkeep].
      apply negb_true_iff in Hkeep.
      destruct (Hposts p Hp) as [u [Hu Hid]].
      exists u. split; [|exact Hid]. exact (Hstays u _ Hu Hid Hkeep).
    - intros l Hl. simpl in Hl. apply filter_In in Hl. destruct Hl as [Hl Hkeep].
      apply andb_true_iff in Hkeep. destruct Hkeep as [Hk1 Hk2].
      apply negb_true_iff in Hk1. apply negb_true_iff in Hk2.
      destruct (Hlikes l Hl) as [[u [Hu Hid]] [p [Hp Hpid]]]. split.
      + exists u. split; [|exact Hid]. exact (Hstays u _ Hu Hid Hk1).
      + exists p. split; [|exact Hpid]. simpl. apply filter_In. split; [exact Hp|].
        destruct (of_gone (Post.user_id p)) eqn:Hg; [|reflexivity].
        exfalso. assert (existsb (fun q => Post.id q =? PostLike.post_id l) gone_posts = true);
          [|congruence].
        apply existsb_exists. exists p. split.
        * apply filter_In. split; [exact Hp|exact Hg].
        * apply Z.eqb_eq. exact Hpid. }
  simpl. destruct (List.length gone_users =? 0)%nat; exact Hrefs.
Qed.

(** X16. The services keep the foreign keys: if every post refers to an
    existing user and every like to an existing user and post, the same
    holds after [toggleLike], [removeLike], [createPost], [updatePost],
    [schedulePost], [deletePost] and [deleteUser], resolved or rejected. *)
Theorem services_keep_references (characters : string -> Z)
  (now postId userId likeId nextval t : Z)
  (postData : PostService.PostInput) (updateData : Post.Values) (db : DB) :
  references_hold db ->
  references_hold (snd (LikeService.toggleLike now postId userId db))
  /\ references_hold (snd (LikeService.removeLike likeId userId db))
  /\ references_hold (snd (PostService.createPost characters nextval postData userId db))
  /\ references_hold (snd (PostService.updatePost characters now postId updateData
                             userId db))
  /\ references_hold (snd (PostService.schedulePost characters now postId t userId db))
  /\ references_hold (snd (PostService.deletePost now postId userId db))
  /\ references_hold (snd (UserService.deleteUser userId db)).
Proof.
  intros Href.
  split; [apply toggleLike_keeps_references; exact Href|].
  split.
  { rewrite removeLike_cases.
    destruct (PostLike.findOne _ (post_likes db)); [|exact Href].
    simpl. apply (references_after_like_rewrite db _ _ (save_row_refs _) Href). }
  split.
  { unfold PostService.createPost, bind, query, throw.
    destruct (User.findByPk userId (users db)) as [user|] eqn:Hu; [|exact Href].
    unfold Post.create. destruct (Post.validate characters _); simpl.
    - destruct Href as [Hposts Hlikes]. apply user_found in Hu. split.
      + intros p Hp. simpl in Hp. apply in_app_or in Hp. destruct Hp as [Hp|[<-|[]]].
        * exact (Hposts p Hp).
        * exists user. exact Hu.
      + intros l Hl. simpl in Hl. destruct (Hlikes l Hl) as [H1 [p [Hp Hid]]].
        split; [exact H1|]. exists p. split; [|exact Hid].
        simpl. apply in_or_app. left. exact Hp.
    - rewrite set_posts_same. exact Href. }
  split.
  { rewrite updatePost_cases.
    destruct (standing now postId userId db); [exact Href|exact Href|].
    destruct (Post.validate characters updateData) eqn:Hv; [|exact Href].
    simpl. unfold Post.update. rewrite Hv. simpl.
    apply (references_after_post_rewrite db _ (scoped_assign_refs now postId updateData)).
    exact Href. }
  split.
  { rewrite schedulePost_cases.
    destruct (standing now postId userId db); [exact Href|exact Href|].
    destruct (t <=? now); [exact Href|].
    simpl.
    apply (references_after_post_rewrite db _ (scoped_assign_refs now postId (reschedule t))).
    exact Href. }
  split; [apply deletePost_keeps_references; exact Href|].
  apply deleteUser_keeps_references. exact Href.
Qed.

Lemma services_keep_references_witness :
  references_hold Samples.liked_once
  /\ references_hold (snd (UserService.deleteUser 1 Samples.liked_once))
  /\ references_hold (snd (LikeService.toggleLike Samples.noon 1 1 Samples.liked_once)).
Proof.
  assert (H : references_hold Samples.liked_once).
  { split.
    - intros p [<-|[]]. exists Samples.ana. split; [left; reflexivity|reflexivity].
    - intros l [<-|[]]. split.
      + exists Samples.bia. split; [right; left; reflexivity|reflexivity].
      + exists Samples.postX. split; [left; reflexivity|reflexivity]. }
  split; [exact H|].
  destruct (services_keep_references Samples.characters Samples.noon 1 1 1 2
              Samples.noon draft
              (reschedule Samples.noon) Samples.liked_once H)
    as [Htoggle [_ [_ [_ [_ [_ Hdelete]]]]]].
  split; [exact Hdelete|exact Htoggle].
Defined.

(** ** deleteUser *)

Lemma existsb_gone_user (id uid : Z) (table : list User.t) (u : User.t) :
  User.findByPk id table = Some u ->
  existsb (fun x => User.id x =? uid) (filter (fun x => User.id x =? id) table)
  = (uid =? id).
Proof.
  intros Hfind. apply user_found in Hfind. destruct Hfind as [Hin Hid].
  destruct (uid =? id) eqn:E.
  - apply Z.eqb_eq in E. apply existsb_exists. exists u. split.
    + apply filter_In. split; [exact Hin|]. apply Z.eqb_eq. exact Hid.
    + apply Z.eqb_eq. congruence.
  - apply Z.eqb_neq in E.
    destruct (existsb _ _) eqn:Hex; [|reflexivity].
    apply existsb_exists in Hex. destruct Hex as [x [Hx Hxid]].
    apply filter_In in Hx. destruct Hx as [_ Hx].
    apply Z.eqb_eq in Hx. apply Z.eqb_eq in Hxid. congruence.
Qed.

(** X17. [deleteUser] of a missing user is rejected with "Usuário não
    encontrado" and writes nothing; of an existing user it resolves, after
    which the user cannot be fetched and no post and no like of that user
    is left. *)
Theorem deleteUser_removes_user_posts_and_likes (id : Z) (db : DB) :
  match User.findByPk id (users db) with
  | None =>
      UserService.deleteUser id db = (Rejected (new_Error "Usuário não encontrado"), db)
  | Some _ =>
      exists db',
        UserService.deleteUser id db = (Resolved true, db')
        /\ fst (UserService.getUserById id db')
           = Rejected (new_Error "Usuário não encontrado")
        /\ (forall p, In p (posts db') -> Post.user_id p <> id)
        /\ (forall l, In l (PostLike.rows (post_likes db')) -> PostLike.user_id l <> id)
  end.
Proof.
  unfold UserService.deleteUser, bind, query, throw, ret.
  destruct (User.findByPk id (users db)) as [u|] eqn:Hfind; [|reflexivity].
  unfold UserService.User_destroy.
  assert (Hlen : Nat.eqb (List.length (filter (fun x => User.id x =? id) (users db))) 0
                 = false).
  { destruct (user_found _ _ _ Hfind) as [Hin Hid].
    assert (Hg : In u (filter (fun x => User.id x =? id) (users db))).
    { apply filter_In. split; [exact Hin|]. apply Z.eqb_eq. exact Hid. }
    destruct (filter (fun x => User.id x =? id) (users db)); [contradiction|reflexivity]. }
  rewrite Hlen. eexists. split; [reflexivity|]. simpl. split; [|split].
  - unfold UserService.getUserById, bind, query, throw. simpl.
    unfold User.findByPk.
    rewrite (find_filter_negb (fun x => User.id x =? id) (users db)). reflexivity.
  - intros p Hp. apply filter_In in Hp. destruct Hp as [_ Hkeep].
    rewrite (existsb_gone_user _ _ _ _ Hfind) in Hkeep.
    intros E. rewrite E, Z.eqb_refl in Hkeep. discriminate.
  - intros l Hl. apply filter_In in Hl. destruct Hl as [_ Hkeep].
    apply andb_true_iff in Hkeep. destruct Hkeep as [Hkeep _].
    rewrite (existsb_gone_user _ _ _ _ Hfind) in Hkeep.
    intros E. rewrite E, Z.eqb_refl in Hkeep. discriminate.
Qed.

(** ** Password strength *)

Lemma check_isValid (test : bool) (msg : string) (r : AuthUtils.Strength) :
  AuthUtils.isValid (AuthUtils.check test msg r) = AuthUtils.isValid r.
Proof. unfold AuthUtils.check. destruct test; reflexivity. Qed.

Lemma check_score (test : bool) (msg : string) (r : AuthUtils.Strength) :
  (AuthUtils.score r <= AuthUtils.score (AuthUtils.check test msg r)
   <= S (AuthUtils.score r))%nat.
Proof. unfold AuthUtils.check. destruct test; simpl; lia. Qed.

Lemma validatePasswordStrength_isValid (password : string) :
  AuthUtils.isValid (AuthUtils.validatePasswordStrength password)
  = negb (JsString.length password <? 6)%nat
    && negb (existsb (String.eqb (AuthUtils.toLowerCase password))
                     AuthUtils.commonPasswords).
Proof.
  unfold AuthUtils.validatePasswordStrength.
  destruct (existsb (String.eqb (AuthUtils.toLowerCase password)) AuthUtils.commonPasswords),
    (JsString.length password <? 6)%nat, (8 <=? JsString.length password)%nat,
    (existsb (AuthUtils.between 97 122) (AuthUtils.chars password)),
    (existsb (AuthUtils.between 65 90) (AuthUtils.chars password)),
    (existsb (AuthUtils.between 48 57) (AuthUtils.chars password)),
    (existsb (fun c => existsb (Nat.eqb c) AuthUtils.special) (AuthUtils.chars password));
    reflexivity.
Qed.

Lemma validatePasswordStrength_score (password : string) :
  (AuthUtils.score (AuthUtils.validatePasswordStrength password) <= 6)%nat
  /\ ((JsString.length password <? 6)%nat = false ->
      (1 <= AuthUtils.score (AuthUtils.validatePasswordStrength password))%nat).
Proof.
  unfold AuthUtils.validatePasswordStrength.
  destruct (existsb (String.eqb (AuthUtils.toLowerCase password)) AuthUtils.commonPasswords),
    (JsString.length password <? 6)%nat, (8 <=? JsString.length password)%nat,
    (existsb (AuthUtils.between 97 122) (AuthUtils.chars password)),
    (existsb (AuthUtils.between 65 90) (AuthUtils.chars password)),
    (existsb (AuthUtils.between 48 57) (AuthUtils.chars password)),
    (existsb (fun c => existsb (Nat.eqb c) AuthUtils.special) (AuthUtils.chars password));
    simpl; split; try lia; try discriminate; intros _; lia.
Qed.

(** X18. [validatePasswordStrength] accepts a password exactly when its
    [length], counted in UTF-16 units, is at least 6 and, lower-cased, it
    is not one of the five common passwords; character classes only move
    the score, which never exceeds 6 and is at least 1 for an accepted
    password. *)
Theorem validatePasswordStrength_accepts (password : string) :
  (AuthUtils.isValid (AuthUtils.validatePasswordStrength password) = true
   <-> (6 <= JsString.length password)%nat
       /\ ~ In (AuthUtils.toLowerCase password) AuthUtils.commonPasswords)
  /\ (AuthUtils.score (AuthUtils.validatePasswordStrength password) <= 6)%nat
  /\ (AuthUtils.isValid (AuthUtils.validatePasswordStrength password) = true ->
      (1 <= AuthUtils.score (AuthUtils.validatePasswordStrength password))%nat).
Proof.
  assert (Hcommon : existsb (String.eqb (AuthUtils.toLowerCase password))
                            AuthUtils.commonPasswords = true
            <-> In (AuthUtils.toLowerCase password) AuthUtils.commonPasswords).
  { rewrite existsb_exists. split.
    - intros [x [Hx E]]. apply String.eqb_eq in E. subst x. exact Hx.
    - intros H. exists (AuthUtils.toLowerCase password). split; [exact H|].
      apply String.eqb_refl. }
  rewrite validatePasswordStrength_isValid.
  destruct (validatePasswordStrength_score password) as [Hmax Hmin].
  split; [|split; [exact Hmax|]].
  - rewrite andb_true_iff, !negb_true_iff, Nat.ltb_ge.
    split; intros [Hlen Hc]; (split; [exact Hlen|]).
    + intros Hin. apply Hcommon in Hin. congruence.
    + destruct (existsb _ AuthUtils.commonPasswords); [|reflexivity].
      exfalso. apply Hc. apply Hcommon. reflexivity.
  - intros H. apply andb_true_iff in H. destruct H as [H _].
    apply negb_true_iff in H. exact (Hmin H).
Qed.

(** "Ana#2024" is accepted; three letters a with tilde, six bytes and three
    UTF-16 units, are not, and neither is "PASSWORD". *)
Lemma validatePasswordStrength_accepts_witness :
  AuthUtils.isValid (AuthUtils.validatePasswordStrength "Ana#2024") = true
  /\ String.length "ããã" = 6%nat
  /\ JsString.length "ããã" = 3%nat
  /\ AuthUtils.isValid (AuthUtils.validatePasswordStrength "ããã") <> true
  /\ AuthUtils.isValid (AuthUtils.validatePasswordStrength "PASSWORD") <> true.
Proof.
  split.
  - apply (proj1 (validatePasswordStrength_accepts "Ana#2024")). split.
    + vm_compute. lia.
    + vm_compute. intros [E|[E|[E|[E|[E|[]]]]]]; discriminate.
  - split; [reflexivity|]. split; [reflexivity|]. split.
    + intros H. apply (proj1 (validatePasswordStrength_accepts "ããã")) in H.
      destruct H as [H _]. vm_compute in H. lia.
    + intros H. apply (proj1 (validatePasswordStrength_accepts "PASSWORD")) in H.
      destruct H as [_ H]. apply H. vm_compute. right. left. reflexivity.
Defined.

(** ** The Authorization header *)

Lemma split_space_not_nil (s : string) : AuthUtils.split_space s <> [].
Proof.
  destruct s as [|c s]; simpl; [discriminate|].
  destruct (Ascii.eqb c " "); [discriminate|].
  destruct (AuthUtils.split_space s); discriminate.
Qed.

Lemma split_space_no_space (s : string) :
  has_space s = false -> AuthUtils.split_space s = [s].
Proof.
  unfold has_space. induction s as [|c s IH]; simpl; [reflexivity|].
  destruct (Ascii.eqb c " "); simpl; [discriminate|].
  intros H. rewrite (IH H). reflexivity.
Qed.

Lemma split_space_append (a b : string) :
  has_space a = false ->
  AuthUtils.split_space (a ++ String " " b) = a :: AuthUtils.split_space b.
Proof.
  unfold has_space. induction a as [|c a IH]; simpl; [reflexivity|].
  destruct (Ascii.eqb c " "); simpl; [discriminate|].
  intros H. rewrite (IH H). reflexivity.
Qed.

Lemma split_space_two (s x y : string) :
  AuthUtils.split_space s = [x; y] ->
  s = (x ++ String " " y)%string /\ has_space y = false.
Proof.
  revert x. induction s as [|c s IH]; intros x; simpl; [discriminate|].
  destruct (Ascii.eqb c " ") eqn:E.
  - apply Ascii.eqb_eq in E. subst c. intros H. injection H as <- Hrest.
    simpl. destruct (has_space s) eqn:Hs.
    + exfalso. clear IH. revert y Hrest Hs. unfold has_space.
      induction s as [|d s IHs]; intros y Hrest Hs; simpl in *; [discriminate|].
      destruct (Ascii.eqb d " "); simpl in *.
      * injection Hrest as _ Hnil. exact (split_space_not_nil s Hnil).
      * destruct (AuthUtils.split_space s) as [|piece pieces] eqn:Hsp.
        -- exact (split_space_not_nil s Hsp).
        -- injection Hrest as _ ->. exact (IHs _ eq_refl Hs).
    + rewrite (split_space_no_space s Hs) in Hrest. injection Hrest as <-.
      split; [reflexivity|exact Hs].
  - destruct (AuthUtils.split_space s) as [|piece pieces] eqn:Hsp.
    + intros H. discriminate.
    + intros H. injection H as <- ->.
      destruct (IH piece eq_refl) as [-> Hy]. split; [reflexivity|exact Hy].
Qed.

Lemma extractTokenFromHeader_some (header token : string) :
  AuthUtils.extractTokenFromHeader (Some header) = Some token ->
  header = ("Bearer " ++ token)%string /\ has_space token = false.
Proof.
  unfold AuthUtils.extractTokenFromHeader.
  destruct header as [|c header]; [discriminate|].
  destruct (AuthUtils.split_space (String c header)) as [|scheme [|cred [|more rest]]]
    eqn:Hsplit; try discriminate.
  destruct (String.eqb scheme "Bearer") eqn:E; [|discriminate].
  apply String.eqb_eq in E. subst scheme.
  intros H. injection H as ->.
  destruct (split_space_two _ _ _ Hsplit) as [Heq Hns].
  split; [exact Heq|exact Hns].
Qed.

Lemma extractTokenFromHeader_bearer (token : string) :
  has_space token = false ->
  AuthUtils.extractTokenFromHeader (Some ("Bearer " ++ token)%string) = Some token.
Proof.
  intros Hns. unfold AuthUtils.extractTokenFromHeader.
  change ("Bearer " ++ token)%string with ("Bearer" ++ String " " token)%string.
  replace (AuthUtils.split_space ("Bearer" ++ String " " token))
    with ["Bearer"; token].
  - reflexivity.
  - rewrite split_space_append; [|reflexivity].
    rewrite (split_space_no_space token Hns). reflexivity.
Qed.

(** X19. [extractTokenFromHeader] returns a token exactly for a header made
    of the word Bearer, one space, and a token without spaces, and then
    returns that token. *)
Theorem extractTokenFromHeader_round_trip (header token : string) :
  AuthUtils.extractTokenFromHeader (Some header) = Some token
  <-> header = ("Bearer " ++ token)%string /\ has_space token = false.
Proof.
  split.
  - apply extractTokenFromHeader_some.
  - intros [-> Hns]. apply extractTokenFromHeader_bearer. exact Hns.
Qed.

(** ** AuthMiddleware *)

(** X20. [isAuthenticated] lets a request through exactly when the header
    is the word Bearer, one space and a non-empty token without spaces that
    [jwt.verify] decodes; [req.auth] then carries the decoded id, email and
    name and that token. Every other request is answered 401. *)
Theorem isAuthenticated_passes_iff (jwt_verify : string -> AuthMiddleware.Verification)
  (authorization : option string) (auth : option AuthMiddleware.Auth) :
  AuthMiddleware.isAuthenticated jwt_verify authorization = AuthMiddleware.next auth
  <-> exists token payload,
        authorization = Some ("Bearer " ++ token)%string
        /\ token <> EmptyString
        /\ has_space token = false
        /\ jwt_verify token = AuthMiddleware.decoded payload
        /\ auth = Some (AuthMiddleware.auth_of payload token).
Proof.
  split.
  - unfold AuthMiddleware.isAuthenticated.
    destruct authorization as [[|c header]|]; try discriminate.
    destruct (AuthUtils.extractTokenFromHeader (Some (String c header)))
      as [[|d token]|] eqn:Hextract; try discriminate.
    unfold AuthMiddleware.verifyToken.
    destruct (jwt_verify (String d token)) as [payload| | |] eqn:Hverify;
      try discriminate.
    intros H. injection H as <-.
    apply extractTokenFromHeader_some in Hextract. destruct Hextract as [Hh Hns].
    exists (String d token), payload. rewrite Hh.
    repeat split; try assumption. discriminate.
  - intros [token [payload [-> [Hne [Hns [Hverify ->]]]]]].
    assert (Hextract : AuthUtils.extractTokenFromHeader (Some ("Bearer " ++ token)%string)
                       = Some token).
    { apply extractTokenFromHeader_bearer. exact Hns. }
    unfold AuthMiddleware.isAuthenticated.
    change ("Bearer " ++ token)%string with (String "B" ("earer " ++ token)%string) in *.
    rewrite Hextract.
    destruct token as [|d token]; [contradiction|].
    unfold AuthMiddleware.verifyToken. rewrite Hverify. reflexivity.
Qed.

(** X21. [optionalAuth] never answers by itself: it always calls [next],
    with the [req.auth] that [isAuthenticated] would have set when that
    one passes, and with [null] when it would have answered 401. *)
Theorem optionalAuth_never_rejects (jwt_verify : string -> AuthMiddleware.Verification)
  (authorization : option string) :
  AuthMiddleware.optionalAuth jwt_verify authorization
  = AuthMiddleware.next
      (match AuthMiddleware.isAuthenticated jwt_verify authorization with
       | AuthMiddleware.next auth => auth
       | AuthMiddleware.unauthorized _ => None
       end).
Proof.
  unfold AuthMiddleware.optionalAuth, AuthMiddleware.isAuthenticated.
  destruct authorization as [[|c header]|]; try reflexivity.
  destruct (AuthUtils.extractTokenFromHeader (Some (String c header)))
    as [[|d token]|]; try reflexivity.
  destruct (AuthMiddleware.verifyToken jwt_verify (String d token)); reflexivity.
Qed.

(** ** changePassword *)

(** X22. [changePassword] resolves exactly when the user exists, the
    current password matches the stored hash, the new password passes the
    strength validation, differs from the current one, and passes the
    validator of the model, which wants 6 to 50 characters. *)
Theorem changePassword_resolves_iff
  (bcrypt_compare : string -> string -> bool) (written_hash : string -> string -> string)
  (characters : string -> Z)
  (id : Z) (currentPassword newPassword : string) (db : DB) :
  fst (UserService.changePassword bcrypt_compare written_hash characters
         id currentPassword newPassword db) = Resolved true
  <-> exists byId user,
        User.findByPk id (users db) = Some byId
        /\ User.findOne_by_email (User.email byId) (users db) = Some user
        /\ bcrypt_compare currentPassword (User.password_hash user) = true
        /\ AuthUtils.isValid (AuthUtils.validatePasswordStrength newPassword) = true
        /\ currentPassword <> newPassword
        /\ Validator.len characters 6 50 newPassword = true.
Proof.
  unfold UserService.changePassword, bind, query, throw, ret, UserService.checkPassword,
    UserService.UserRepository_update_password, UserService.password_failures,
    Validator.failure.
  split.
  - destruct (User.findByPk id (users db)) as [byId|] eqn:Hid; [|discriminate].
    destruct (User.findOne_by_email (User.email byId) (users db)) as [user|] eqn:Hmail;
      [|discriminate].
    destruct (bcrypt_compare currentPassword (User.password_hash user)) eqn:Hok;
      [|discriminate]. simpl.
    destruct (AuthUtils.isValid (AuthUtils.validatePasswordStrength newPassword)) eqn:Hv;
      [|discriminate]. simpl.
    destruct (String.eqb currentPassword newPassword) eqn:E; [discriminate|].
    destruct (Validator.len characters 6 50 newPassword) eqn:Hlen; [|discriminate].
    intros _. exists byId, user.
    split; [reflexivity|]. split; [exact Hmail|]. split; [exact Hok|].
    split; [reflexivity|]. split; [|reflexivity]. apply String.eqb_neq. exact E.
  - intros [byId [user [Hid [Hmail [Hok [Hv [Hne Hlen]]]]]]].
    rewrite Hid, Hmail, Hok, Hv. simpl.
    rewrite (proj2 (String.eqb_neq _ _) Hne), Hlen. reflexivity.
Qed.

(** A strong new password of 51 characters passes every check of the
    service and is refused by the model's validator, before any write. *)
Lemma changePassword_resolves_iff_witness :
  AuthUtils.isValid
    (AuthUtils.validatePasswordStrength
       "Abcdefghij1!Abcdefghij1!Abcdefghij1!Abcdefghij1!Abc") = true
  /\ fst (UserService.changePassword Fakes.compare Fakes.rehash Samples.characters 1
            "Ana#2024" "Abcdefghij1!Abcdefghij1!Abcdefghij1!Abcdefghij1!Abc"
            ana_with_password) <> Resolved true
  /\ UserService.changePassword Fakes.compare Fakes.rehash Samples.characters 1
       "Ana#2024" "Abcdefghij1!Abcdefghij1!Abcdefghij1!Abcdefghij1!Abc"
       ana_with_password
     = (Rejected (ValidationError ["Senha deve ter entre 6 e 50 caracteres"]),
        ana_with_password).
Proof.
  split; [vm_compute; reflexivity|]. split.
  - intros H.
    apply (proj1 (changePassword_resolves_iff Fakes.compare Fakes.rehash
                    Samples.characters 1 "Ana#2024"
                    "Abcdefghij1!Abcdefghij1!Abcdefghij1!Abcdefghij1!Abc"
                    ana_with_password)) in H.
    destruct H as [byId [user [_ [_ [_ [_ [_ Hlen]]]]]]].
    vm_compute in Hlen. discriminate.
  - vm_compute. reflexivity.
Defined.

(** ** Pagination *)

Lemma ceil_div_covers (total limit : Z) :
  0 < limit ->
  (Pagination.ceil_div total limit - 1) * limit < total
  <= Pagination.ceil_div total limit * limit.
Proof.
  intros Hpos. unfold Pagination.ceil_div.
  pose proof (Z.mul_div_le (- total) limit Hpos) as H1.
  pose proof (Z.mul_succ_div_gt (- total) limit Hpos) as H2.
  nia.
Qed.

(** X25. For a positive limit, [getMetadata] reports in [pages] the least
    number of pages that holds [total] items, and [hasNext] exactly when
    items remain after the current page. *)
Theorem getMetadata_pages_and_next (total limit offset : Z) :
  0 < limit ->
  exists m,
    Pagination.getMetadata total limit offset = Some m
    /\ (Pagination.pages m - 1) * limit < total <= Pagination.pages m * limit
    /\ (Pagination.hasNext m = true <-> Pagination.currentPage m * limit < total)
    /\ Pagination.nextPage m
       = (if Pagination.hasNext m then Some (Pagination.currentPage m + 1) else None).
Proof.
  intros Hpos. unfold Pagination.getMetadata.
  destruct (limit =? 0) eqn:E; [apply Z.eqb_eq in E; lia|].
  eexists. split; [reflexivity|]. simpl.
  pose proof (ceil_div_covers total limit Hpos) as Hc.
  split; [exact Hc|]. split; [|reflexivity].
  rewrite Z.ltb_lt. split; intros H; nia.
Qed.

Lemma getMetadata_pages_and_next_witness :
  exists m,
    Pagination.getMetadata 101 25 50 = Some m
    /\ Pagination.pages m = 5 /\ Pagination.currentPage m = 3
    /\ Pagination.hasNext m = true.
Proof.
  destruct (getMetadata_pages_and_next 101 25 50) as [m [Hm _]].
  - lia.
  - exists m. split; [exact Hm|].
    vm_compute in Hm. injection Hm as <-. repeat split.
Defined.

(** X26. When the offset is a multiple of a positive limit, [getStats] and
    [getMetadata] agree on the end of the listing: [isLastPage] holds
    exactly when [hasNext] does not. *)
Theorem getStats_agrees_with_getMetadata (total limit offset : Z) :
  0 < limit ->
  offset mod limit = 0 ->
  option_map Pagination.hasNext (Pagination.getMetadata total limit offset)
  = Some (negb (Pagination.isLastPage (Pagination.getStats total limit offset))).
Proof.
  intros Hpos Hmod. unfold Pagination.getMetadata, Pagination.getStats.
  destruct (limit =? 0) eqn:E; [apply Z.eqb_eq in E; lia|].
  simpl. f_equal.
  pose proof (ceil_div_covers total limit Hpos) as Hc.
  assert (Hoff : offset = limit * (offset / limit)).
  { pose proof (Z.div_mod offset limit ltac:(lia)) as H. lia. }
  destruct (offset + limit >=? total) eqn:Hlast; simpl.
  - rewrite Z.geb_leb in Hlast. apply Z.leb_le in Hlast.
    apply Z.ltb_ge. nia.
  - rewrite Z.geb_leb in Hlast. apply Z.leb_gt in Hlast.
    apply Z.ltb_lt. nia.
Qed.

Lemma getStats_agrees_with_getMetadata_witness :
  option_map Pagination.hasNext (Pagination.getMetadata 101 25 100) = Some false.
Proof.
  rewrite (getStats_agrees_with_getMetadata 101 25 100).
  - reflexivity.
  - lia.
  - reflexivity.
Defined.
